(** * Job tracker: the ingestion pipeline

    A shallow embedding of the scraping and persistence code of the
    backend:

    - [app/scrapers/base.py]    ([BaseScraper]),
    - [app/scrapers/indeed.py]  ([IndeedScraper]),
    - [app/services/job_service.py] ([JobScraperService]),
    - [app/models.py]           ([Job], [ScraperLog]),
    - [app/config.py]           ([Settings]).

    Python objects are records, methods are functions over an explicit
    state, exceptions are a result type, and everything the code does to
    the outside world (browser, sleeps, error log) is collected as a
    list of events. *)

From Stdlib Require Import String Ascii List ZArith Lia Bool Arith.
Import ListNotations.
Local Open Scope string_scope.
Local Open Scope list_scope.

(* ================================================================== *)
(** ** Python built-ins used by the code *)
(* ================================================================== *)

Module Py.

(** [s.startswith(p)] *)
Definition startswith (s p : string) : bool := String.prefix p s.

(** [l[:n]] for any integer [n]; a negative [n] counts from the end. *)
Definition slice_to {A : Type} (l : list A) (n : Z) : list A :=
  if (0 <=? n)%Z then firstn (Z.to_nat n) l
  else firstn (Z.to_nat (Z.of_nat (length l) + n)) l.

(** [l[-1]], on a list that is known to be non-empty where the code
    evaluates it; [None] stands for the [IndexError] of an empty list. *)
Fixpoint last_item {A : Type} (l : list A) : option A :=
  match l with
  | [] => None
  | [x] => Some x
  | _ :: r => last_item r
  end.

(** [str.isspace] on the ASCII range. *)
Definition is_space (c : ascii) : bool :=
  let n := nat_of_ascii c in
  (((9 <=? n) && (n <=? 13)) || ((28 <=? n) && (n <=? 32)))%nat.

Fixpoint lstrip_chars (l : list ascii) : list ascii :=
  match l with
  | c :: r => if is_space c then lstrip_chars r else l
  | [] => []
  end.

(** [s.strip()] *)
Definition strip (s : string) : string :=
  string_of_list_ascii
    (rev (lstrip_chars (rev (lstrip_chars (list_ascii_of_string s))))).

(** [s.split(sep)] for a one-character separator: the pieces between
    the separators, empty ones included. *)
Fixpoint split_chars (sep : ascii) (l : list ascii) (cur : list ascii)
  : list string :=
  match l with
  | [] => [string_of_list_ascii (rev cur)]
  | c :: r =>
      if Ascii.eqb c sep
      then string_of_list_ascii (rev cur) :: split_chars sep r []
      else split_chars sep r (c :: cur)
  end.

Definition split (sep : ascii) (s : string) : list string :=
  split_chars sep (list_ascii_of_string s) [].

(** [s.split()]: the maximal runs of non-space characters. *)
Fixpoint words_chars (l : list ascii) (cur : list ascii) : list string :=
  match l with
  | [] => match cur with [] => [] | _ => [string_of_list_ascii (rev cur)] end
  | c :: r =>
      if is_space c
      then match cur with
           | [] => words_chars r []
           | _ => string_of_list_ascii (rev cur) :: words_chars r []
           end
      else words_chars r (c :: cur)
  end.

Definition words (s : string) : list string :=
  words_chars (list_ascii_of_string s) [].

(** [sep.join(l)] *)
Definition join (sep : string) (l : list string) : string :=
  String.concat sep l.

(** [urllib.parse.quote_plus(s)] on a byte string: letters, digits and
    [_.-~] are kept, a space becomes [+], every other byte becomes
    [%XX] with upper-case hexadecimal digits. *)
Definition is_unreserved (c : ascii) : bool :=
  let n := nat_of_ascii c in
  (((48 <=? n) && (n <=? 57)) || ((65 <=? n) && (n <=? 90))
   || ((97 <=? n) && (n <=? 122))
   || (n =? 95) || (n =? 46) || (n =? 45) || (n =? 126))%nat.

Definition hex_digit (n : nat) : ascii :=
  nth n (list_ascii_of_string "0123456789ABCDEF") "0"%char.

Definition quote_byte (c : ascii) : string :=
  if is_unreserved c then String c EmptyString
  else if Ascii.eqb c " "%char then "+"
  else
    let n := nat_of_ascii c in
    String "%"%char
      (String (hex_digit (n / 16)) (String (hex_digit (n mod 16)) EmptyString)).

Fixpoint quote_plus (s : string) : string :=
  match s with
  | EmptyString => EmptyString
  | String c r => quote_byte c ++ quote_plus r
  end.

(** [str(n)] for a non-negative integer: its decimal digits. *)
Fixpoint digits (fuel n : nat) (acc : string) : string :=
  match fuel with
  | 0 => acc
  | S fuel' =>
      let acc' := String (ascii_of_nat (48 + n mod 10)) acc in
      if (n / 10 =? 0)%nat then acc' else digits fuel' (n / 10) acc'
  end.

Definition str_nat (n : nat) : string := digits (S n) n EmptyString.

(** [range(n)] for any integer [n]; empty when [n <= 0]. *)
Definition range (n : Z) : list nat := seq 0 (Z.to_nat n).

End Py.

(* ================================================================== *)
(** ** The parsed document (BeautifulSoup) *)
(* ================================================================== *)

Module Soup.

(** A node of the parsed page: a text node or an element with its
    attribute dictionary and its children.  The [class] attribute is
    kept as written; its value is split at white space when a class
    is looked for. *)
#[warnings="-register-all"]
Inductive Tag : Type :=
| NavigableString (text : string)
| Element (name : string) (attrs : list (string * string))
          (contents : list Tag).

Fixpoint lookup (key : string) (attrs : list (string * string))
  : option string :=
  match attrs with
  | [] => None
  | (k, v) :: r => if String.eqb k key then Some v else lookup key r
  end.

Definition attrs_of (t : Tag) : list (string * string) :=
  match t with
  | NavigableString _ => []
  | Element _ a _ => a
  end.

(** [tag.get(key, default)] *)
Definition get (t : Tag) (key default : string) : string :=
  match lookup key (attrs_of t) with
  | Some v => v
  | None => default
  end.

(** Every node below [t], in document order ([tag.descendants]). *)
Fixpoint descendants (t : Tag) : list Tag :=
  match t with
  | NavigableString _ => []
  | Element _ _ cs =>
      (fix walk (l : list Tag) : list Tag :=
         match l with
         | [] => []
         | c :: r => c :: descendants c ++ walk r
         end) cs
  end.

(** The two kinds of attribute filter the scraper passes to [find]:
    [class_='c'] (also written [{'class': 'c'}]) and [{'k': 'v'}]. *)
Inductive filter_by : Type :=
| AnyAttrs
| Class_ (c : string)
| Attr (key value : string).

Definition has_class (c : string) (attrs : list (string * string)) : bool :=
  match lookup "class" attrs with
  | Some v => existsb (String.eqb c) (Py.words v)
  | None => false
  end.

Definition attrs_match (f : filter_by) (attrs : list (string * string))
  : bool :=
  match f with
  | AnyAttrs => true
  | Class_ c => has_class c attrs
  | Attr k v =>
      match lookup k attrs with
      | Some v' => String.eqb v v'
      | None => false
      end
  end.

Definition matches (name : string) (f : filter_by) (t : Tag) : bool :=
  match t with
  | NavigableString _ => false
  | Element n a _ => String.eqb n name && attrs_match f a
  end.

(** [tag.find(name, ...)]: the first matching descendant, [None]
    when there is none. *)
Definition find (t : Tag) (name : string) (f : filter_by) : option Tag :=
  List.find (matches name f) (descendants t).

(** [tag.find_all(name, ...)] *)
Definition find_all (t : Tag) (name : string) (f : filter_by) : list Tag :=
  List.filter (matches name f) (descendants t).

Definition stripped_strings (t : Tag) : list string :=
  flat_map
    (fun d =>
       match d with
       | NavigableString s =>
           let s' := Py.strip s in
           if String.eqb s' "" then [] else [s']
       | Element _ _ _ => []
       end)
    (descendants t).

(** [tag.get_text(strip=True)] *)
Definition get_text_strip (t : Tag) : string :=
  Py.join "" (stripped_strings t).

(** Selenium's [presence_of_element_located((By.CLASS_NAME, c))],
    evaluated on the document the browser holds. *)
Definition class_present (c : string) (doc : Tag) : bool :=
  existsb (fun d => has_class c (attrs_of d)) (descendants doc).

End Soup.

Import Soup.

(* ================================================================== *)
(** ** Records of [app/models.py] and the scraped dictionary *)
(* ================================================================== *)

(** The dictionary built by [parse_job_listing]; its key set is fixed. *)
Record RawListing : Type := mkRawListing {
  job_title : string;
  job_board_url : string;
  company : string;
  location : string;
  salary_range : option string;
  description : string;
  job_board_source : string;
  requirements : option string
}.

(* ================================================================== *)
(** ** Exceptions, events and the monad of the methods *)
(* ================================================================== *)

(** The exception classes the code distinguishes.  All of them are
    subclasses of [Exception], which is what every [except] clause of
    the pipeline catches.  The message of an exception that a library
    raises stands for whatever text the library gives it. *)
Inductive exn : Type :=
| IntegrityError (msg : string)
| TimeoutException (msg : string)
| WebDriverException (msg : string)
| IndexError (msg : string)
| Exception (msg : string).

(** [str(e)] *)
Definition str (e : exn) : string :=
  match e with
  | IntegrityError m | TimeoutException m | WebDriverException m
  | IndexError m | Exception m => m
  end.

Inductive res (A : Type) : Type :=
| Ok (a : A)
| Raise (e : exn).
Arguments Ok {A} a.
Arguments Raise {A} e.

(** What a run does to the outside world, in the order it happens.
    Of the log only the [logger.error] calls are recorded. *)
Inductive event : Type :=
| DriverStart                (* webdriver.Chrome(...) *)
| DriverGet (url : string)   (* self.driver.get(url) *)
| DriverQuit                 (* self.driver.quit() *)
| Sleep (seconds : Z)        (* time.sleep(self.delay_min) *)
| RandomDelay                (* self.random_delay() *)
| LogError (msg : string).   (* logger.error(msg) *)

(** A method over an object state [S]: it returns or raises, leaves a
    new state, and emits events. *)
Definition M (S A : Type) : Type := S -> res A * S * list event.

Definition ret {S A : Type} (a : A) : M S A := fun s => (Ok a, s, []).

Definition raise {S A : Type} (e : exn) : M S A := fun s => (Raise e, s, []).

Definition bind {S A B : Type} (m : M S A) (f : A -> M S B) : M S B :=
  fun s =>
    match m s with
    | (Ok a, s1, ev1) =>
        match f a s1 with
        | (r, s2, ev2) => (r, s2, ev1 ++ ev2)
        end
    | (Raise e, s1, ev1) => (Raise e, s1, ev1)
    end.

Definition gets {S A : Type} (f : S -> A) : M S A := fun s => (Ok (f s), s, []).

Definition modify {S : Type} (f : S -> S) : M S unit := fun s => (Ok tt, f s, []).

Definition emit {S : Type} (e : event) : M S unit := fun s => (Ok tt, s, [e]).

(** [try: m  except Exception as e: h e] *)
Definition try_except {S A : Type} (m : M S A) (h : exn -> M S A) : M S A :=
  fun s =>
    match m s with
    | (Ok a, s1, ev1) => (Ok a, s1, ev1)
    | (Raise e, s1, ev1) =>
        match h e s1 with
        | (r, s2, ev2) => (r, s2, ev1 ++ ev2)
        end
    end.

(** [try: m  finally: f] *)
Definition try_finally {S A : Type} (m : M S A) (f : M S unit) : M S A :=
  fun s =>
    match m s with
    | (r, s1, ev1) =>
        match f s1 with
        | (Ok _, s2, ev2) => (r, s2, ev1 ++ ev2)
        | (Raise e, s2, ev2) => (Raise e, s2, ev1 ++ ev2)
        end
    end.

Declare Scope py_scope.
Delimit Scope py_scope with py.
Notation "x <- m ;; k" := (bind m (fun x => k))
  (at level 61, m at next level, right associativity) : py_scope.
Notation "m ;; k" := (bind m (fun _ => k))
  (at level 61, right associativity) : py_scope.
Local Open Scope py_scope.

Definition result_of {S A : Type} (x : res A * S * list event) : res A :=
  fst (fst x).
Definition state_of {S A : Type} (x : res A * S * list event) : S :=
  snd (fst x).
Definition events_of {S A : Type} (x : res A * S * list event) : list event :=
  snd x.

(** The URLs requested from the browser, in order. *)
Definition requests (evs : list event) : list string :=
  flat_map (fun e => match e with DriverGet u => [u] | _ => [] end) evs.

Definition is_delay (e : event) : bool :=
  match e with RandomDelay => true | _ => false end.

(* ================================================================== *)
(** ** [BaseScraper] *)
(* ================================================================== *)

(** The fields of a scraper object; [ext] holds those a subclass adds.
    The two time stamps of the base class only feed an [info] line and
    are left out.  The delays are the seconds given to the constructor,
    2 and 5 unless said otherwise; a negative duration, which
    [time.sleep] would refuse, is not considered. *)
Record Scraper (X : Type) : Type := mkScraper {
  delay_min : Z;
  delay_max : Z;
  jobs_scraped : list RawListing;
  ext : X
}.
Arguments mkScraper {X}.
Arguments delay_min {X}.
Arguments delay_max {X}.
Arguments jobs_scraped {X}.
Arguments ext {X}.

Definition set_jobs_scraped {X : Type} (l : list RawListing) (s : Scraper X)
  : Scraper X :=
  {| delay_min := delay_min s; delay_max := delay_max s;
     jobs_scraped := l; ext := ext s |}.

Definition set_ext {X : Type} (x : X) (s : Scraper X) : Scraper X :=
  {| delay_min := delay_min s; delay_max := delay_max s;
     jobs_scraped := jobs_scraped s; ext := x |}.

(** The abstract methods every scraper has to provide. *)
Class ScraperMethods (X : Type) : Type := {
  build_search_url : string -> string -> M (Scraper X) string;
  parse_job_listing : Tag -> M (Scraper X) (option RawListing);
  scrape_search_page : string -> M (Scraper X) (list RawListing)
}.

Module BaseScraper.
Section Methods.

Context {X : Type} {methods : ScraperMethods X}.

(** [random_delay]: sleeps between [delay_min] and [delay_max] seconds. *)
Definition random_delay : M (Scraper X) unit := emit RandomDelay.

(** [len(self.jobs_scraped) >= max_jobs] *)
Definition limit_reached (max_jobs : Z) : M (Scraper X) bool :=
  gets (fun s => (max_jobs <=? Z.of_nat (length (jobs_scraped s)))%Z).

(** [self.jobs_scraped.extend(jobs)] *)
Definition extend (jobs : list RawListing) : M (Scraper X) unit :=
  modify (fun s => set_jobs_scraped (jobs_scraped s ++ jobs) s).

(** [l[-1]] *)
Definition last_of (l : list string) : M (Scraper X) string :=
  match Py.last_item l with
  | Some x => ret x
  | None => raise (IndexError "list index out of range")
  end.

(** [if keyword != keywords[-1] or location != locations[-1]:
       self.random_delay()] *)
Definition rate_limit (keywords locations : list string)
           (keyword location : string) : M (Scraper X) unit :=
  k_last <- last_of keywords ;;
  if negb (String.eqb keyword k_last) then random_delay
  else
    l_last <- last_of locations ;;
    if negb (String.eqb location l_last) then random_delay else ret tt.

(** The inner [for location in locations] loop, from the locations
    that are left; a [break] ends it. *)
Fixpoint for_locations (keywords locations : list string) (max_jobs : Z)
         (keyword : string) (todo : list string) : M (Scraper X) unit :=
  match todo with
  | [] => ret tt
  | location :: rest =>
      full <- limit_reached max_jobs ;;
      if full then ret tt
      else
        url <- build_search_url keyword location ;;
        jobs <- scrape_search_page url ;;
        extend jobs ;;
        rate_limit keywords locations keyword location ;;
        for_locations keywords locations max_jobs keyword rest
  end.

(** The outer [for keyword in keywords] loop. *)
Fixpoint for_keywords (keywords locations : list string) (max_jobs : Z)
         (todo : list string) : M (Scraper X) unit :=
  match todo with
  | [] => ret tt
  | keyword :: rest =>
      for_locations keywords locations max_jobs keyword locations ;;
      full <- limit_reached max_jobs ;;
      if full then ret tt
      else for_keywords keywords locations max_jobs rest
  end.

(** [BaseScraper.scrape] *)
Definition scrape (keywords locations : list string) (max_jobs : Z)
  : M (Scraper X) (list RawListing) :=
  modify (set_jobs_scraped []) ;;
  try_except
    (for_keywords keywords locations max_jobs keywords)
    (fun e => emit (LogError ("Error during scraping: " ++ str e))) ;;
  gets (fun s => Py.slice_to (jobs_scraped s) max_jobs).

End Methods.
End BaseScraper.

(* ================================================================== *)
(** ** [IndeedScraper] *)
(* ================================================================== *)

(** The Selenium session: it holds the page it has loaded. *)
Record WebDriver : Type := mkWebDriver { page_source : Tag }.

(** The fields [IndeedScraper.__init__] adds. *)
Record IndeedFields : Type := mkIndeedFields {
  headless : bool;
  driver : option WebDriver
}.

(** The machine and the site, as far as the scraper sees them: whether
    a Chrome session can be created, and what [driver.get(url)] does,
    which is to raise or to leave the browser with the document it
    holds when the wait for the job cards ends. *)
Record Browser : Type := mkBrowser {
  chrome_starts : bool;
  navigate : string -> res Tag
}.

Module IndeedScraper.

Definition base_url : string := "https://uk.indeed.com".

(** [title_elem]: [h2.jobTitle], else [a.jcs-JobTitle]. *)
Definition title_elem (job_element : Tag) : option Tag :=
  match find job_element "h2" (Class_ "jobTitle") with
  | Some t => Some t
  | None => find job_element "a" (Class_ "jcs-JobTitle")
  end.

(** [title_elem.find('a') or title_elem]; a [Tag] is always truthy. *)
Definition title_link (title : Tag) : Tag :=
  match find title "a" AnyAttrs with
  | Some a => a
  | None => title
  end.

Definition first_of (job_element : Tag) (name : string)
           (primary fallback : filter_by) : option Tag :=
  match find job_element name primary with
  | Some t => Some t
  | None => find job_element name fallback
  end.

Definition company_elem (e : Tag) : option Tag :=
  first_of e "span" (Class_ "companyName") (Attr "data-testid" "company-name").

Definition location_elem (e : Tag) : option Tag :=
  first_of e "div" (Class_ "companyLocation") (Attr "data-testid" "text-location").

Definition salary_elem (e : Tag) : option Tag :=
  first_of e "div" (Class_ "salary-snippet")
           (Attr "data-testid" "attribute_snippet_testid").

Definition description_elem (e : Tag) : option Tag :=
  first_of e "div" (Class_ "job-snippet") (Class_ "underShelfFooter").

(** The body of the method's [try]; no call in it raises on this
    document model, so the [except] branch that would also return
    [None] is not taken. *)
Definition parse_job_listing (job_element : Tag) : option RawListing :=
  match title_elem job_element with
  | None => None
  | Some title =>
      let link := title_link title in
      let job_link := get link "href" "" in
      Some {|
        job_title := get_text_strip link;
        job_board_url :=
          if Py.startswith job_link "/" then base_url ++ job_link
          else job_link;
        company :=
          match company_elem job_element with
          | Some c => get_text_strip c
          | None => "Unknown Company"
          end;
        location :=
          match location_elem job_element with
          | Some l => get_text_strip l
          | None => "Location not specified"
          end;
        salary_range :=
          match salary_elem job_element with
          | Some s => Some (get_text_strip s)
          | None => None
          end;
        description :=
          match description_elem job_element with
          | Some d => get_text_strip d
          | None => ""
          end;
        job_board_source := "indeed";
        requirements := None
      |}
  end.

(** [build_search_url] *)
Definition build_search_url (keywords location : string) : string :=
  base_url ++ "/jobs?q=" ++ Py.quote_plus keywords
           ++ "&l=" ++ Py.quote_plus location.


Definition set_driver (d : option WebDriver) (s : Scraper IndeedFields)
  : Scraper IndeedFields :=
  set_ext {| headless := headless (ext s); driver := d |} s.

(** [IndeedScraper(delay_min=2, delay_max=5, headless=True)] *)
Definition init : Scraper IndeedFields :=
  {| delay_min := 2; delay_max := 5; jobs_scraped := [];
     ext := {| headless := true; driver := None |} |}.

Definition blank_page : Tag := Element "[document]" [] [].

Section Site.

Variable env : Browser.

(** [_init_driver]: starts Chrome unless a session is open. *)
Definition _init_driver : M (Scraper IndeedFields) unit :=
  d <- gets (fun s => driver (ext s)) ;;
  match d with
  | Some _ => ret tt
  | None =>
      if chrome_starts env
      then emit DriverStart ;;
           modify (set_driver (Some {| page_source := blank_page |}))
      else raise (WebDriverException "unable to start a Chrome session")
  end.

(** [_close_driver] *)
Definition _close_driver : M (Scraper IndeedFields) unit :=
  d <- gets (fun s => driver (ext s)) ;;
  match d with
  | Some _ => emit DriverQuit ;; modify (set_driver None)
  | None => ret tt
  end.

(** [self.driver.get(url)] *)
Definition driver_get (url : string) : M (Scraper IndeedFields) unit :=
  d <- gets (fun s => driver (ext s)) ;;
  match d with
  | None => raise (Exception "'NoneType' object has no attribute 'get'")
  | Some _ =>
      emit (DriverGet url) ;;
      match navigate env url with
      | Ok doc => modify (set_driver (Some {| page_source := doc |}))
      | Raise e => raise e
      end
  end.

(** [WebDriverWait(self.driver, 10).until(
       EC.presence_of_element_located((By.CLASS_NAME, c)))] *)
Definition wait_until_present (c : string) : M (Scraper IndeedFields) unit :=
  d <- gets (fun s => driver (ext s)) ;;
  match d with
  | None => raise (Exception "no session")
  | Some w =>
      if class_present c (page_source w) then ret tt
      else raise (TimeoutException "no element of the class within 10 s")
  end.

(** [BeautifulSoup(self.driver.page_source, 'html.parser')] *)
Definition soup_of_page : M (Scraper IndeedFields) Tag :=
  d <- gets (fun s => driver (ext s)) ;;
  match d with
  | None => raise (Exception "no session")
  | Some w => ret (page_source w)
  end.

(** The job cards of a page: the first selector that finds any. *)
Definition job_cards (soup : Tag) : list Tag :=
  match find_all soup "div" (Class_ "job_seen_beacon") with
  | (_ :: _) as cards => cards
  | [] =>
      match find_all soup "div" (Class_ "cardOutline") with
      | (_ :: _) as cards => cards
      | [] => find_all soup "td" (Class_ "resultContent")
      end
  end.

(** [for card in job_cards: ... if job: jobs.append(job)] *)
Definition parse_cards (cards : list Tag) : list RawListing :=
  flat_map
    (fun card =>
       match parse_job_listing card with
       | Some job => [job]
       | None => []
       end)
    cards.

(** [scrape_search_page]: every exception of the body is logged and
    the listings collected so far are returned; the only step of the
    body after which listings exist is the last one, which does not
    raise. *)
Definition scrape_search_page (url : string)
  : M (Scraper IndeedFields) (list RawListing) :=
  try_except
    (_init_driver ;;
     driver_get url ;;
     wait_until_present "job_seen_beacon" ;;
     delay <- gets delay_min ;;
     emit (Sleep delay) ;;
     soup <- soup_of_page ;;
     ret (parse_cards (job_cards soup)))
    (fun e =>
       emit (LogError ("Error scraping " ++ url ++ ": " ++ str e)) ;;
       ret []).

(** The inner loop of [IndeedScraper.scrape]. *)
Fixpoint for_locations (max_jobs : Z) (keyword : string)
         (todo : list string) : M (Scraper IndeedFields) unit :=
  match todo with
  | [] => ret tt
  | location :: rest =>
      full <- BaseScraper.limit_reached max_jobs ;;
      if full then ret tt
      else
        jobs <- scrape_search_page (build_search_url keyword location) ;;
        BaseScraper.extend jobs ;;
        BaseScraper.random_delay ;;
        for_locations max_jobs keyword rest
  end.

(** The outer loop of [IndeedScraper.scrape]. *)
Fixpoint for_keywords (locations : list string) (max_jobs : Z)
         (todo : list string) : M (Scraper IndeedFields) unit :=
  match todo with
  | [] => ret tt
  | keyword :: rest =>
      for_locations max_jobs keyword locations ;;
      full <- BaseScraper.limit_reached max_jobs ;;
      if full then ret tt
      else for_keywords locations max_jobs rest
  end.

(** [IndeedScraper.scrape], which overrides [BaseScraper.scrape]. *)
Definition scrape (keywords locations : list string) (max_jobs : Z)
  : M (Scraper IndeedFields) (list RawListing) :=
  try_finally
    (_init_driver ;;
     modify (set_jobs_scraped []) ;;
     for_keywords locations max_jobs keywords ;;
     gets (fun s => Py.slice_to (jobs_scraped s) max_jobs))
    _close_driver.

(** [f"{base_url}&start={start}"] with [start = page * 10]. *)
Definition page_url (keyword location : string) (page : nat) : string :=
  (build_search_url keyword location ++ "&start=" ++ Py.str_nat (page * 10))%string.

(** The [for page in range(max_pages)] loop of
    [scrape_with_pagination], from the pages that are left. *)
Fixpoint for_pages (max_pages max_jobs : Z) (keyword location : string)
         (todo : list nat) : M (Scraper IndeedFields) unit :=
  match todo with
  | [] => ret tt
  | page :: rest =>
      full <- BaseScraper.limit_reached max_jobs ;;
      if full then ret tt
      else
        jobs <- scrape_search_page (page_url keyword location page) ;;
        match jobs with
        | [] => ret tt
        | _ :: _ =>
            BaseScraper.extend jobs ;;
            (if (Z.of_nat page <? max_pages - 1)%Z
             then BaseScraper.random_delay else ret tt) ;;
            for_pages max_pages max_jobs keyword location rest
        end
  end.

(** Its [for location in locations] loop. *)
Fixpoint for_locations_paged (max_pages max_jobs : Z) (keyword : string)
         (todo : list string) : M (Scraper IndeedFields) unit :=
  match todo with
  | [] => ret tt
  | location :: rest =>
      full <- BaseScraper.limit_reached max_jobs ;;
      if full then ret tt
      else
        for_pages max_pages max_jobs keyword location (Py.range max_pages) ;;
        for_locations_paged max_pages max_jobs keyword rest
  end.

(** Its [for keyword in keywords] loop. *)
Fixpoint for_keywords_paged (locations : list string) (max_pages max_jobs : Z)
         (todo : list string) : M (Scraper IndeedFields) unit :=
  match todo with
  | [] => ret tt
  | keyword :: rest =>
      for_locations_paged max_pages max_jobs keyword locations ;;
      full <- BaseScraper.limit_reached max_jobs ;;
      if full then ret tt
      else for_keywords_paged locations max_pages max_jobs rest
  end.

(** [IndeedScraper.scrape_with_pagination] *)
Definition scrape_with_pagination (keywords locations : list string)
           (max_pages max_jobs : Z)
  : M (Scraper IndeedFields) (list RawListing) :=
  try_finally
    (modify (set_jobs_scraped []) ;;
     for_keywords_paged locations max_pages max_jobs keywords ;;
     gets (fun s => Py.slice_to (jobs_scraped s) max_jobs))
    _close_driver.

End Site.

End IndeedScraper.

(** [IndeedScraper] as a subclass of [BaseScraper]. *)
#[export] Instance IndeedMethods (env : Browser) : ScraperMethods IndeedFields := {
  build_search_url k l := ret (IndeedScraper.build_search_url k l);
  parse_job_listing card := ret (IndeedScraper.parse_job_listing card);
  scrape_search_page := IndeedScraper.scrape_search_page env
}.

(* ================================================================== *)
(** ** The tables of [app/models.py] *)
(* ================================================================== *)

(** A row of [jobs].  Nullable columns are options; [match_score], a
    float the pipeline never writes, is left out. *)
Module Job.
Record t : Type := mk {
  id : nat;
  job_title : string;
  company : string;
  job_board_url : string;          (* unique=True *)
  job_board_source : string;
  location : option string;
  salary_range : option string;
  description : option string;
  requirements : option string;
  discovered_at : Z;               (* server_default=func.now() *)
  status : string                  (* default='pending' *)
}.
End Job.

(** A row of [scraper_logs]. *)
Module ScraperLog.
Record t : Type := mk {
  id : nat;
  job_board : string;
  scrape_started_at : Z;           (* server_default=func.now() *)
  scrape_ended_at : option Z;
  jobs_found : nat;                (* default=0 *)
  jobs_added : nat;                (* default=0 *)
  status : string;                 (* default='running' *)
  error_message : option string;
  search_keywords : option string;
  search_location : option string
}.

Definition terminal (r : t) : bool :=
  String.eqb (status r) "completed" || String.eqb (status r) "failed".
End ScraperLog.

(** The database: the two tables the pipeline touches and the server's
    clock. *)
Record Db : Type := mkDb {
  jobs : list Job.t;
  scraper_logs : list ScraperLog.t;
  now : Z
}.

Definition next_id (ids : list nat) : nat := S (fold_right Nat.max 0 ids).

(** The URLs stored in [jobs]. *)
Definition stored_urls (d : Db) : list string := map Job.job_board_url (jobs d).

(** How many rows of [jobs] carry the URL. *)
Definition count_url (url : string) (d : Db) : nat :=
  count_occ string_dec (stored_urls d) url.

(** The [unique=True] constraint on [jobs.job_board_url]. *)
Definition unique_urls (d : Db) : Prop := NoDup (stored_urls d).

(* ================================================================== *)
(** ** [Settings] ([app/config.py]) *)
(* ================================================================== *)

Record Settings : Type := mkSettings {
  SCRAPING_KEYWORDS : string;
  SCRAPING_LOCATIONS : string;
  MAX_JOBS_PER_SCRAPE : Z
}.

(** The defaults of the class, used when the environment sets nothing. *)
Definition default_settings : Settings := {|
  SCRAPING_KEYWORDS := "software engineer,backend developer,python developer";
  SCRAPING_LOCATIONS := "United Kingdom,London,Remote";
  MAX_JOBS_PER_SCRAPE := 50
|}.

Definition scraping_keywords_list (s : Settings) : list string :=
  map Py.strip (Py.split ","%char (SCRAPING_KEYWORDS s)).

Definition scraping_locations_list (s : Settings) : list string :=
  map Py.strip (Py.split ","%char (SCRAPING_LOCATIONS s)).

(* ================================================================== *)
(** ** [JobScraperService] *)
(* ================================================================== *)

(** The dictionary [scrape_and_save_indeed] returns; the key [error]
    is present on the failure path only. *)
Record Summary : Type := mkSummary {
  s_jobs_found : nat;
  s_jobs_added : nat;
  s_jobs_duplicate : nat;
  s_status : string;
  s_error : option string
}.

Module JobScraperService.

Record t : Type := mk {
  db : Db;
  indeed_scraper : Scraper IndeedFields
}.

(** [JobScraperService(db)] *)
Definition init (d : Db) : t :=
  {| db := d; indeed_scraper := IndeedScraper.init |}.

Definition set_db (d : Db) (s : t) : t :=
  {| db := d; indeed_scraper := indeed_scraper s |}.

(** A method of [self.indeed_scraper] called from the service. *)
Definition on_scraper {A : Type} (m : M (Scraper IndeedFields) A) : M t A :=
  fun s =>
    match m (indeed_scraper s) with
    | (r, sc, ev) => (r, {| db := db s; indeed_scraper := sc |}, ev)
    end.

(** The [Job] built from the dictionary, as the row the database
    stores for it. *)
Definition new_job (d : Db) (job_data : RawListing) : Job.t := {|
  Job.id := next_id (map Job.id (jobs d));
  Job.job_title := job_title job_data;
  Job.company := company job_data;
  Job.job_board_url := job_board_url job_data;
  Job.job_board_source := job_board_source job_data;
  Job.location := Some (location job_data);
  Job.salary_range := salary_range job_data;
  Job.description := Some (description job_data);
  Job.requirements := requirements job_data;
  Job.discovered_at := now d;
  Job.status := "pending"
|}.

Definition url_stored (url : string) (d : Db) : bool :=
  existsb (fun j => String.eqb (Job.job_board_url j) url) (jobs d).

(** The committed assignments to the [ScraperLog] object of id
    [log_id]. *)
Definition update_log (log_id : nat) (f : ScraperLog.t -> ScraperLog.t)
           (d : Db) : Db :=
  {| jobs := jobs d;
     scraper_logs :=
       map (fun r => if Nat.eqb (ScraperLog.id r) log_id then f r else r)
           (scraper_logs d);
     now := now d |}.

Section Env.

(** The browser and site, the storage faults, and the configuration.
    [insert_fault job_data] says that the database refuses the insert
    of this record for a reason other than a constraint. *)
Variable browser : Browser.
Variable insert_fault : RawListing -> bool.
Variable settings : Settings.

(** [self.db.query(Job).filter(Job.job_board_url == url).first()] *)
Definition query_job_by_url (url : string) : M t (option Job.t) :=
  gets (fun s =>
          List.find (fun j => String.eqb (Job.job_board_url j) url)
                    (jobs (db s))).

(** [self.db.add(job); self.db.commit()] for the new [job]:
    the insert is refused with [IntegrityError] when the URL is
    stored already; a refused insert leaves the table as it was. *)
Definition add_job_commit (job_data : RawListing) : M t Job.t :=
  fun s =>
    if url_stored (job_board_url job_data) (db s)
    then (Raise (IntegrityError "duplicate key: jobs.job_board_url"), s, [])
    else if insert_fault job_data
    then (Raise (Exception "database error"), s, [])
    else
      let row := new_job (db s) job_data in
      (Ok row,
       set_db {| jobs := jobs (db s) ++ [row];
                 scraper_logs := scraper_logs (db s);
                 now := now (db s) |} s,
       []).

(** [self.db.rollback()]: the refused insert is dropped from the
    session. *)
Definition rollback : M t unit := ret tt.

(** The body of [for job_data in jobs_scraped], on the two counters. *)
Definition save_job (job_data : RawListing) (counts : nat * nat)
  : M t (nat * nat) :=
  let '(jobs_added, jobs_duplicate) := counts in
  try_except
    (existing_job <- query_job_by_url (job_board_url job_data) ;;
     match existing_job with
     | Some _ => ret (jobs_added, S jobs_duplicate)
     | None =>
         _ <- add_job_commit job_data ;;
         ret (S jobs_added, jobs_duplicate)
     end)
    (fun e =>
       match e with
       | IntegrityError _ =>
           rollback ;;
           ret (jobs_added, S jobs_duplicate)
       | _ =>
           rollback ;;
           emit (LogError ("Error saving job: " ++ str e)) ;;
           ret (jobs_added, jobs_duplicate)
       end).

Fixpoint save_jobs (jobs_scraped : list RawListing) (counts : nat * nat)
  : M t (nat * nat) :=
  match jobs_scraped with
  | [] => ret counts
  | job_data :: rest =>
      counts' <- save_job job_data counts ;;
      save_jobs rest counts'
  end.

(** [ScraperLog(job_board="indeed", status="running", ...)] as the
    row the database stores for it. *)
Definition new_log (d : Db) (keywords locations : list string)
  : ScraperLog.t := {|
  ScraperLog.id := next_id (map ScraperLog.id (scraper_logs d));
  ScraperLog.job_board := "indeed";
  ScraperLog.scrape_started_at := now d;
  ScraperLog.scrape_ended_at := None;
  ScraperLog.jobs_found := 0;
  ScraperLog.jobs_added := 0;
  ScraperLog.status := "running";
  ScraperLog.error_message := None;
  ScraperLog.search_keywords := Some (Py.join ", " keywords);
  ScraperLog.search_location := Some (Py.join ", " locations)
|}.

Definition with_logs (logs : list ScraperLog.t) (d : Db) : Db :=
  {| jobs := jobs d; scraper_logs := logs; now := now d |}.

(** [self.db.add(scraper_log); self.db.commit()]; the result is the
    id of the new row, through which the later assignments to
    [scraper_log] reach it. *)
Definition add_log_commit (keywords locations : list string) : M t nat :=
  fun s =>
    let row := new_log (db s) keywords locations in
    (Ok (ScraperLog.id row),
     set_db (with_logs (scraper_logs (db s) ++ [row]) (db s)) s,
     []).

(** The assignments to [scraper_log] on the success path, committed. *)
Definition log_completed (found added : nat) (r : ScraperLog.t)
  : ScraperLog.t := {|
  ScraperLog.id := ScraperLog.id r;
  ScraperLog.job_board := ScraperLog.job_board r;
  ScraperLog.scrape_started_at := ScraperLog.scrape_started_at r;
  ScraperLog.scrape_ended_at := ScraperLog.scrape_ended_at r;
  ScraperLog.jobs_found := found;
  ScraperLog.jobs_added := added;
  ScraperLog.status := "completed";
  ScraperLog.error_message := ScraperLog.error_message r;
  ScraperLog.search_keywords := ScraperLog.search_keywords r;
  ScraperLog.search_location := ScraperLog.search_location r
|}.

(** The assignments to [scraper_log] in the handler, committed. *)
Definition log_failed (msg : string) (r : ScraperLog.t) : ScraperLog.t := {|
  ScraperLog.id := ScraperLog.id r;
  ScraperLog.job_board := ScraperLog.job_board r;
  ScraperLog.scrape_started_at := ScraperLog.scrape_started_at r;
  ScraperLog.scrape_ended_at := ScraperLog.scrape_ended_at r;
  ScraperLog.jobs_found := ScraperLog.jobs_found r;
  ScraperLog.jobs_added := ScraperLog.jobs_added r;
  ScraperLog.status := "failed";
  ScraperLog.error_message := Some msg;
  ScraperLog.search_keywords := ScraperLog.search_keywords r;
  ScraperLog.search_location := ScraperLog.search_location r
|}.

Definition commit_log (log_id : nat) (f : ScraperLog.t -> ScraperLog.t)
  : M t unit :=
  modify (fun s => set_db (update_log log_id f (db s)) s).

Definition or_default {A : Type} (x : option A) (d : A) : A :=
  match x with
  | Some a => a
  | None => d
  end.

(** [scrape_and_save_indeed] *)
Definition scrape_and_save_indeed
           (keywords locations : option (list string)) (max_jobs : option Z)
  : M t Summary :=
  let keywords := or_default keywords (scraping_keywords_list settings) in
  let locations := or_default locations (scraping_locations_list settings) in
  let max_jobs := or_default max_jobs (MAX_JOBS_PER_SCRAPE settings) in
  log_id <- add_log_commit keywords locations ;;
  try_except
    (jobs_scraped <-
       on_scraper (IndeedScraper.scrape browser keywords locations max_jobs) ;;
     counts <- save_jobs jobs_scraped (0, 0) ;;
     commit_log log_id
       (log_completed (length jobs_scraped) (fst counts)) ;;
     ret {| s_jobs_found := length jobs_scraped;
            s_jobs_added := fst counts;
            s_jobs_duplicate := snd counts;
            s_status := "success";
            s_error := None |})
    (fun e =>
       emit (LogError ("Error during scraping: " ++ str e)) ;;
       commit_log log_id (log_failed (str e)) ;;
       ret {| s_jobs_found := 0;
              s_jobs_added := 0;
              s_jobs_duplicate := 0;
              s_status := "error";
              s_error := Some (str e) |}).

End Env.

End JobScraperService.

(* ================================================================== *)
(** ** [app/api/jobs.py]: closing a job, triggering a scrape *)
(* ================================================================== *)

Module JobsApi.

(** What an endpoint does: it returns a body, or raises
    [HTTPException(status_code, detail)]. *)
Inductive response (A : Type) : Type :=
| Returns (body : A)
| HTTPException (status_code : nat) (detail : string).
Arguments Returns {A} body.
Arguments HTTPException {A} status_code detail.

(** [db.query(JobModel).filter(JobModel.id == job_id).first()] *)
Definition query_job_by_id (job_id : nat) (d : Db) : option Job.t :=
  List.find (fun j => Nat.eqb (Job.id j) job_id) (jobs d).

(** [db_job.status = "closed"] *)
Definition closed (j : Job.t) : Job.t := {|
  Job.id := Job.id j;
  Job.job_title := Job.job_title j;
  Job.company := Job.company j;
  Job.job_board_url := Job.job_board_url j;
  Job.job_board_source := Job.job_board_source j;
  Job.location := Job.location j;
  Job.salary_range := Job.salary_range j;
  Job.description := Job.description j;
  Job.requirements := Job.requirements j;
  Job.discovered_at := Job.discovered_at j;
  Job.status := "closed"
|}.

(** The committed assignment to the object [db_job], the first row
    with the id. *)
Fixpoint update_first (job_id : nat) (f : Job.t -> Job.t) (l : list Job.t)
  : list Job.t :=
  match l with
  | [] => []
  | j :: r =>
      if Nat.eqb (Job.id j) job_id then f j :: r
      else j :: update_first job_id f r
  end.

(** [mark_job_closed]: the response and the database it leaves. *)
Definition mark_job_closed (job_id : nat) (d : Db) : response Job.t * Db :=
  match query_job_by_id job_id d with
  | None =>
      (HTTPException 404
         ("Job with id " ++ Py.str_nat job_id ++ " not found"), d)
  | Some db_job =>
      (Returns (closed db_job),
       {| jobs := update_first job_id closed (jobs d);
          scraper_logs := scraper_logs d;
          now := now d |})
  end.

End JobsApi.

(* ================================================================== *)
(** ** Sample pages *)
(* ================================================================== *)

Module Samples.

(** A job card as the site renders it: title link and company. *)
Definition card (title href : string) : Tag :=
  Element "div" [("class", "job_seen_beacon")]
    [ Element "h2" [("class", "jobTitle css-1m4cuuf")]
        [ Element "a" [("class", "jcs-JobTitle"); ("href", href)]
            [ Element "span" [] [NavigableString title] ] ];
      Element "span" [("data-testid", "company-name")]
        [NavigableString "Acme Ltd"];
      Element "div" [("data-testid", "text-location")]
        [NavigableString " London "] ].

(** A card whose title link has no [href]. *)
Definition card_no_href (title : string) : Tag :=
  Element "div" [("class", "job_seen_beacon")]
    [ Element "h2" [("class", "jobTitle")]
        [ Element "a" [("class", "jcs-JobTitle")]
            [NavigableString title] ] ].

(** A card without a title element. *)
Definition card_no_title : Tag :=
  Element "div" [("class", "job_seen_beacon")]
    [ Element "span" [("class", "companyName")] [NavigableString "Acme Ltd"] ].

Definition page (cards : list Tag) : Tag := Element "[document]" [] cards.

(** A site that answers every search with the same cards. *)
Definition site (cards : list Tag) : Browser :=
  {| chrome_starts := true; navigate := fun _ => Ok (page cards) |}.

(** A machine on which Chrome cannot be started. *)
Definition no_chrome : Browser :=
  {| chrome_starts := false; navigate := fun _ => Ok (page []) |}.

(** A site on which every page load fails. *)
Definition site_down : Browser :=
  {| chrome_starts := true;
     navigate := fun _ => Raise (WebDriverException "net::ERR_CONNECTION_RESET") |}.

Definition no_fault : RawListing -> bool := fun _ => false.

Definition empty_db : Db := {| jobs := []; scraper_logs := []; now := 1700000000 |}.

End Samples.

(** A scraper whose page method raises on one page: the listings of
    the pages before it are returned, the error is logged. *)
Module Flaky.

Definition listing (url : string) : RawListing :=
  {| job_title := "Engineer"; job_board_url := url; company := "Acme Ltd";
     location := "London"; salary_range := None; description := "";
     job_board_source := "flaky"; requirements := None |}.

Definition methods : ScraperMethods unit := {|
  build_search_url := fun k l => ret (k ++ "/" ++ l)%string;
  parse_job_listing := fun _ => ret None;
  scrape_search_page := fun url =>
    if String.eqb url "b/l" then raise (Exception "connection lost")
    else ret [listing url]
|}.

Definition init : Scraper unit :=
  {| delay_min := 2; delay_max := 5; jobs_scraped := []; ext := tt |}.

End Flaky.

(** The scenario of the specification: eight listings on the page, a
    limit of five, an empty store; then the same run again. *)
Module Scenario.

Definition cards : list Tag :=
  map (fun n => Samples.card ("Graduate Engineer " ++ n)
                             ("/rc/clk?jk=" ++ n))%string
      ["1"; "2"; "3"; "4"; "5"; "6"; "7"; "8"].

Definition site : Browser := Samples.site cards.

Definition keywords : list string := ["graduate engineer"].
Definition locations : list string := ["London"].

Definition run (d : Db) :=
  JobScraperService.scrape_and_save_indeed site Samples.no_fault
    default_settings (Some keywords) (Some locations) (Some 5%Z)
    (JobScraperService.init d).

Definition first_run := run Samples.empty_db.
Definition second_run := run (JobScraperService.db (state_of first_run)).

(** The five listings both runs scrape. *)
Definition scraped : list RawListing :=
  Eval vm_compute in
    match result_of (IndeedScraper.scrape site keywords locations 5
                       IndeedScraper.init) with
    | Ok l => l
    | Raise _ => []
    end.

Definition first_summary : Summary :=
  {| s_jobs_found := 5; s_jobs_added := 5; s_jobs_duplicate := 0;
     s_status := "success"; s_error := None |}.

Definition second_summary : Summary :=
  {| s_jobs_found := 5; s_jobs_added := 0; s_jobs_duplicate := 5;
     s_status := "success"; s_error := None |}.

End Scenario.

(* ================================================================== *)
(** ** Vocabulary of the properties *)
(* ================================================================== *)

(** The [href] of the title link, when the card has a title element
    and its link an [href] attribute. *)
Definition link_href (job_element : Tag) : option string :=
  match IndeedScraper.title_elem job_element with
  | Some title => lookup "href" (attrs_of (IndeedScraper.title_link title))
  | None => None
  end.

(** A browser session is open. *)
Definition session_open (s : Scraper IndeedFields) : Prop :=
  driver (ext s) <> None.

(** What [driver.get(url)] followed by the wait makes of a page: the
    listings of its job cards, or nothing when the load fails or no
    job card shows up in time. *)
Definition page_listings (env : Browser) (url : string) : list RawListing :=
  match navigate env url with
  | Ok doc =>
      if class_present "job_seen_beacon" doc
      then IndeedScraper.parse_cards (IndeedScraper.job_cards doc)
      else []
  | Raise _ => []
  end.

(** The page of [url] cannot be had: the load raises, or no job card
    shows up before the wait times out. *)
Definition page_load_fails (env : Browser) (url : string) : Prop :=
  match navigate env url with
  | Raise _ => True
  | Ok doc => class_present "job_seen_beacon" doc = false
  end.

(** The search pages of a run over all pairs: keyword by keyword, and
    for each keyword location by location. *)
Definition search_pages (url : string -> string -> string)
           (keywords locations : list string) : list string :=
  flat_map (fun k => map (url k) locations) keywords.

(** The listing's URL is in [jobs] already. *)
Definition stored (s : JobScraperService.t) (job_data : RawListing) : bool :=
  JobScraperService.url_stored (job_board_url job_data)
    (JobScraperService.db s).

(** The service after the insert of the row for [job_data]. *)
Definition add_row (s : JobScraperService.t) (job_data : RawListing)
  : JobScraperService.t :=
  let d := JobScraperService.db s in
  JobScraperService.set_db
    {| jobs := jobs d ++ [JobScraperService.new_job d job_data];
       scraper_logs := scraper_logs d;
       now := now d |} s.

(** What the loop over [l] leaves behind when it starts in [s] with
    the counters [added] and [dup] and ends in [s'] with [added'] and
    [dup']. *)
Record saved (l : list RawListing) (s : JobScraperService.t)
       (added dup : nat) (s' : JobScraperService.t) (added' dup' : nat)
  : Prop := {
  saved_scraper :
    JobScraperService.indeed_scraper s' = JobScraperService.indeed_scraper s;
  saved_logs :
    scraper_logs (JobScraperService.db s')
    = scraper_logs (JobScraperService.db s);
  saved_rows :
    exists new,
      stored_urls (JobScraperService.db s')
      = stored_urls (JobScraperService.db s) ++ new
      /\ added' = added + length new
      /\ NoDup new
      /\ (forall u, In u new ->
                    ~ In u (stored_urls (JobScraperService.db s))
                    /\ In u (map job_board_url l));
  saved_dups : dup + length (filter (stored s) l) <= dup';
  saved_bound : added' + dup' <= added + dup + length l;
  saved_all :
    added' + dup' = added + dup + length l ->
    forall u, In u (map job_board_url l) ->
              In u (stored_urls (JobScraperService.db s'))
}.

(** The state in which the service calls the scraper: the log row for
    the keywords [K] and the locations [L] is there. *)
Definition started (K L : list string) (s : JobScraperService.t)
  : JobScraperService.t :=
  let d := JobScraperService.db s in
  JobScraperService.set_db
    (JobScraperService.with_logs
       (scraper_logs d ++ [JobScraperService.new_log d K L]) d) s.

Definition with_scraper (sc : Scraper IndeedFields) (s : JobScraperService.t)
  : JobScraperService.t :=
  {| JobScraperService.db := JobScraperService.db s;
     JobScraperService.indeed_scraper := sc |}.

(** The state [s] after the assignments [f] to the log row that was
    created in [s0]. *)
Definition finish (K L : list string) (f : ScraperLog.t -> ScraperLog.t)
           (s0 s : JobScraperService.t) : JobScraperService.t :=
  JobScraperService.set_db
    (JobScraperService.update_log
       (ScraperLog.id (JobScraperService.new_log (JobScraperService.db s0) K L))
       f (JobScraperService.db s)) s.

(** The listings of the second run whose URL was among the results of
    the first. *)
Definition overlap (r1 r2 : list RawListing) : list RawListing :=
  filter
    (fun j => existsb (String.eqb (job_board_url j)) (map job_board_url r1))
    r2.

(** A session is open, as a test. *)
Definition has_session (s : Scraper IndeedFields) : bool :=
  match driver (ext s) with
  | Some _ => true
  | None => false
  end.

Definition is_start (e : event) : bool :=
  match e with DriverStart => true | _ => false end.

Definition is_quit (e : event) : bool :=
  match e with DriverQuit => true | _ => false end.

(** The events of scraping one page in an open session: the request,
    the pause after the load, and the error line of a failed page. *)
Definition page_event (e : event) : bool :=
  match e with
  | DriverGet _ | Sleep _ | RandomDelay => true
  | LogError msg => Py.startswith msg "Error scraping "
  | DriverStart | DriverQuit => false
  end.

(** The error line of a refused insert. *)
Definition is_save_error (e : event) : bool :=
  match e with
  | LogError msg => Py.startswith msg "Error saving job: "
  | _ => false
  end.

(** The listings of the search pages of all pairs, keywords in the
    outer and locations in the inner position. *)
Definition all_listings (env : Browser) (keywords locations : list string)
  : list RawListing :=
  flat_map
    (fun k =>
       flat_map
         (fun l => page_listings env (IndeedScraper.build_search_url k l))
         locations)
    keywords.

(** The listings of the result pages of one pair, up to the first page
    without listings. *)
Fixpoint paged_listings (env : Browser) (keyword location : string)
         (pages : list nat) : list RawListing :=
  match pages with
  | [] => []
  | page :: rest =>
      match page_listings env (IndeedScraper.page_url keyword location page)
      with
      | [] => []
      | (_ :: _) as jobs => jobs ++ paged_listings env keyword location rest
      end
  end.

Definition all_paged_listings (env : Browser) (keywords locations : list string)
           (max_pages : Z) : list RawListing :=
  flat_map
    (fun k =>
       flat_map
         (fun l => paged_listings env k l (Py.range max_pages))
         locations)
    keywords.

(** What every listing read off an Indeed card has. *)
Definition indeed_listing (j : RawListing) : Prop :=
  job_board_source j = "indeed"
  /\ requirements j = None
  /\ Py.startswith (job_board_url j) "/" = false.

(** The row is the one the service stores for the listing [j] at the
    time [t]. *)
Definition row_for (t : Z) (j : RawListing) (r : Job.t) : Prop :=
  Job.job_title r = job_title j
  /\ Job.company r = company j
  /\ Job.job_board_url r = job_board_url j
  /\ Job.job_board_source r = job_board_source j
  /\ Job.requirements r = requirements j
  /\ Job.discovered_at r = t
  /\ Job.status r = "pending".

(** How often the character occurs in the string. *)
Definition count_char (c : ascii) (s : string) : nat :=
  count_occ ascii_dec (list_ascii_of_string s) c.

(** The characters [quote_plus] writes: the unreserved ones, [+] for a
    space, and [%] before two hexadecimal digits. *)
Definition safe_char (c : ascii) : bool :=
  Py.is_unreserved c || Ascii.eqb c "+"%char || Ascii.eqb c "%"%char.

(** The value of a hexadecimal digit. *)
Definition unhex (c : ascii) : option nat :=
  let n := nat_of_ascii c in
  if ((48 <=? n) && (n <=? 57))%nat then Some (n - 48)
  else if ((65 <=? n) && (n <=? 70))%nat then Some (n - 55)
  else None.

(** Reading a quoted string back: [+] is a space and [%XX] the byte
    with the code [XX]; this is the inverse against which [quote_plus]
    is shown to lose nothing. *)
Fixpoint unquote_plus (s : string) : string :=
  match s with
  | EmptyString => EmptyString
  | String c r =>
      if Ascii.eqb c "+"%char then String " "%char (unquote_plus r)
      else if Ascii.eqb c "%"%char then
        match r with
        | String h (String l r') =>
            match unhex h, unhex l with
            | Some a, Some b =>
                String (ascii_of_nat (16 * a + b)) (unquote_plus r')
            | _, _ => String c (unquote_plus r)
            end
        | _ => String c (unquote_plus r)
        end
      else String c (unquote_plus r)
  end.

(* ================================================================== *)
(** * Properties *)
(* ================================================================== *)

Arguments class_present : simpl never.
Arguments IndeedScraper.parse_cards : simpl never.
Arguments IndeedScraper.job_cards : simpl never.
Arguments IndeedScraper.build_search_url : simpl never.

(** ** Slices *)

Lemma slice_to_length {A : Type} (l : list A) (n : Z) :
  (0 <= n)%Z -> (Z.of_nat (length (Py.slice_to l n)) <= n)%Z.
Proof.
  intros Hn. unfold Py.slice_to.
  destruct (0 <=? n)%Z eqn:E; [|apply Z.leb_gt in E; lia].
  rewrite length_firstn. lia.
Qed.

Lemma slice_to_nil {A : Type} (n : Z) : Py.slice_to (@nil A) n = [].
Proof.
  unfold Py.slice_to. destruct (0 <=? n)%Z; apply firstn_nil.
Qed.

(** ** Reading a listing off a job card *)

Section ParseJobListing.

Import IndeedScraper.


Lemma parse_none_iff (job_element : Tag) :
  parse_job_listing job_element = None <-> title_elem job_element = None.
Proof.
  unfold parse_job_listing.
  destruct (title_elem job_element); split; congruence.
Qed.

Lemma parse_url (job_element : Tag) (r : RawListing) :
  parse_job_listing job_element = Some r ->
  job_board_url r =
    match link_href job_element with
    | Some href =>
        if Py.startswith href "/" then (base_url ++ href)%string else href
    | None => ""
    end.
Proof.
  unfold parse_job_listing, link_href, get.
  destruct (title_elem job_element) as [title|]; [|discriminate].
  intros H. injection H as <-. cbn [job_board_url].
  destruct (lookup "href" (attrs_of (title_link title))); reflexivity.
Qed.

End ParseJobListing.

(** C6, as the specification words it, fails on a card whose title is
    there and whose link has no [href]: the card has no link, and
    [parse_job_listing] still returns a record. *)
Lemma C6_missing_link_not_skipped :
  ~ (IndeedScraper.parse_job_listing (Samples.card_no_href "Engineer") = None
     <-> (IndeedScraper.title_elem (Samples.card_no_href "Engineer") = None
          \/ link_href (Samples.card_no_href "Engineer") = None)).
Proof.
  intros [_ H].
  assert (E : link_href (Samples.card_no_href "Engineer") = None)
    by (vm_compute; reflexivity).
  specialize (H (or_intror E)). vm_compute in H. discriminate.
Qed.

(** C6 (amended): [parse_job_listing] returns [None] exactly when the
    card has no title element.  Otherwise it returns a record in which
    a missing company is "Unknown Company", a missing location is
    "Location not specified", a missing salary is [None], a missing
    description is the empty string and a missing [href] gives the
    empty URL; an [href] that starts with a slash is put behind the
    base URL of the site and any other [href] is kept as it is. *)
Theorem C6_parse_job_listing_defaults (job_element : Tag) :
  (IndeedScraper.parse_job_listing job_element = None
   <-> IndeedScraper.title_elem job_element = None)
  /\ match IndeedScraper.parse_job_listing job_element with
     | None => True
     | Some r =>
         company r =
           match IndeedScraper.company_elem job_element with
           | Some c => get_text_strip c
           | None => "Unknown Company"
           end
         /\ location r =
           match IndeedScraper.location_elem job_element with
           | Some l => get_text_strip l
           | None => "Location not specified"
           end
         /\ salary_range r =
           match IndeedScraper.salary_elem job_element with
           | Some s => Some (get_text_strip s)
           | None => None
           end
         /\ description r =
           match IndeedScraper.description_elem job_element with
           | Some d => get_text_strip d
           | None => ""
           end
         /\ job_board_url r =
           match link_href job_element with
           | Some href =>
               if Py.startswith href "/"
               then (IndeedScraper.base_url ++ href)%string
               else href
           | None => ""
           end
     end.
Proof.
  split; [apply parse_none_iff|].
  destruct (IndeedScraper.parse_job_listing job_element) as [r|] eqn:E;
    [|exact I].
  pose proof (parse_url _ _ E) as Hurl.
  unfold IndeedScraper.parse_job_listing in E.
  destruct (IndeedScraper.title_elem job_element); [|discriminate].
  injection E as <-. cbn [company location salary_range description].
  repeat split; try reflexivity. exact Hurl.
Qed.

Example parse_card_sample :
  IndeedScraper.parse_job_listing (Samples.card "Graduate Engineer" "/rc/clk?jk=42")
  = Some {| job_title := "Graduate Engineer";
            job_board_url := "https://uk.indeed.com/rc/clk?jk=42";
            company := "Acme Ltd";
            location := "London";
            salary_range := None;
            description := "";
            job_board_source := "indeed";
            requirements := None |}.
Proof. reflexivity. Qed.

Example parse_card_without_title :
  IndeedScraper.parse_job_listing Samples.card_no_title = None.
Proof. reflexivity. Qed.

(** ** Reasoning on methods *)

Lemma bind_ok {S A B : Type} (m : M S A) (f : A -> M S B) s a s1 ev1 :
  m s = (Ok a, s1, ev1) ->
  bind m f s = (result_of (f a s1), state_of (f a s1), ev1 ++ events_of (f a s1)).
Proof.
  intros H. unfold bind, result_of, state_of, events_of. rewrite H.
  destruct (f a s1) as [[r s2] ev2]. reflexivity.
Qed.

Lemma bind_raise {S A B : Type} (m : M S A) (f : A -> M S B) s e s1 ev1 :
  m s = (Raise e, s1, ev1) -> bind m f s = (Raise e, s1, ev1).
Proof. intros H. unfold bind. rewrite H. reflexivity. Qed.

Lemma triple_eta {S A : Type} (x : res A * S * list event) :
  x = (result_of x, state_of x, events_of x).
Proof. destruct x as [[r s] ev]. reflexivity. Qed.

Lemma requests_app (a b : list event) :
  requests (a ++ b) = requests a ++ requests b.
Proof. unfold requests. apply flat_map_app. Qed.

Lemma last_item_some {A : Type} (l : list A) :
  l <> [] -> exists x, Py.last_item l = Some x.
Proof.
  induction l as [|a l IH]; [congruence|]. intros _.
  destruct l as [|b l]; [exists a; reflexivity|].
  destruct IH as [x Hx]; [discriminate|]. exists x. exact Hx.
Qed.

(** ** The loop of the base class *)

Section BaseLoop.

Context {X : Type} {methods : ScraperMethods X}.
Variables keywords locations : list string.
Variable max_jobs : Z.

Let len (s : Scraper X) : Z := Z.of_nat (length (jobs_scraped s)).

(** Once the limit is reached the loops stop without a call. *)
Lemma base_for_locations_full keyword todo s :
  (max_jobs <= len s)%Z ->
  BaseScraper.for_locations keywords locations max_jobs keyword todo s
  = (Ok tt, s, []).
Proof.
  intros H. destruct todo as [|location rest]; [reflexivity|].
  cbn [BaseScraper.for_locations]. unfold bind, BaseScraper.limit_reached, gets.
  apply Z.leb_le in H. unfold len in H. rewrite H. reflexivity.
Qed.

Lemma base_for_keywords_full todo s :
  (max_jobs <= len s)%Z ->
  BaseScraper.for_keywords keywords locations max_jobs todo s
  = (Ok tt, s, []).
Proof.
  intros H. destruct todo as [|keyword rest]; [reflexivity|].
  cbn [BaseScraper.for_keywords].
  erewrite bind_ok by (apply base_for_locations_full; exact H).
  unfold bind, BaseScraper.limit_reached, gets.
  apply Z.leb_le in H. unfold len in H. rewrite H. reflexivity.
Qed.

(** [scrape] catches what the loop raises, logs it, and returns the
    slice of the accumulator. *)
Lemma base_scrape_eq s :
  let loop :=
    BaseScraper.for_keywords keywords locations max_jobs keywords
      (set_jobs_scraped [] s) in
  BaseScraper.scrape keywords locations max_jobs s
  = (Ok (Py.slice_to (jobs_scraped (state_of loop)) max_jobs),
     state_of loop,
     events_of loop
     ++ match result_of loop with
        | Ok _ => []
        | Raise e => [LogError ("Error during scraping: " ++ str e)]
        end).
Proof.
  cbv zeta. unfold BaseScraper.scrape, bind, try_except, modify, gets, emit.
  destruct (BaseScraper.for_keywords _ _ _ _ _) as [[r s'] ev].
  destruct r; cbn; rewrite ?app_nil_r; reflexivity.
Qed.

Lemma base_scrape_length s jobs :
  result_of (BaseScraper.scrape keywords locations max_jobs s) = Ok jobs ->
  (Z.of_nat (length jobs) <= Z.max max_jobs 0)%Z.
Proof.
  rewrite base_scrape_eq. cbn [result_of fst]. intros H. injection H as <-.
  destruct (Z.le_gt_cases 0 max_jobs) as [Hn|Hn].
  - pose proof (slice_to_length (jobs_scraped
      (state_of (BaseScraper.for_keywords keywords locations max_jobs
                   keywords (set_jobs_scraped [] s)))) max_jobs Hn). lia.
  - rewrite base_for_keywords_full by (unfold len; cbn; lia).
    cbn. rewrite slice_to_nil. cbn. lia.
Qed.

Lemma base_scrape_nonpositive s :
  (max_jobs <= 0)%Z ->
  BaseScraper.scrape keywords locations max_jobs s
  = (Ok [], set_jobs_scraped [] s, []).
Proof.
  intros H. rewrite base_scrape_eq.
  rewrite base_for_keywords_full by (unfold len; cbn; lia).
  cbn. rewrite slice_to_nil. reflexivity.
Qed.

End BaseLoop.

(** ** The Indeed scraper *)

Section IndeedLoop.

Variable env : Browser.

Let St : Type := Scraper IndeedFields.
Let len (s : St) : Z := Z.of_nat (length (jobs_scraped s)).



(** [scrape_search_page] returns in every state. *)
Lemma scrape_search_page_returns url (s : St) :
  exists jobs s' evs,
    IndeedScraper.scrape_search_page env url s = (Ok jobs, s', evs)
    /\ jobs_scraped s' = jobs_scraped s.
Proof.
  destruct s as [dm dM js [h [w|]]];
    unfold IndeedScraper.scrape_search_page, try_except, bind,
      IndeedScraper._init_driver, IndeedScraper.driver_get,
      IndeedScraper.wait_until_present, IndeedScraper.soup_of_page,
      gets, emit, modify, ret, raise; cbn;
    destruct (chrome_starts env); cbn;
    destruct (navigate env url) as [doc|e]; cbn;
    try destruct (class_present "job_seen_beacon" doc); cbn;
    do 3 eexists; split; reflexivity.
Qed.

(** With a session at hand it asks for the page once, returns the
    listings of the page, keeps the session, and does not pause for
    the rate limit. *)
Lemma scrape_search_page_spec url (s : St) :
  session_open s \/ chrome_starts env = true ->
  exists s' evs,
    IndeedScraper.scrape_search_page env url s
    = (Ok (page_listings env url), s', evs)
    /\ jobs_scraped s' = jobs_scraped s
    /\ session_open s'
    /\ requests evs = [url]
    /\ filter is_delay evs = [].
Proof.
  intros H. unfold session_open in *.
  destruct s as [dm dM js [h [w|]]]; cbn in H.
  - unfold page_listings,
      IndeedScraper.scrape_search_page, try_except, bind,
      IndeedScraper._init_driver, IndeedScraper.driver_get,
      IndeedScraper.wait_until_present, IndeedScraper.soup_of_page,
      gets, emit, modify, ret, raise; cbn.
    destruct (navigate env url) as [doc|e]; cbn;
      try destruct (class_present "job_seen_beacon" doc); cbn;
      do 2 eexists; repeat split; try reflexivity; cbn; congruence.
  - destruct H as [H|H]; [congruence|].
    unfold page_listings,
      IndeedScraper.scrape_search_page, try_except, bind,
      IndeedScraper._init_driver, IndeedScraper.driver_get,
      IndeedScraper.wait_until_present, IndeedScraper.soup_of_page,
      gets, emit, modify, ret, raise; cbn. rewrite H. cbn.
    destruct (navigate env url) as [doc|e]; cbn;
      try destruct (class_present "job_seen_beacon" doc); cbn;
      do 2 eexists; repeat split; try reflexivity; cbn; congruence.
Qed.

Lemma filter_delay_app (a b : list event) :
  filter is_delay (a ++ b) = filter is_delay a ++ filter is_delay b.
Proof. apply filter_app. Qed.

(** Once the limit is reached the loops stop without a request. *)
Lemma indeed_for_locations_full max_jobs keyword todo (s : St) :
  (max_jobs <= len s)%Z ->
  IndeedScraper.for_locations env max_jobs keyword todo s = (Ok tt, s, []).
Proof.
  intros H. destruct todo as [|location rest]; [reflexivity|].
  cbn [IndeedScraper.for_locations].
  unfold bind, BaseScraper.limit_reached, gets.
  apply Z.leb_le in H. unfold len in H. rewrite H. reflexivity.
Qed.

Lemma indeed_for_keywords_full locations max_jobs todo (s : St) :
  (max_jobs <= len s)%Z ->
  IndeedScraper.for_keywords env locations max_jobs todo s = (Ok tt, s, []).
Proof.
  intros H. destruct todo as [|keyword rest]; [reflexivity|].
  cbn [IndeedScraper.for_keywords].
  erewrite bind_ok by (apply indeed_for_locations_full; exact H).
  unfold bind, BaseScraper.limit_reached, gets.
  apply Z.leb_le in H. unfold len in H. rewrite H. reflexivity.
Qed.

(** The inner loop: it never raises; every request is followed by a
    rate-limit pause; and when the limit is not reached at its end,
    it has asked for the page of every location, in order. *)
Lemma indeed_for_locations_spec max_jobs keyword todo :
  forall s : St,
    session_open s ->
    exists s' evs,
      IndeedScraper.for_locations env max_jobs keyword todo s
      = (Ok tt, s', evs)
      /\ session_open s'
      /\ (len s <= len s')%Z
      /\ length (filter is_delay evs) = length (requests evs)
      /\ ((len s' < max_jobs)%Z ->
          requests evs
          = map (IndeedScraper.build_search_url keyword) todo).
Proof.
  induction todo as [|location rest IH]; intros s Hopen.
  - exists s, []. repeat split; auto; lia.
  - cbn [IndeedScraper.for_locations].
    destruct (max_jobs <=? len s)%Z eqn:E.
    + exists s, []. unfold bind, BaseScraper.limit_reached, gets.
      unfold len in E. rewrite E.
      repeat split; auto; try lia.
      apply Z.leb_le in E. unfold len. lia.
    + destruct (scrape_search_page_spec
                  (IndeedScraper.build_search_url keyword location) s
                  (or_introl Hopen))
        as (s1 & ev1 & Hp & Hjs & Ho1 & Hr1 & Hd1).
      set (s2 := set_jobs_scraped
                   (jobs_scraped s1
                    ++ page_listings env
                         (IndeedScraper.build_search_url keyword location))
                   s1).
      destruct (IH s2) as (s' & evs & Hl & Ho' & Hle & Hdel & Hreq).
      { exact Ho1. }
      do 2 eexists. split.
      { unfold bind, BaseScraper.limit_reached, gets.
        unfold len in E. rewrite E. rewrite Hp.
        unfold BaseScraper.extend, BaseScraper.random_delay, modify, emit.
        fold s2. rewrite Hl. reflexivity. }
      assert (Hlen : (len s <= len s2)%Z).
      { unfold len, s2. cbn. rewrite Hjs, length_app. lia. }
      repeat split.
      * exact Ho'.
      * lia.
      * cbn [app]. rewrite filter_delay_app, requests_app, !length_app.
        rewrite Hd1, Hr1. cbn. rewrite Hdel. reflexivity.
      * intros Hcap. cbn [app]. rewrite requests_app, Hr1.
        change (requests (RandomDelay :: evs)) with (requests evs).
        rewrite (Hreq Hcap). reflexivity.
Qed.

(** The outer loop, likewise: keyword by keyword, and for each
    keyword location by location. *)
Lemma indeed_for_keywords_spec locations max_jobs todo :
  forall s : St,
    session_open s ->
    exists s' evs,
      IndeedScraper.for_keywords env locations max_jobs todo s
      = (Ok tt, s', evs)
      /\ session_open s'
      /\ (len s <= len s')%Z
      /\ length (filter is_delay evs) = length (requests evs)
      /\ ((len s' < max_jobs)%Z ->
          requests evs
          = flat_map
              (fun k => map (IndeedScraper.build_search_url k) locations)
              todo).
Proof.
  induction todo as [|keyword rest IH]; intros s Hopen.
  - exists s, []. repeat split; auto; lia.
  - cbn [IndeedScraper.for_keywords].
    destruct (indeed_for_locations_spec max_jobs keyword locations s Hopen)
      as (s1 & ev1 & Hl & Ho1 & Hle1 & Hdel1 & Hreq1).
    destruct (max_jobs <=? len s1)%Z eqn:E.
    + exists s1, ev1.
      unfold bind. rewrite Hl. unfold BaseScraper.limit_reached, gets.
      unfold len in E. rewrite E.
      repeat split; auto.
      * cbn. rewrite app_nil_r. reflexivity.
      * apply Z.leb_le in E. unfold len. lia.
    + destruct (IH s1 Ho1) as (s' & evs & Hk & Ho' & Hle & Hdel & Hreq).
      do 2 eexists. split.
      { unfold bind. rewrite Hl. unfold BaseScraper.limit_reached, gets.
        unfold len in E. rewrite E. rewrite Hk. reflexivity. }
      repeat split.
      * exact Ho'.
      * lia.
      * cbn [app]. rewrite filter_delay_app, requests_app, !length_app.
        rewrite Hdel1, Hdel. reflexivity.
      * intros Hcap. cbn [app flat_map]. rewrite requests_app.
        rewrite (Hreq Hcap), Hreq1 by lia. reflexivity.
Qed.

Lemma init_driver_spec (s : St) :
  session_open s \/ chrome_starts env = true ->
  exists s0 pre,
    IndeedScraper._init_driver env s = (Ok tt, s0, pre)
    /\ session_open s0
    /\ jobs_scraped s0 = jobs_scraped s
    /\ requests pre = []
    /\ filter is_delay pre = [].
Proof.
  intros H. unfold session_open in *.
  destruct s as [dm dM js [h [w|]]]; cbn in H;
    unfold IndeedScraper._init_driver, bind, gets, emit, modify, ret; cbn.
  - do 2 eexists. repeat split; cbn; congruence.
  - destruct H as [H|H]; [congruence|]. rewrite H.
    do 2 eexists. repeat split; cbn; congruence.
Qed.

Lemma init_driver_fails (s : St) :
  driver (ext s) = None -> chrome_starts env = false ->
  IndeedScraper._init_driver env s
  = (Raise (WebDriverException "unable to start a Chrome session"), s, []).
Proof.
  intros Hd Hc.
  unfold IndeedScraper._init_driver, bind, gets, raise.
  rewrite Hd, Hc. reflexivity.
Qed.

Lemma close_driver_spec (s : St) :
  session_open s ->
  IndeedScraper._close_driver s
  = (Ok tt, IndeedScraper.set_driver None s, [DriverQuit]).
Proof.
  unfold session_open, IndeedScraper._close_driver, bind, gets, emit, modify.
  destruct (driver (ext s)); [reflexivity|congruence].
Qed.

Lemma close_driver_closed (s : St) :
  driver (ext s) = None ->
  IndeedScraper._close_driver s = (Ok tt, s, []).
Proof.
  intros H. unfold IndeedScraper._close_driver, bind, gets, ret.
  rewrite H. reflexivity.
Qed.

(** [IndeedScraper.scrape], when a session can be had: it returns
    the slice of what the loop has collected, and has closed the
    session. *)
Lemma indeed_scrape_spec keywords locations max_jobs (s : St) :
  session_open s \/ chrome_starts env = true ->
  exists s1 evs,
    IndeedScraper.scrape env keywords locations max_jobs s
    = (Ok (Py.slice_to (jobs_scraped s1) max_jobs),
       IndeedScraper.set_driver None s1, evs)
    /\ length (filter is_delay evs) = length (requests evs)
    /\ ((len s1 < max_jobs)%Z ->
        requests evs
        = flat_map
            (fun k => map (IndeedScraper.build_search_url k) locations)
            keywords)
    /\ ((max_jobs <= 0)%Z -> jobs_scraped s1 = [] /\ requests evs = []).
Proof.
  intros H.
  destruct (init_driver_spec s H) as (s0 & pre & Hi & Ho0 & _ & Hrp & Hdp).
  assert (Ho0' : session_open (set_jobs_scraped [] s0)) by exact Ho0.
  destruct (indeed_for_keywords_spec locations max_jobs keywords _ Ho0')
    as (s1 & evl & Hk & Ho1 & _ & Hdel & Hreq).
  exists s1, (pre ++ evl ++ [DriverQuit]).
  split.
  { unfold IndeedScraper.scrape, try_finally, bind.
    rewrite Hi. unfold modify at 1. rewrite Hk. unfold gets.
    rewrite (close_driver_spec s1 Ho1). cbn [app].
    rewrite app_nil_r, app_assoc. reflexivity. }
  repeat split.
  - rewrite !filter_delay_app, !requests_app, !length_app.
    rewrite Hdp, Hrp, Hdel. reflexivity.
  - intros Hcap. rewrite !requests_app, Hrp, (Hreq Hcap). cbn.
    apply app_nil_r.
  - rewrite indeed_for_keywords_full in Hk by (unfold len; cbn; lia).
    injection Hk as <- <-. reflexivity.
  - rewrite indeed_for_keywords_full in Hk by (unfold len; cbn; lia).
    injection Hk as <- <-. rewrite !requests_app, Hrp. reflexivity.
Qed.

(** Without a session and without Chrome, [scrape] raises before
    anything else happens. *)
Lemma indeed_scrape_raises keywords locations max_jobs (s : St) :
  driver (ext s) = None -> chrome_starts env = false ->
  IndeedScraper.scrape env keywords locations max_jobs s
  = (Raise (WebDriverException "unable to start a Chrome session"), s, []).
Proof.
  intros Hd Hc. unfold IndeedScraper.scrape, try_finally.
  rewrite (bind_raise _ _ _ _ _ _ (init_driver_fails s Hd Hc)).
  rewrite (close_driver_closed s Hd). reflexivity.
Qed.

Lemma session_open_dec (s : St) :
  {session_open s} + {driver (ext s) = None}.
Proof.
  unfold session_open. destruct (driver (ext s)); [left|right]; congruence.
Qed.

End IndeedLoop.

(** ** The base loop over well-behaved methods *)

Section BaseRequests.

Context {X : Type} {methods : ScraperMethods X}.
Variable url : string -> string -> string.

(** No fault occurs: [build_search_url] computes [url] and does
    nothing else; [scrape_search_page] returns, asks for its page
    once, and leaves the accumulator alone. *)
Hypothesis build_pure :
  forall k l (s : Scraper X), build_search_url k l s = (Ok (url k l), s, []).
Hypothesis page_returns :
  forall u (s : Scraper X),
  exists jobs s' evs,
    scrape_search_page u s = (Ok jobs, s', evs)
    /\ jobs_scraped s' = jobs_scraped s
    /\ requests evs = [u].

Variables keywords locations : list string.
Variable max_jobs : Z.

Let len (s : Scraper X) : Z := Z.of_nat (length (jobs_scraped s)).

Lemma rate_limit_returns keyword location (s : Scraper X) :
  keywords <> [] -> locations <> [] ->
  exists evd,
    BaseScraper.rate_limit keywords locations keyword location s
    = (Ok tt, s, evd)
    /\ requests evd = [].
Proof.
  intros HK HL.
  destruct (last_item_some keywords HK) as [k Hk].
  destruct (last_item_some locations HL) as [l Hl].
  unfold BaseScraper.rate_limit, BaseScraper.last_of, bind.
  rewrite Hk. unfold ret at 1.
  destruct (negb (keyword =? k)%string).
  - eexists. split; reflexivity.
  - rewrite Hl. unfold ret at 1.
    destruct (negb (location =? l)%string); eexists; split; reflexivity.
Qed.

Lemma base_for_locations_spec keyword todo :
  keywords <> [] -> (todo <> [] -> locations <> []) ->
  forall s : Scraper X,
  exists s' evs,
    BaseScraper.for_locations keywords locations max_jobs keyword todo s
    = (Ok tt, s', evs)
    /\ (len s <= len s')%Z
    /\ ((len s' < max_jobs)%Z -> requests evs = map (url keyword) todo).
Proof.
  intros HK. induction todo as [|location rest IH]; intros HL s.
  - exists s, []. repeat split; auto; lia.
  - assert (HL' : locations <> []) by (apply HL; discriminate).
    cbn [BaseScraper.for_locations].
    destruct (max_jobs <=? len s)%Z eqn:E.
    + exists s, []. unfold bind, BaseScraper.limit_reached, gets.
      unfold len in E. rewrite E. repeat split; try lia.
      apply Z.leb_le in E. unfold len. lia.
    + destruct (page_returns (url keyword location) s)
        as (jobs & s1 & ev1 & Hp & Hjs & Hr1).
      set (s2 := set_jobs_scraped (jobs_scraped s1 ++ jobs) s1).
      destruct (rate_limit_returns keyword location s2 HK HL')
        as (evd & Hrl & Hrd).
      destruct (IH (fun _ => HL') s2) as (s' & evs & Hl & Hle & Hreq).
      do 2 eexists. split.
      { unfold bind, BaseScraper.limit_reached, gets.
        unfold len in E. rewrite E. rewrite build_pure, Hp.
        unfold BaseScraper.extend, modify. fold s2.
        rewrite Hrl, Hl. reflexivity. }
      assert (Hlen : (len s <= len s2)%Z).
      { unfold len, s2. cbn. rewrite Hjs, length_app. lia. }
      split; [lia|].
      intros Hcap. cbn [app]. rewrite !requests_app, Hr1, Hrd, (Hreq Hcap).
      reflexivity.
Qed.

Lemma base_for_keywords_spec todo :
  (todo <> [] -> keywords <> []) ->
  forall s : Scraper X,
  exists s' evs,
    BaseScraper.for_keywords keywords locations max_jobs todo s
    = (Ok tt, s', evs)
    /\ (len s <= len s')%Z
    /\ ((len s' < max_jobs)%Z ->
        requests evs = flat_map (fun k => map (url k) locations) todo).
Proof.
  induction todo as [|keyword rest IH]; intros HK s.
  - exists s, []. repeat split; auto; lia.
  - assert (HK' : keywords <> []) by (apply HK; discriminate).
    cbn [BaseScraper.for_keywords].
    destruct (base_for_locations_spec keyword locations HK' (fun H => H) s)
      as (s1 & ev1 & Hl & Hle1 & Hreq1).
    destruct (max_jobs <=? len s1)%Z eqn:E.
    + exists s1, ev1. unfold bind. rewrite Hl.
      unfold BaseScraper.limit_reached, gets. unfold len in E. rewrite E.
      repeat split; auto.
      * cbn. rewrite app_nil_r. reflexivity.
      * apply Z.leb_le in E. unfold len. lia.
    + destruct (IH (fun _ => HK') s1) as (s' & evs & Hk & Hle & Hreq).
      do 2 eexists. split.
      { unfold bind. rewrite Hl. unfold BaseScraper.limit_reached, gets.
        unfold len in E. rewrite E. rewrite Hk. reflexivity. }
      split; [lia|].
      intros Hcap. cbn [app flat_map]. rewrite requests_app.
      rewrite (Hreq Hcap), Hreq1 by lia. reflexivity.
Qed.

Lemma base_scrape_requests (s : Scraper X) :
  let out := BaseScraper.scrape keywords locations max_jobs s in
  (len (state_of out) < max_jobs)%Z ->
  requests (events_of out)
  = flat_map (fun k => map (url k) locations) keywords.
Proof.
  cbv zeta. rewrite base_scrape_eq. cbn [state_of events_of fst snd].
  destruct (base_for_keywords_spec keywords (fun H => H)
              (set_jobs_scraped [] s)) as (s' & evs & Hk & _ & Hreq).
  rewrite Hk. cbn [state_of events_of result_of fst snd].
  intros Hcap. rewrite app_nil_r. exact (Hreq Hcap).
Qed.

End BaseRequests.

(** The Indeed methods are well behaved wherever Chrome starts. *)
Lemma indeed_page_returns (env : Browser) :
  chrome_starts env = true ->
  forall u (s : Scraper IndeedFields),
  exists jobs s' evs,
    scrape_search_page (ScraperMethods := IndeedMethods env) u s
    = (Ok jobs, s', evs)
    /\ jobs_scraped s' = jobs_scraped s
    /\ requests evs = [u].
Proof.
  intros Hc u s.
  destruct (scrape_search_page_spec env u s (or_intror Hc))
    as (s' & evs & Hp & Hjs & _ & Hr & _).
  exists (page_listings env u), s', evs. auto.
Qed.

(** ** Persisting the listings *)

Section SaveJobs.

Import JobScraperService.

Variable insert_fault : RawListing -> bool.


Lemma find_url_stored url d :
  List.find (fun j => String.eqb (Job.job_board_url j) url) (jobs d) = None
  <-> url_stored url d = false.
Proof.
  unfold url_stored. induction (jobs d) as [|j l IH]; cbn; [tauto|].
  destruct (String.eqb (Job.job_board_url j) url); cbn; [|exact IH].
  split; discriminate.
Qed.

(** One pass of the loop body: a stored URL counts as a duplicate,
    a refused insert drops the record, anything else adds a row. *)
Lemma save_job_eq job_data added dup (s : JobScraperService.t) :
  save_job insert_fault job_data (added, dup) s
  = if stored s job_data then (Ok (added, S dup), s, [])
    else if insert_fault job_data
    then (Ok (added, dup), s, [LogError "Error saving job: database error"])
    else (Ok (S added, dup), add_row s job_data, []).
Proof.
  unfold save_job, try_except, bind, query_job_by_url, gets, stored.
  destruct (List.find _ (jobs (db s))) as [j|] eqn:F.
  - destruct (url_stored (job_board_url job_data) (db s)) eqn:U.
    + reflexivity.
    + apply find_url_stored in U. congruence.
  - apply find_url_stored in F. unfold add_job_commit. rewrite F.
    destruct (insert_fault job_data); reflexivity.
Qed.

Lemma url_stored_In url d :
  url_stored url d = true <-> In url (stored_urls d).
Proof.
  unfold url_stored, stored_urls. rewrite existsb_exists. split.
  - intros (j & Hj & E). apply String.eqb_eq in E. subst url.
    apply in_map. exact Hj.
  - intros H. apply in_map_iff in H. destruct H as (j & E & Hj).
    exists j. split; [exact Hj|]. apply String.eqb_eq. exact E.
Qed.

Lemma stored_urls_add_row s job_data :
  stored_urls (db (add_row s job_data))
  = stored_urls (db s) ++ [job_board_url job_data].
Proof. unfold stored_urls, add_row. cbn. rewrite map_app. reflexivity. Qed.


Lemma stored_mono s job_data l :
  length (filter (stored s) l)
  <= length (filter (stored (add_row s job_data)) l).
Proof.
  induction l as [|j l IH]; cbn [filter]; [lia|].
  destruct (stored s j) eqn:E.
  - assert (E' : stored (add_row s job_data) j = true).
    { unfold stored in *. apply url_stored_In.
      rewrite stored_urls_add_row. apply in_or_app. left.
      apply url_stored_In. exact E. }
    rewrite E'. cbn [length]. lia.
  - destruct (stored (add_row s job_data) j); cbn [length]; lia.
Qed.

(** The loop never raises, and leaves the store as [saved] says. *)
Lemma save_jobs_spec (l : list RawListing) :
  forall added dup (s : JobScraperService.t),
  exists added' dup' s' evs,
    save_jobs insert_fault l (added, dup) s = (Ok (added', dup'), s', evs)
    /\ saved l s added dup s' added' dup'.
Proof.
  induction l as [|j l IH]; intros added dup s.
  - exists added, dup, s, []. split; [reflexivity|].
    constructor; cbn; auto; try lia.
    exists []. rewrite app_nil_r. repeat split; auto; try contradiction.
    constructor.
  - cbn [save_jobs]. unfold bind. rewrite save_job_eq.
    destruct (stored s j) eqn:Est.
    + (* duplicate *)
      destruct (IH added (S dup) s) as (a' & d' & s' & evs & Hrun & Hs).
      rewrite Hrun. exists a', d', s', ([] ++ evs).
      split; [reflexivity|]. destruct Hs.
      constructor; auto.
      * destruct saved_rows0 as (new & H1 & H2 & H3 & H4).
        exists new. repeat split; auto.
        -- apply H4; auto.
        -- right. apply H4; auto.
      * cbn [filter]. rewrite Est. cbn [length]. lia.
      * cbn [length]. lia.
      * intros Hall u [Hu|Hu].
        -- subst u. destruct saved_rows0 as (new & H1 & _).
           rewrite H1. apply in_or_app. left.
           apply url_stored_In. exact Est.
        -- apply saved_all0; [cbn [length] in Hall; lia|exact Hu].
    + destruct (insert_fault j) eqn:Ef.
      * (* dropped *)
        destruct (IH added dup s) as (a' & d' & s' & evs & Hrun & Hs).
        rewrite Hrun. do 4 eexists. split; [reflexivity|]. destruct Hs.
        constructor; auto.
        -- destruct saved_rows0 as (new & H1 & H2 & H3 & H4).
           exists new. repeat split; auto.
           ++ apply H4; auto.
           ++ right. apply H4; auto.
        -- cbn [filter]. rewrite Est. exact saved_dups0.
        -- cbn [length]. lia.
        -- intros Hall. cbn [length] in Hall. lia.
      * (* added *)
        destruct (IH (S added) dup (add_row s j))
          as (a' & d' & s' & evs & Hrun & Hs).
        rewrite Hrun. do 4 eexists. split; [reflexivity|]. destruct Hs.
        assert (Hnot : ~ In (job_board_url j) (stored_urls (db s))).
        { intros Hin. apply url_stored_In in Hin.
          unfold stored in Est. congruence. }
        constructor; auto.
        -- destruct saved_rows0 as (new & H1 & H2 & H3 & H4).
           rewrite stored_urls_add_row in H1.
           exists (job_board_url j :: new). repeat split.
           ++ rewrite H1, <- app_assoc. reflexivity.
           ++ cbn. lia.
           ++ constructor; [|exact H3].
              intros Hin. apply H4 in Hin. destruct Hin as [Hin _].
              apply Hin. rewrite stored_urls_add_row.
              apply in_or_app. right. left. reflexivity.
           ++ destruct H as [<-|Hin]; [exact Hnot|].
              apply H4 in Hin. destruct Hin as [Hin _].
              intros Hu. apply Hin. rewrite stored_urls_add_row.
              apply in_or_app. left. exact Hu.
           ++ destruct H as [<-|Hin]; [left; reflexivity|].
              right. apply H4. exact Hin.
        -- cbn [filter]. rewrite Est.
           pose proof (stored_mono s j l). lia.
        -- cbn [length]. lia.
        -- intros Hall u [Hu|Hu].
           ++ subst u. destruct saved_rows0 as (new & H1 & _).
              rewrite H1, stored_urls_add_row. apply in_or_app. left.
              apply in_or_app. right. left. reflexivity.
           ++ apply saved_all0; [cbn [length] in Hall; lia|exact Hu].
Qed.

End SaveJobs.

(** ** The service *)

Section Service.

Import JobScraperService.

Variable browser : Browser.
Variable insert_fault : RawListing -> bool.
Variable settings : Settings.

Lemma next_id_fresh (ids : list nat) (x : nat) :
  In x ids -> x < next_id ids.
Proof.
  unfold next_id. induction ids as [|a l IH]; cbn; [contradiction|].
  intros [->|H]; [lia|]. specialize (IH H). lia.
Qed.

(** The assignments reach the row that was just added, and no other. *)
Lemma update_new_log f d d' keywords locations :
  scraper_logs d' = scraper_logs d ++ [new_log d keywords locations] ->
  scraper_logs
    (update_log (ScraperLog.id (new_log d keywords locations)) f d')
  = scraper_logs d ++ [f (new_log d keywords locations)].
Proof.
  intros H. unfold update_log. cbn [scraper_logs]. rewrite H.
  rewrite map_app. cbn [map]. rewrite Nat.eqb_refl. f_equal.
  rewrite <- (map_id (scraper_logs d)) at 2. apply map_ext_in.
  intros r Hr.
  destruct (Nat.eqb (ScraperLog.id r)
              (ScraperLog.id (new_log d keywords locations))) eqn:E;
    [|reflexivity].
  apply Nat.eqb_eq in E.
  pose proof (next_id_fresh (map ScraperLog.id (scraper_logs d))
                (ScraperLog.id r) (in_map _ _ _ Hr)) as Hlt.
  cbn in E. lia.
Qed.

Variables (keywords locations : option (list string)) (max_jobs : option Z).

Let K := or_default keywords (scraping_keywords_list settings).
Let L := or_default locations (scraping_locations_list settings).
Let N := or_default max_jobs (MAX_JOBS_PER_SCRAPE settings).


(** The success path: the scraper returned [jobs_scraped]. *)
Lemma service_success s jobs_scraped sc ev :
  IndeedScraper.scrape browser K L N (indeed_scraper s)
  = (Ok jobs_scraped, sc, ev) ->
  exists added dup s' ev',
    save_jobs insert_fault jobs_scraped (0, 0) (with_scraper sc (started K L s))
    = (Ok (added, dup), s', ev')
    /\ saved jobs_scraped (with_scraper sc (started K L s)) 0 0 s' added dup
    /\ scrape_and_save_indeed browser insert_fault settings
         keywords locations max_jobs s
       = (Ok {| s_jobs_found := length jobs_scraped;
                s_jobs_added := added;
                s_jobs_duplicate := dup;
                s_status := "success";
                s_error := None |},
          finish K L (log_completed (length jobs_scraped) added) s s',
          ev ++ ev').
Proof.
  intros Hs.
  destruct (save_jobs_spec insert_fault jobs_scraped 0 0
              (with_scraper sc (started K L s)))
    as (added & dup & s' & ev' & Hsave & Hsaved).
  exists added, dup, s', ev'. split; [exact Hsave|]. split; [exact Hsaved|].
  unfold scrape_and_save_indeed. fold K L N.
  unfold bind at 1. unfold add_log_commit. cbv zeta.
  unfold try_except, bind, on_scraper.
  cbn [indeed_scraper set_db]. rewrite Hs.
  change {| db := _; indeed_scraper := sc |}
    with (with_scraper sc (started K L s)).
  rewrite Hsave. unfold commit_log, modify, ret. cbn [fst snd app].
  rewrite !app_nil_r. reflexivity.
Qed.

(** The failure path: the scraper raised [e]. *)
Lemma service_failure s e sc ev :
  IndeedScraper.scrape browser K L N (indeed_scraper s)
  = (Raise e, sc, ev) ->
  scrape_and_save_indeed browser insert_fault settings
    keywords locations max_jobs s
  = (Ok {| s_jobs_found := 0;
           s_jobs_added := 0;
           s_jobs_duplicate := 0;
           s_status := "error";
           s_error := Some (str e) |},
     finish K L (log_failed (str e)) s (with_scraper sc (started K L s)),
     ev ++ [LogError ("Error during scraping: " ++ str e)]).
Proof.
  intros Hs.
  unfold scrape_and_save_indeed. fold K L N.
  unfold bind at 1. unfold add_log_commit. cbv zeta.
  unfold try_except, bind, on_scraper.
  cbn [indeed_scraper set_db]. rewrite Hs.
  unfold commit_log, modify, ret, emit. cbn [fst snd app].
  reflexivity.
Qed.

(** What a call leaves in the two tables, on either path. *)
Lemma service_logs s :
  let out := scrape_and_save_indeed browser insert_fault settings
               keywords locations max_jobs s in
  exists summary,
    result_of out = Ok summary
    /\ match result_of (IndeedScraper.scrape browser K L N (indeed_scraper s))
       with
       | Ok jobs_scraped =>
           s_jobs_found summary = length jobs_scraped
           /\ s_jobs_added summary + s_jobs_duplicate summary
              <= length jobs_scraped
           /\ s_status summary = "success"
           /\ s_error summary = None
           /\ scraper_logs (db (state_of out))
              = scraper_logs (db s)
                ++ [log_completed (length jobs_scraped)
                      (s_jobs_added summary) (new_log (db s) K L)]
       | Raise e =>
           summary = {| s_jobs_found := 0; s_jobs_added := 0;
                        s_jobs_duplicate := 0; s_status := "error";
                        s_error := Some (str e) |}
           /\ scraper_logs (db (state_of out))
              = scraper_logs (db s)
                ++ [log_failed (str e) (new_log (db s) K L)]
       end.
Proof.
  cbv zeta.
  destruct (IndeedScraper.scrape browser K L N (indeed_scraper s))
    as [[[jobs_scraped|e] sc] ev] eqn:Hs.
  - destruct (service_success s jobs_scraped sc ev Hs)
      as (added & dup & s' & ev' & _ & Hsaved & Hrun).
    rewrite Hrun. eexists. split; [reflexivity|].
    cbn [result_of state_of fst snd s_jobs_found s_jobs_added
           s_jobs_duplicate s_status s_error].
    repeat split.
    + pose proof (saved_bound _ _ _ _ _ _ _ Hsaved). lia.
    + unfold finish. cbn [db set_db]. apply update_new_log.
      rewrite (saved_logs _ _ _ _ _ _ _ Hsaved). reflexivity.
  - rewrite (service_failure s e sc ev Hs). eexists. split; [reflexivity|].
    cbn [result_of state_of fst snd]. split; [reflexivity|].
    unfold finish. cbn [db set_db]. apply update_new_log. reflexivity.
Qed.

Lemma service_jobs s :
  let out := scrape_and_save_indeed browser insert_fault settings
               keywords locations max_jobs s in
  exists summary new,
    result_of out = Ok summary
    /\ stored_urls (db (state_of out)) = stored_urls (db s) ++ new
    /\ NoDup new
    /\ (forall u, In u new -> ~ In u (stored_urls (db s)))
    /\ forall jobs_scraped,
         result_of (IndeedScraper.scrape browser K L N (indeed_scraper s))
         = Ok jobs_scraped ->
         s_jobs_found summary = length jobs_scraped
         /\ s_jobs_added summary = length new
         /\ (forall u, In u new -> In u (map job_board_url jobs_scraped))
         /\ length (filter (fun j => url_stored (job_board_url j) (db s))
                           jobs_scraped)
            <= s_jobs_duplicate summary
         /\ s_jobs_added summary + s_jobs_duplicate summary
            <= length jobs_scraped
         /\ (s_jobs_added summary + s_jobs_duplicate summary
             = length jobs_scraped ->
             forall u, In u (map job_board_url jobs_scraped) ->
                       In u (stored_urls (db (state_of out)))).
Proof.
  cbv zeta.
  destruct (IndeedScraper.scrape browser K L N (indeed_scraper s))
    as [[[jobs_scraped|e] sc] ev] eqn:Hs.
  - destruct (service_success s jobs_scraped sc ev Hs)
      as (added & dup & s' & ev' & _ & Hsaved & Hrun).
    rewrite Hrun. destruct Hsaved.
    destruct saved_rows0 as (new & H1 & H2 & H3 & H4).
    eexists. exists new. split; [reflexivity|].
    cbn [result_of state_of fst snd s_jobs_found s_jobs_added
           s_jobs_duplicate].
    split; [exact H1|]. split; [exact H3|].
    split; [intros u Hu; apply (H4 u Hu)|].
    intros r Hr. injection Hr as <-.
    repeat split; auto.
    intros u Hu. apply (H4 u Hu).
  - rewrite (service_failure s e sc ev Hs). eexists. exists [].
    split; [reflexivity|].
    cbn [result_of state_of fst snd]. split.
    { unfold finish, stored_urls. cbn. rewrite app_nil_r. reflexivity. }
    split; [constructor|]. split; [intros u []|].
    intros r Hr. discriminate.
Qed.

(** The uniqueness constraint on the stored URLs survives a call. *)
Lemma service_keeps_unique s :
  unique_urls (db s) ->
  unique_urls
    (db (state_of (scrape_and_save_indeed browser insert_fault settings
                     keywords locations max_jobs s))).
Proof.
  intros Hu. destruct (service_jobs s) as (summary & new & _ & E & Hn & Hd & _).
  unfold unique_urls. rewrite E.
  apply NoDup_app; auto.
  intros u Hin Hnew. exact (Hd u Hnew Hin).
Qed.

End Service.

(* ================================================================== *)
(** * The claims *)
(* ================================================================== *)

(** ** The orchestrator *)

(** C4: whatever [max_jobs] is, negative values included, and whatever
    the pages hold, [scrape] returns at most [max(max_jobs, 0)]
    listings.  This holds for the loop of the base class over any
    scraper, which always returns, and for the override of
    [IndeedScraper], which returns unless Chrome cannot be started.
    With [max_jobs <= 0] the base loop does nothing at all and the
    override asks for no page. *)
Theorem C4_scrape_respects_max_jobs
        {X : Type} {methods : ScraperMethods X}
        (keywords locations : list string) (max_jobs : Z)
        (s : Scraper X) (env : Browser) (si : Scraper IndeedFields) :
  (exists jobs,
      result_of (BaseScraper.scrape keywords locations max_jobs s) = Ok jobs
      /\ (Z.of_nat (length jobs) <= Z.max max_jobs 0)%Z)
  /\ match result_of (IndeedScraper.scrape env keywords locations max_jobs si)
     with
     | Ok jobs => (Z.of_nat (length jobs) <= Z.max max_jobs 0)%Z
     | Raise _ => driver (ext si) = None /\ chrome_starts env = false
     end
  /\ (if (max_jobs <=? 0)%Z
      then
        BaseScraper.scrape keywords locations max_jobs s
        = (Ok [], set_jobs_scraped [] s, [])
        /\ requests
             (events_of (IndeedScraper.scrape env keywords locations max_jobs si))
           = []
      else True).
Proof.
  assert (Hind :
    (session_open si \/ chrome_starts env = true)
    \/ (driver (ext si) = None /\ chrome_starts env = false)).
  { destruct (session_open_dec si) as [H|H]; [left; left; exact H|].
    destruct (chrome_starts env); [left; right; reflexivity|right; auto]. }
  split; [|split].
  - rewrite base_scrape_eq. eexists. split; [reflexivity|].
    apply (base_scrape_length keywords locations max_jobs s).
    rewrite base_scrape_eq. reflexivity.
  - destruct Hind as [H|[Hd Hc]].
    + destruct (indeed_scrape_spec env keywords locations max_jobs si H)
        as (s1 & evs & E & _ & _ & Hz).
      rewrite E. cbn [result_of fst].
      destruct (Z.le_gt_cases 0 max_jobs) as [Hn|Hn].
      * pose proof (slice_to_length (jobs_scraped s1) max_jobs Hn). lia.
      * destruct Hz as [Hz _]; [lia|]. rewrite Hz, slice_to_nil. cbn. lia.
    + rewrite (indeed_scrape_raises env keywords locations max_jobs si Hd Hc).
      cbn. auto.
  - destruct (max_jobs <=? 0)%Z eqn:E; [|exact I].
    apply Z.leb_le in E. split.
    + apply base_scrape_nonpositive. exact E.
    + destruct Hind as [H|[Hd Hc]].
      * destruct (indeed_scrape_spec env keywords locations max_jobs si H)
          as (s1 & evs & E1 & _ & _ & Hz).
        rewrite E1. cbn [events_of snd]. apply Hz. exact E.
      * rewrite (indeed_scrape_raises env keywords locations max_jobs si Hd Hc).
        reflexivity.
Qed.


Lemma search_pages_length url keywords locations :
  length (search_pages url keywords locations)
  = length keywords * length locations.
Proof.
  unfold search_pages. induction keywords as [|k K IH]; [reflexivity|].
  cbn [flat_map]. rewrite length_app, length_map, IH. reflexivity.
Qed.

(** C5: when nothing faults and the limit is not reached,
    [IndeedScraper.scrape] asks for exactly one search page per
    (keyword, location) pair, [|K| * |L|] pages in all, keywords in the
    outer and locations in the inner position; and so does the loop of
    the base class over any scraper whose [build_search_url] is a pure
    function and whose [scrape_search_page] returns after one request
    for its page. *)
Theorem C5_one_request_per_pair
        {X : Type} {methods : ScraperMethods X}
        (url : string -> string -> string)
        (keywords locations : list string) (max_jobs : Z)
        (s : Scraper X) (env : Browser) (si : Scraper IndeedFields) :
  let base := BaseScraper.scrape keywords locations max_jobs s in
  let indeed := IndeedScraper.scrape env keywords locations max_jobs si in
  (forall k l (s : Scraper X), build_search_url k l s = (Ok (url k l), s, [])) ->
  (forall u (s : Scraper X),
      exists jobs s' evs,
        scrape_search_page u s = (Ok jobs, s', evs)
        /\ jobs_scraped s' = jobs_scraped s
        /\ requests evs = [u]) ->
  chrome_starts env = true ->
  (Z.of_nat (length (jobs_scraped (state_of base))) < max_jobs)%Z ->
  (Z.of_nat (length (jobs_scraped (state_of indeed))) < max_jobs)%Z ->
  requests (events_of base) = search_pages url keywords locations
  /\ requests (events_of indeed)
     = search_pages IndeedScraper.build_search_url keywords locations
  /\ length (requests (events_of base)) = length keywords * length locations
  /\ length (requests (events_of indeed)) = length keywords * length locations.
Proof.
  cbv zeta. intros Hbuild Hpage Hc Hcap_base Hcap_indeed.
  assert (Eb : requests (events_of (BaseScraper.scrape keywords locations max_jobs s))
               = search_pages url keywords locations).
  { apply (base_scrape_requests url Hbuild Hpage). exact Hcap_base. }
  assert (Ei : requests (events_of (IndeedScraper.scrape env keywords locations
                                     max_jobs si))
               = search_pages IndeedScraper.build_search_url keywords locations).
  { destruct (indeed_scrape_spec env keywords locations max_jobs si
                (or_intror Hc)) as (s1 & evs & E & _ & Hreq & _).
    rewrite E in Hcap_indeed |- *. cbn [state_of events_of fst snd] in *.
    apply Hreq. exact Hcap_indeed. }
  rewrite Eb, Ei, !search_pages_length. auto.
Qed.

(** The witness of C5: two keywords and two locations on a site that
    shows one job per page, run through the inherited loop and through
    the override. *)
Lemma C5_one_request_per_pair_witness :
  let K := ["graduate engineer"; "python developer"] in
  let L := ["London"; "Remote"] in
  let env := Samples.site [Samples.card "Engineer" "/rc/clk?jk=1"] in
  requests (events_of (BaseScraper.scrape (methods := IndeedMethods env)
                         K L 50 IndeedScraper.init))
  = search_pages IndeedScraper.build_search_url K L
  /\ requests (events_of (IndeedScraper.scrape env K L 50 IndeedScraper.init))
     = search_pages IndeedScraper.build_search_url K L
  /\ length (requests (events_of (BaseScraper.scrape (methods := IndeedMethods env)
                                    K L 50 IndeedScraper.init))) = 2 * 2
  /\ length (requests (events_of (IndeedScraper.scrape env K L 50
                                    IndeedScraper.init))) = 2 * 2.
Proof.
  cbv zeta.
  apply (C5_one_request_per_pair (methods := IndeedMethods _)
           IndeedScraper.build_search_url).
  - intros k l s. reflexivity.
  - apply indeed_page_returns. reflexivity.
  - reflexivity.
  - vm_compute. reflexivity.
  - vm_compute. reflexivity.
Defined.

(** C7, on [IndeedScraper.scrape]: one keyword, one location, one
    request; the rate-limit pause follows this last request, before
    the session is closed. *)
Theorem C7_indeed_pauses_after_last_request :
  events_of
    (IndeedScraper.scrape (Samples.site [Samples.card "Engineer" "/rc/clk?jk=1"])
       ["graduate engineer"] ["London"] 50 IndeedScraper.init)
  = [DriverStart;
     DriverGet "https://uk.indeed.com/jobs?q=graduate+engineer&l=London";
     Sleep 2;
     RandomDelay;
     DriverQuit].
Proof. vm_compute. reflexivity. Qed.

(** In general the override pauses once per request, the last one
    included. *)
Lemma indeed_one_pause_per_request env keywords locations max_jobs si :
  chrome_starts env = true ->
  length (filter is_delay
            (events_of (IndeedScraper.scrape env keywords locations max_jobs si)))
  = length (requests
              (events_of (IndeedScraper.scrape env keywords locations max_jobs si))).
Proof.
  intros Hc.
  destruct (indeed_scrape_spec env keywords locations max_jobs si (or_intror Hc))
    as (s1 & evs & E & Hdel & _).
  rewrite E. exact Hdel.
Qed.

(** The guard of the base class compares values: when the last keyword
    also stands earlier in the list, the pause after that earlier
    request is skipped. *)
Example base_skips_pause_on_repeated_keyword :
  events_of
    (BaseScraper.scrape (methods := IndeedMethods (Samples.site []))
       ["x"; "y"; "x"] ["l"] 50 IndeedScraper.init)
  = [DriverStart;
     DriverGet "https://uk.indeed.com/jobs?q=x&l=l";
     LogError "Error scraping https://uk.indeed.com/jobs?q=x&l=l: no element of the class within 10 s";
     DriverGet "https://uk.indeed.com/jobs?q=y&l=l";
     LogError "Error scraping https://uk.indeed.com/jobs?q=y&l=l: no element of the class within 10 s";
     RandomDelay;
     DriverGet "https://uk.indeed.com/jobs?q=x&l=l";
     LogError "Error scraping https://uk.indeed.com/jobs?q=x&l=l: no element of the class within 10 s"].
Proof. vm_compute. reflexivity. Qed.

(** C9: [BaseScraper.scrape] returns in every case.  Whatever the
    methods of the subclass do, and wherever one of them raises, the
    call returns the accumulator as the loop left it, cut to
    [max_jobs]; the exception shows in the error log and nowhere
    else. *)
Theorem C9_base_scrape_never_raises
        {X : Type} {methods : ScraperMethods X}
        (keywords locations : list string) (max_jobs : Z) (s : Scraper X) :
  let loop :=
    BaseScraper.for_keywords keywords locations max_jobs keywords
      (set_jobs_scraped [] s) in
  let out := BaseScraper.scrape keywords locations max_jobs s in
  result_of out = Ok (Py.slice_to (jobs_scraped (state_of loop)) max_jobs)
  /\ state_of out = state_of loop
  /\ events_of out
     = events_of loop
       ++ match result_of loop with
          | Ok _ => []
          | Raise e => [LogError ("Error during scraping: " ++ str e)]
          end.
Proof.
  cbv zeta. rewrite base_scrape_eq. auto.
Qed.


Example base_scrape_returns_partial_results :
  BaseScraper.scrape (methods := Flaky.methods) ["a"; "b"; "c"] ["l"] 50 Flaky.init
  = (Ok [Flaky.listing "a/l"],
     set_jobs_scraped [Flaky.listing "a/l"] Flaky.init,
     [RandomDelay; LogError "Error during scraping: connection lost"]).
Proof. vm_compute. reflexivity. Qed.

(** ** Page faults *)


Lemma failed_page_is_empty env url (s : Scraper IndeedFields) :
  page_load_fails env url ->
  result_of (IndeedScraper.scrape_search_page env url s) = Ok [].
Proof.
  unfold page_load_fails. intros H.
  destruct s as [dm dM js [h [w|]]];
    unfold IndeedScraper.scrape_search_page, try_except, bind,
      IndeedScraper._init_driver, IndeedScraper.driver_get,
      IndeedScraper.wait_until_present, IndeedScraper.soup_of_page,
      gets, emit, modify, ret, raise; cbn;
    destruct (chrome_starts env); cbn;
    destruct (navigate env url) as [doc|e]; cbn;
    try rewrite H; reflexivity.
Qed.

(** C8: a page whose load fails, or on which no job card shows up in
    time, gives the empty list and no exception, in every state of the
    scraper; and a run on a machine where Chrome starts ends with the
    summary status "success" and the log row "completed", whatever
    pages fail. *)
Theorem C8_failed_page_is_empty_not_fatal
        (env : Browser) (insert_fault : RawListing -> bool)
        (settings : Settings)
        (keywords locations : option (list string)) (max_jobs : option Z)
        (svc : JobScraperService.t) (url : string) :
  page_load_fails env url ->
  chrome_starts env = true ->
  (forall s : Scraper IndeedFields,
      result_of (IndeedScraper.scrape_search_page env url s) = Ok [])
  /\ exists summary row,
       result_of (JobScraperService.scrape_and_save_indeed env insert_fault
                    settings keywords locations max_jobs svc) = Ok summary
       /\ s_status summary = "success"
       /\ scraper_logs
            (JobScraperService.db
               (state_of (JobScraperService.scrape_and_save_indeed env
                            insert_fault settings keywords locations max_jobs
                            svc)))
          = scraper_logs (JobScraperService.db svc) ++ [row]
       /\ ScraperLog.status row = "completed".
Proof.
  intros Hfail Hc. split.
  - intros s. apply failed_page_is_empty. exact Hfail.
  - destruct (service_logs env insert_fault settings keywords locations
                max_jobs svc) as (summary & Hres & Hcase).
    destruct (indeed_scrape_spec env
                (JobScraperService.or_default keywords
                   (scraping_keywords_list settings))
                (JobScraperService.or_default locations
                   (scraping_locations_list settings))
                (JobScraperService.or_default max_jobs
                   (MAX_JOBS_PER_SCRAPE settings))
                (JobScraperService.indeed_scraper svc) (or_intror Hc))
      as (s1 & evs & E & _).
    rewrite E in Hcase. cbn [result_of fst] in Hcase.
    destruct Hcase as (_ & _ & Hst & _ & Hlogs).
    exists summary. eexists. repeat split; eauto.
Qed.

(** The witness of C8: a site on which every load fails. *)
Lemma C8_failed_page_is_empty_not_fatal_witness :
  (forall s : Scraper IndeedFields,
      result_of (IndeedScraper.scrape_search_page Samples.site_down
                   "https://uk.indeed.com/jobs?q=graduate+engineer&l=London" s)
      = Ok [])
  /\ exists summary row,
       result_of (JobScraperService.scrape_and_save_indeed Samples.site_down
                    Samples.no_fault default_settings None None None
                    (JobScraperService.init Samples.empty_db)) = Ok summary
       /\ s_status summary = "success"
       /\ scraper_logs
            (JobScraperService.db
               (state_of (JobScraperService.scrape_and_save_indeed
                            Samples.site_down Samples.no_fault default_settings
                            None None None
                            (JobScraperService.init Samples.empty_db))))
          = scraper_logs (JobScraperService.db
                            (JobScraperService.init Samples.empty_db)) ++ [row]
       /\ ScraperLog.status row = "completed".
Proof.
  apply C8_failed_page_is_empty_not_fatal.
  - exact I.
  - reflexivity.
Defined.

(** ** The service *)

(** C2, as the specification words it, fails on any run: the row has
    its final status and no end time stamp. *)
Lemma C2_end_timestamp_stays_unset :
  exists row,
    scraper_logs
      (JobScraperService.db
         (state_of (JobScraperService.scrape_and_save_indeed
                      (Samples.site [Samples.card "Engineer" "/rc/clk?jk=1"])
                      Samples.no_fault default_settings
                      (Some ["graduate engineer"]) (Some ["London"]) (Some 5%Z)
                      (JobScraperService.init Samples.empty_db))))
    = [row]
    /\ ScraperLog.terminal row = true
    /\ ~ (ScraperLog.scrape_ended_at row <> None).
Proof.
  eexists. split; [vm_compute; reflexivity|]. split; [reflexivity|].
  intros H. apply H. reflexivity.
Qed.

(** C2 (amended): every call returns, and it leaves the tables with
    exactly one more [ScraperLog] row, the one it created; this row is
    "completed" with the two counts of the summary, or "failed" with
    the error message; its end time stamp is not written.  The rows
    that were there are as they were. *)
Theorem C2_log_row_finalized
        (env : Browser) (insert_fault : RawListing -> bool)
        (settings : Settings)
        (keywords locations : option (list string)) (max_jobs : option Z)
        (svc : JobScraperService.t) :
  let out := JobScraperService.scrape_and_save_indeed env insert_fault
               settings keywords locations max_jobs svc in
  exists summary row,
    result_of out = Ok summary
    /\ scraper_logs (JobScraperService.db (state_of out))
       = scraper_logs (JobScraperService.db svc) ++ [row]
    /\ ScraperLog.scrape_ended_at row = None
    /\ ((ScraperLog.status row = "completed"
         /\ s_status summary = "success"
         /\ ScraperLog.jobs_found row = s_jobs_found summary
         /\ ScraperLog.jobs_added row = s_jobs_added summary
         /\ ScraperLog.error_message row = None)
        \/ (ScraperLog.status row = "failed"
            /\ s_status summary = "error"
            /\ ScraperLog.error_message row = s_error summary
            /\ s_error summary <> None)).
Proof.
  cbv zeta.
  destruct (service_logs env insert_fault settings keywords locations
              max_jobs svc) as (summary & Hres & Hcase).
  exists summary.
  destruct (result_of (IndeedScraper.scrape _ _ _ _ _)) as [jobs|e].
  - destruct Hcase as (Hf & _ & Hst & _ & Hlogs).
    eexists. split; [exact Hres|]. split; [exact Hlogs|].
    split; [reflexivity|]. left. cbn. rewrite Hf. auto.
  - destruct Hcase as (-> & Hlogs).
    eexists. split; [exact Hres|]. split; [exact Hlogs|].
    split; [reflexivity|]. right. cbn. repeat split. discriminate.
Qed.

(** C3, as the specification words it, fails on any run: the status
    of the summary of a successful run is "success", not "completed". *)
Lemma C3_summary_status_is_success :
  exists jobs summary,
    result_of (IndeedScraper.scrape
                 (Samples.site [Samples.card "Engineer" "/rc/clk?jk=1"])
                 ["graduate engineer"] ["London"] 5 IndeedScraper.init)
    = Ok jobs
    /\ result_of (JobScraperService.scrape_and_save_indeed
                    (Samples.site [Samples.card "Engineer" "/rc/clk?jk=1"])
                    Samples.no_fault default_settings
                    (Some ["graduate engineer"]) (Some ["London"]) (Some 5%Z)
                    (JobScraperService.init Samples.empty_db))
       = Ok summary
    /\ s_status summary <> "completed".
Proof.
  do 2 eexists. split; [vm_compute; reflexivity|].
  split; [vm_compute; reflexivity|]. cbn. discriminate.
Qed.

(** C3 (amended): every call returns a summary and never raises,
    whatever pages fail, whatever cards cannot be read, whatever URLs
    are stored already and whatever inserts the database refuses.
    When the scraper returned, the status is "success", [jobs_found]
    is the number of listings scraped, and the added and duplicate
    counts together do not exceed it; when the scraper raised, the
    status is "error", the counts are zero and [error] is the message
    of the exception. *)
Theorem C3_summary_always_returned
        (env : Browser) (insert_fault : RawListing -> bool)
        (settings : Settings)
        (keywords locations : option (list string)) (max_jobs : option Z)
        (svc : JobScraperService.t) :
  exists summary,
    result_of (JobScraperService.scrape_and_save_indeed env insert_fault
                 settings keywords locations max_jobs svc) = Ok summary
    /\ match
         result_of
           (IndeedScraper.scrape env
              (JobScraperService.or_default keywords
                 (scraping_keywords_list settings))
              (JobScraperService.or_default locations
                 (scraping_locations_list settings))
              (JobScraperService.or_default max_jobs
                 (MAX_JOBS_PER_SCRAPE settings))
              (JobScraperService.indeed_scraper svc))
       with
       | Ok jobs_scraped =>
           s_status summary = "success"
           /\ s_error summary = None
           /\ s_jobs_found summary = length jobs_scraped
           /\ s_jobs_added summary + s_jobs_duplicate summary
              <= s_jobs_found summary
       | Raise e =>
           s_status summary = "error"
           /\ s_error summary = Some (str e)
           /\ s_jobs_found summary = 0
           /\ s_jobs_added summary = 0
           /\ s_jobs_duplicate summary = 0
       end.
Proof.
  destruct (service_logs env insert_fault settings keywords locations
              max_jobs svc) as (summary & Hres & Hcase).
  exists summary. split; [exact Hres|].
  destruct (result_of (IndeedScraper.scrape _ _ _ _ _)) as [jobs|e].
  - destruct Hcase as (Hf & Hb & Hst & He & _). rewrite Hf. auto.
  - destruct Hcase as (-> & _). cbn. auto.
Qed.

Example summary_when_chrome_cannot_start :
  result_of (JobScraperService.scrape_and_save_indeed Samples.no_chrome
               Samples.no_fault default_settings None None None
               (JobScraperService.init Samples.empty_db))
  = Ok {| s_jobs_found := 0; s_jobs_added := 0; s_jobs_duplicate := 0;
          s_status := "error";
          s_error := Some "unable to start a Chrome session" |}.
Proof. vm_compute. reflexivity. Qed.

(** ** Re-ingestion *)


Lemma filter_length_le {A : Type} (p q : A -> bool) (l : list A) :
  (forall x, In x l -> p x = true -> q x = true) ->
  length (filter p l) <= length (filter q l).
Proof.
  induction l as [|a l IH]; intros H; cbn [filter]; [lia|].
  assert (IH' : length (filter p l) <= length (filter q l)).
  { apply IH. intros x Hx. apply H. right. exact Hx. }
  destruct (p a) eqn:Ep.
  - rewrite (H a (or_introl eq_refl) Ep). cbn [length]. lia.
  - destruct (q a); cbn [length]; lia.
Qed.

Lemma filter_all {A : Type} (p : A -> bool) (l : list A) :
  (forall x, In x l -> p x = true) -> filter p l = l.
Proof.
  induction l as [|a l IH]; intros H; cbn [filter]; [reflexivity|].
  rewrite (H a (or_introl eq_refl)). f_equal.
  apply IH. intros x Hx. apply H. right. exact Hx.
Qed.

Lemma existsb_eqb_In (u : string) (l : list string) :
  existsb (String.eqb u) l = true <-> In u l.
Proof.
  rewrite existsb_exists. split.
  - intros (x & Hx & E). apply String.eqb_eq in E. subst. exact Hx.
  - intros H. exists u. split; [exact H|apply String.eqb_refl].
Qed.

(** C1, as the specification words it, fails when the second run meets
    a URL twice that the first run did not see: the second run scrapes
    the jobs A and B under each of its two keywords, the first run had
    scraped A alone; two listings of the second run overlap with the
    first, and three are reported as duplicates. *)
Lemma C1_duplicates_exceed_overlap :
  let site1 := Samples.site [Samples.card "A" "/rc/clk?jk=a"] in
  let site2 := Samples.site [Samples.card "A" "/rc/clk?jk=a";
                             Samples.card "B" "/rc/clk?jk=b"] in
  let run1 :=
    JobScraperService.scrape_and_save_indeed site1 Samples.no_fault
      default_settings (Some ["graduate engineer"]) (Some ["London"])
      (Some 50%Z) (JobScraperService.init Samples.empty_db) in
  let run2 :=
    JobScraperService.scrape_and_save_indeed site2 Samples.no_fault
      default_settings (Some ["graduate engineer"; "junior engineer"])
      (Some ["London"]) (Some 50%Z)
      (JobScraperService.init (JobScraperService.db (state_of run1))) in
  exists r1 r2 summary2,
    result_of (IndeedScraper.scrape site1 ["graduate engineer"] ["London"] 50
                 IndeedScraper.init) = Ok r1
    /\ result_of (IndeedScraper.scrape site2
                    ["graduate engineer"; "junior engineer"] ["London"] 50
                    IndeedScraper.init) = Ok r2
    /\ result_of run2 = Ok summary2
    /\ s_jobs_duplicate summary2 <> length (overlap r1 r2).
Proof.
  cbv zeta. do 3 eexists.
  split; [vm_compute; reflexivity|].
  split; [vm_compute; reflexivity|].
  split; [vm_compute; reflexivity|].
  vm_compute. discriminate.
Qed.

(** C1 (amended): take two successive runs, the first on a store whose
    URLs are unique and with every scraped record either added or
    counted as a duplicate (none dropped by a refused insert).  Then
    every URL the first run scraped is stored exactly once after the
    first run and exactly once after the second; the second run counts
    at least as many duplicates as it has listings whose URL the first
    run had scraped; and when all its listings are such, it adds no
    row, leaves the stored URLs as they were, and counts every listing
    as a duplicate. *)
Theorem C1_reingestion_is_idempotent
        (env1 env2 : Browser) (fault1 fault2 : RawListing -> bool)
        (settings1 settings2 : Settings)
        (keywords1 locations1 keywords2 locations2 : option (list string))
        (max_jobs1 max_jobs2 : option Z)
        (svc1 svc2 : JobScraperService.t)
        (r1 r2 : list RawListing) (summary1 summary2 : Summary) :
  let run1 := JobScraperService.scrape_and_save_indeed env1 fault1 settings1
                keywords1 locations1 max_jobs1 svc1 in
  let run2 := JobScraperService.scrape_and_save_indeed env2 fault2 settings2
                keywords2 locations2 max_jobs2 svc2 in
  unique_urls (JobScraperService.db svc1) ->
  JobScraperService.db svc2 = JobScraperService.db (state_of run1) ->
  result_of
    (IndeedScraper.scrape env1
       (JobScraperService.or_default keywords1 (scraping_keywords_list settings1))
       (JobScraperService.or_default locations1 (scraping_locations_list settings1))
       (JobScraperService.or_default max_jobs1 (MAX_JOBS_PER_SCRAPE settings1))
       (JobScraperService.indeed_scraper svc1)) = Ok r1 ->
  result_of
    (IndeedScraper.scrape env2
       (JobScraperService.or_default keywords2 (scraping_keywords_list settings2))
       (JobScraperService.or_default locations2 (scraping_locations_list settings2))
       (JobScraperService.or_default max_jobs2 (MAX_JOBS_PER_SCRAPE settings2))
       (JobScraperService.indeed_scraper svc2)) = Ok r2 ->
  result_of run1 = Ok summary1 ->
  result_of run2 = Ok summary2 ->
  s_jobs_added summary1 + s_jobs_duplicate summary1 = s_jobs_found summary1 ->
  (forall u, In u (map job_board_url r1) ->
             count_url u (JobScraperService.db (state_of run1)) = 1
             /\ count_url u (JobScraperService.db (state_of run2)) = 1)
  /\ length (overlap r1 r2) <= s_jobs_duplicate summary2
  /\ ((forall j, In j r2 -> In (job_board_url j) (map job_board_url r1)) ->
      s_jobs_added summary2 = 0
      /\ s_jobs_duplicate summary2 = length r2
      /\ s_jobs_duplicate summary2 = length (overlap r1 r2)
      /\ stored_urls (JobScraperService.db (state_of run2))
         = stored_urls (JobScraperService.db svc2)).
Proof.
  cbv zeta. intros Huniq Hdb Hs1 Hs2 Hr1 Hr2 Hnodrop.
  pose proof (service_keeps_unique env1 fault1 settings1 keywords1 locations1
                max_jobs1 svc1 Huniq) as Huniq1.
  destruct (service_jobs env1 fault1 settings1 keywords1 locations1 max_jobs1
              svc1) as (sm1 & new1 & Hres1 & E1 & Hn1 & Hd1 & Hk1).
  rewrite Hr1 in Hres1. injection Hres1 as <-.
  destruct (Hk1 r1 Hs1) as (Hf1 & Ha1 & Hin1 & _ & _ & Hall1).
  assert (Hstored1 : forall u, In u (map job_board_url r1) ->
            In u (stored_urls (JobScraperService.db (state_of
              (JobScraperService.scrape_and_save_indeed env1 fault1 settings1
                 keywords1 locations1 max_jobs1 svc1))))).
  { apply Hall1. rewrite Hnodrop, Hf1. reflexivity. }
  destruct (service_jobs env2 fault2 settings2 keywords2 locations2 max_jobs2
              svc2) as (sm2 & new2 & Hres2 & E2 & Hn2 & Hd2 & Hk2).
  rewrite Hr2 in Hres2. injection Hres2 as <-.
  destruct (Hk2 r2 Hs2) as (Hf2 & Ha2 & Hin2 & Hdup2 & Hb2 & _).
  rewrite Hdb in E2, Hd2, Hdup2.
  assert (Hov : length (overlap r1 r2) <= s_jobs_duplicate summary2).
  { etransitivity; [|exact Hdup2]. unfold overlap.
    apply filter_length_le. intros j _ Hj.
    apply existsb_eqb_In in Hj. apply url_stored_In.
    apply Hstored1. exact Hj. }
  split; [|split].
  - intros u Hu. pose proof (Hstored1 u Hu) as Hin.
    assert (C1 : count_url u (JobScraperService.db (state_of
              (JobScraperService.scrape_and_save_indeed env1 fault1 settings1
                 keywords1 locations1 max_jobs1 svc1))) = 1).
    { unfold count_url. apply NoDup_count_occ'; assumption. }
    split; [exact C1|].
    unfold count_url in *. rewrite E2, count_occ_app, C1.
    rewrite (proj1 (count_occ_not_In string_dec new2 u)); [reflexivity|].
    intros Hnew. exact (Hd2 u Hnew Hin).
  - exact Hov.
  - intros Hsub.
    assert (Eov : overlap r1 r2 = r2).
    { unfold overlap. apply filter_all. intros j Hj.
      apply existsb_eqb_In. apply Hsub. exact Hj. }
    rewrite Eov in Hov |- *.
    assert (Hadd : s_jobs_added summary2 = 0) by lia.
    repeat split; try lia.
    rewrite Hadd in Ha2. symmetry in Ha2. apply length_zero_iff_nil in Ha2.
    rewrite Hdb, E2, Ha2. apply app_nil_r.
Qed.


Example scenario_first_run :
  result_of Scenario.first_run = Ok Scenario.first_summary.
Proof. vm_compute. reflexivity. Qed.

Example scenario_second_run :
  result_of Scenario.second_run = Ok Scenario.second_summary.
Proof. vm_compute. reflexivity. Qed.

(** The witness of C1: the scenario above. *)
Lemma C1_reingestion_is_idempotent_witness :
  (forall u, In u (map job_board_url Scenario.scraped) ->
             count_url u (JobScraperService.db (state_of Scenario.first_run)) = 1
             /\ count_url u (JobScraperService.db (state_of Scenario.second_run))
                = 1)
  /\ length (overlap Scenario.scraped Scenario.scraped)
     <= s_jobs_duplicate Scenario.second_summary
  /\ ((forall j, In j Scenario.scraped ->
                 In (job_board_url j) (map job_board_url Scenario.scraped)) ->
      s_jobs_added Scenario.second_summary = 0
      /\ s_jobs_duplicate Scenario.second_summary = length Scenario.scraped
      /\ s_jobs_duplicate Scenario.second_summary
         = length (overlap Scenario.scraped Scenario.scraped)
      /\ stored_urls (JobScraperService.db (state_of Scenario.second_run))
         = stored_urls
             (JobScraperService.db
                (JobScraperService.init
                   (JobScraperService.db (state_of Scenario.first_run))))).
Proof.
  apply (C1_reingestion_is_idempotent
           Scenario.site Scenario.site Samples.no_fault Samples.no_fault
           default_settings default_settings
           (Some Scenario.keywords) (Some Scenario.locations)
           (Some Scenario.keywords) (Some Scenario.locations)
           (Some 5%Z) (Some 5%Z)
           (JobScraperService.init Samples.empty_db)
           (JobScraperService.init
              (JobScraperService.db (state_of Scenario.first_run)))
           Scenario.scraped Scenario.scraped
           Scenario.first_summary Scenario.second_summary).
  - constructor.
  - reflexivity.
  - vm_compute. reflexivity.
  - vm_compute. reflexivity.
  - vm_compute. reflexivity.
  - vm_compute. reflexivity.
  - reflexivity.
Defined.

(** ** Cards without a link *)

(** C10: a card with a title element whose link has no [href] gives a
    record, and its URL is the empty string.  The stored URLs stay
    unique through every call of the service, so at most one row of
    [jobs] ever has the empty URL. *)
Theorem C10_missing_href_gives_empty_url
        (job_element title : Tag)
        (env : Browser) (insert_fault : RawListing -> bool)
        (settings : Settings)
        (keywords locations : option (list string)) (max_jobs : option Z)
        (svc : JobScraperService.t) :
  let out := JobScraperService.scrape_and_save_indeed env insert_fault
               settings keywords locations max_jobs svc in
  IndeedScraper.title_elem job_element = Some title ->
  lookup "href" (attrs_of (IndeedScraper.title_link title)) = None ->
  unique_urls (JobScraperService.db svc) ->
  (exists r,
      IndeedScraper.parse_job_listing job_element = Some r
      /\ job_board_url r = "")
  /\ unique_urls (JobScraperService.db (state_of out))
  /\ count_url "" (JobScraperService.db (state_of out)) <= 1.
Proof.
  cbv zeta. intros Ht Hhref Huniq.
  pose proof (service_keeps_unique env insert_fault settings keywords
                locations max_jobs svc Huniq) as Hu.
  split; [|split].
  - destruct (IndeedScraper.parse_job_listing job_element) as [r|] eqn:E.
    + exists r. split; [reflexivity|].
      rewrite (parse_url job_element r E). unfold link_href.
      rewrite Ht, Hhref. reflexivity.
    + apply parse_none_iff in E. congruence.
  - exact Hu.
  - unfold count_url. apply NoDup_count_occ. exact Hu.
Qed.

(** The witness of C10: a page with two cards whose links have no
    [href], scraped into an empty store. *)
Lemma C10_missing_href_gives_empty_url_witness :
  let out :=
    JobScraperService.scrape_and_save_indeed
      (Samples.site [Samples.card_no_href "Engineer";
                     Samples.card_no_href "Developer"])
      Samples.no_fault default_settings
      (Some ["graduate engineer"]) (Some ["London"]) (Some 50%Z)
      (JobScraperService.init Samples.empty_db) in
  (exists r,
      IndeedScraper.parse_job_listing (Samples.card_no_href "Engineer") = Some r
      /\ job_board_url r = "")
  /\ unique_urls (JobScraperService.db (state_of out))
  /\ count_url "" (JobScraperService.db (state_of out)) <= 1.
Proof.
  cbv zeta.
  apply (C10_missing_href_gives_empty_url
           (Samples.card_no_href "Engineer")
           (Element "h2" [("class", "jobTitle")]
              [Element "a" [("class", "jcs-JobTitle")]
                 [NavigableString "Engineer"]])).
  - reflexivity.
  - reflexivity.
  - constructor.
Defined.

(** Of two such cards on one page the first is stored and the second
    is counted as a duplicate of it. *)
Example two_cards_without_href :
  result_of
    (JobScraperService.scrape_and_save_indeed
       (Samples.site [Samples.card_no_href "Engineer";
                      Samples.card_no_href "Developer"])
       Samples.no_fault default_settings
       (Some ["graduate engineer"]) (Some ["London"]) (Some 50%Z)
       (JobScraperService.init Samples.empty_db))
  = Ok {| s_jobs_found := 2; s_jobs_added := 1; s_jobs_duplicate := 1;
          s_status := "success"; s_error := None |}.
Proof. vm_compute. reflexivity. Qed.

(** A refused insert drops the record and the run goes on. *)
Example refused_insert_is_dropped :
  result_of
    (JobScraperService.scrape_and_save_indeed Scenario.site
       (fun j => String.eqb (job_title j) "Graduate Engineer 2")
       default_settings (Some Scenario.keywords) (Some Scenario.locations)
       (Some 5%Z) (JobScraperService.init Samples.empty_db))
  = Ok {| s_jobs_found := 5; s_jobs_added := 4; s_jobs_duplicate := 0;
          s_status := "success"; s_error := None |}.
Proof. vm_compute. reflexivity. Qed.


(* ================================================================== *)
(** * Further properties of the code *)
(* ================================================================== *)

(** ** What [IndeedScraper.scrape] returns and what it does *)

Lemma firstn_app_le {A : Type} (n : nat) (l x : list A) :
  n <= length l -> firstn n (l ++ x) = firstn n l.
Proof.
  intros H. rewrite firstn_app.
  replace (n - length l) with 0 by lia. cbn. apply app_nil_r.
Qed.

Lemma firstn_extend {A : Type} (n : nat) (a b x : list A) :
  firstn n a = firstn n b -> firstn n (a ++ x) = firstn n (b ++ x).
Proof.
  intros H. pose proof (f_equal (@length A) H) as Hlen.
  rewrite !length_firstn in Hlen. rewrite !firstn_app.
  destruct (Nat.le_gt_cases n (length a)) as [Ha|Ha].
  - replace (n - length a) with 0 by lia.
    replace (n - length b) with 0 by lia. rewrite H. reflexivity.
  - rewrite (firstn_all2 a) in H |- * by lia.
    rewrite (firstn_all2 b) in H |- * by lia.
    subst b. reflexivity.
Qed.

Lemma prefix_nil (s : string) : String.prefix "" s = true.
Proof. destruct s; reflexivity. Qed.

Lemma parsed_listing_is_indeed (card : Tag) (r : RawListing) :
  IndeedScraper.parse_job_listing card = Some r -> indeed_listing r.
Proof.
  unfold IndeedScraper.parse_job_listing.
  destruct (IndeedScraper.title_elem card) as [title|]; [|discriminate].
  intros H. injection H as <-. unfold indeed_listing.
  cbn [job_board_source requirements job_board_url].
  repeat split.
  destruct (Py.startswith (get (IndeedScraper.title_link title) "href" "") "/")
    eqn:E; [reflexivity|exact E].
Qed.

Lemma parse_cards_are_indeed (cards : list Tag) :
  Forall indeed_listing (IndeedScraper.parse_cards cards).
Proof.
  unfold IndeedScraper.parse_cards. induction cards as [|c cards IH];
    cbn [flat_map]; [constructor|].
  apply Forall_app. split; [|exact IH].
  destruct (IndeedScraper.parse_job_listing c) as [r|] eqn:E; [|constructor].
  constructor; [|constructor]. exact (parsed_listing_is_indeed c r E).
Qed.

Lemma page_listings_are_indeed (env : Browser) (url : string) :
  Forall indeed_listing (page_listings env url).
Proof.
  unfold page_listings. destruct (navigate env url) as [doc|e]; [|constructor].
  destruct (class_present "job_seen_beacon" doc); [|constructor].
  apply parse_cards_are_indeed.
Qed.

Section IndeedFacts.

Variable env : Browser.

Let St : Type := Scraper IndeedFields.
Let len (s : St) : Z := Z.of_nat (length (jobs_scraped s)).

(** One page in an open session: the listings of the page, the session
    kept, and no event but those of a page. *)
Lemma scrape_search_page_in_session url (s : St) :
  session_open s ->
  exists s' evs,
    IndeedScraper.scrape_search_page env url s
    = (Ok (page_listings env url), s', evs)
    /\ jobs_scraped s' = jobs_scraped s
    /\ session_open s'
    /\ forallb page_event evs = true.
Proof.
  unfold session_open. intros H.
  destruct s as [dm dM js [h [w|]]]; cbn in H; [|congruence].
  unfold page_listings,
    IndeedScraper.scrape_search_page, try_except, bind,
    IndeedScraper._init_driver, IndeedScraper.driver_get,
    IndeedScraper.wait_until_present, IndeedScraper.soup_of_page,
    gets, emit, modify, ret, raise; cbn.
  destruct (navigate env url) as [doc|e]; cbn;
    try destruct (class_present "job_seen_beacon" doc); cbn;
    do 2 eexists; repeat split; try reflexivity; cbn;
    rewrite ?prefix_nil; try reflexivity; congruence.
Qed.

Lemma indeed_for_locations_facts max_jobs keyword todo :
  forall s : St,
    session_open s ->
    exists s' evs,
      IndeedScraper.for_locations env max_jobs keyword todo s
      = (Ok tt, s', evs)
      /\ session_open s'
      /\ forallb page_event evs = true
      /\ (Forall indeed_listing (jobs_scraped s) ->
          Forall indeed_listing (jobs_scraped s'))
      /\ ((0 <= max_jobs)%Z ->
          firstn (Z.to_nat max_jobs) (jobs_scraped s')
          = firstn (Z.to_nat max_jobs)
              (jobs_scraped s
               ++ flat_map
                    (fun l => page_listings env
                                (IndeedScraper.build_search_url keyword l))
                    todo)).
Proof.
  induction todo as [|location rest IH]; intros s Hopen.
  - exists s, []. repeat split; auto. intros _. cbn. rewrite app_nil_r.
    reflexivity.
  - cbn [IndeedScraper.for_locations].
    destruct (max_jobs <=? len s)%Z eqn:E.
    + exists s, []. unfold bind, BaseScraper.limit_reached, gets.
      unfold len in E. rewrite E. repeat split; auto.
      intros Hn. symmetry. apply firstn_app_le.
      apply Z.leb_le in E. lia.
    + destruct (scrape_search_page_in_session
                  (IndeedScraper.build_search_url keyword location) s Hopen)
        as (s1 & ev1 & Hp & Hjs & Ho1 & He1).
      set (s2 := set_jobs_scraped
                   (jobs_scraped s1
                    ++ page_listings env
                         (IndeedScraper.build_search_url keyword location))
                   s1).
      destruct (IH s2 Ho1) as (s' & evs & Hl & Ho' & He & Hf & Hn).
      do 2 eexists. split.
      { unfold bind, BaseScraper.limit_reached, gets.
        unfold len in E. rewrite E. rewrite Hp.
        unfold BaseScraper.extend, BaseScraper.random_delay, modify, emit.
        fold s2. rewrite Hl. reflexivity. }
      repeat split.
      * exact Ho'.
      * cbn [app]. rewrite forallb_app, He1. cbn. exact He.
      * intros Hs. apply Hf. unfold s2. cbn. rewrite Hjs.
        apply Forall_app. split; [exact Hs|apply page_listings_are_indeed].
      * intros H0. rewrite (Hn H0). unfold s2. cbn [jobs_scraped set_jobs_scraped].
        rewrite Hjs. cbn [flat_map]. rewrite <- app_assoc. reflexivity.
Qed.

Lemma indeed_for_keywords_facts locations max_jobs todo :
  forall s : St,
    session_open s ->
    exists s' evs,
      IndeedScraper.for_keywords env locations max_jobs todo s
      = (Ok tt, s', evs)
      /\ session_open s'
      /\ forallb page_event evs = true
      /\ (Forall indeed_listing (jobs_scraped s) ->
          Forall indeed_listing (jobs_scraped s'))
      /\ ((0 <= max_jobs)%Z ->
          firstn (Z.to_nat max_jobs) (jobs_scraped s')
          = firstn (Z.to_nat max_jobs)
              (jobs_scraped s ++ all_listings env todo locations)).
Proof.
  induction todo as [|keyword rest IH]; intros s Hopen.
  - exists s, []. repeat split; auto. intros _. cbn. rewrite app_nil_r.
    reflexivity.
  - cbn [IndeedScraper.for_keywords].
    destruct (indeed_for_locations_facts max_jobs keyword locations s Hopen)
      as (s1 & ev1 & Hl & Ho1 & He1 & Hf1 & Hn1).
    destruct (max_jobs <=? len s1)%Z eqn:E.
    + exists s1, ev1. unfold bind. rewrite Hl.
      unfold BaseScraper.limit_reached, gets. unfold len in E. rewrite E.
      repeat split; auto.
      * cbn. rewrite app_nil_r. reflexivity.
      * intros H0. apply Z.leb_le in E.
        unfold all_listings. cbn [flat_map]. rewrite app_assoc.
        rewrite <- (firstn_extend _ _ _ _ (Hn1 H0)).
        symmetry. apply firstn_app_le. unfold len in E. lia.
    + destruct (IH s1 Ho1) as (s' & evs & Hk & Ho' & He & Hf & Hn).
      do 2 eexists. split.
      { unfold bind. rewrite Hl. unfold BaseScraper.limit_reached, gets.
        unfold len in E. rewrite E. rewrite Hk. reflexivity. }
      repeat split.
      * exact Ho'.
      * cbn [app]. rewrite forallb_app, He1. cbn. exact He.
      * intros Hs. apply Hf, Hf1, Hs.
      * intros H0. rewrite (Hn H0).
        unfold all_listings. cbn [flat_map]. rewrite app_assoc.
        apply firstn_extend. exact (Hn1 H0).
Qed.

End IndeedFacts.

Lemma Forall_firstn_of {A : Type} (P : A -> Prop) (n : nat) (l : list A) :
  Forall P l -> Forall P (firstn n l).
Proof.
  intros H. revert n. induction H as [|a l Ha Hl IH]; intros [|n]; cbn;
    constructor; auto.
Qed.

Lemma Forall_slice_to {A : Type} (P : A -> Prop) (n : Z) (l : list A) :
  Forall P l -> Forall P (Py.slice_to l n).
Proof.
  intros H. unfold Py.slice_to.
  destruct (0 <=? n)%Z; apply Forall_firstn_of; exact H.
Qed.

Lemma prefix_cons_inv (a : ascii) (p m : string) :
  String.prefix (String a p) m = true ->
  exists m', m = String a m' /\ String.prefix p m' = true.
Proof.
  destruct m as [|b m]; [discriminate|].
  change (String.prefix (String a p) (String b m))
    with (if ascii_dec a b then String.prefix p m else false).
  destruct (ascii_dec a b) as [<-|]; [|discriminate].
  intros H. exists m. auto.
Qed.

Lemma scraping_is_not_saving (msg : string) :
  Py.startswith msg "Error scraping " = true ->
  Py.startswith msg "Error saving job: " = false.
Proof.
  unfold Py.startswith. intros H.
  do 8 (apply prefix_cons_inv in H; destruct H as (? & -> & H)).
  reflexivity.
Qed.

(** Page events are neither the start nor the end of a session, nor
    the error line of a refused insert. *)
Lemma page_events_filtered (evs : list event) :
  forallb page_event evs = true ->
  filter is_start evs = []
  /\ filter is_quit evs = []
  /\ filter is_save_error evs = [].
Proof.
  induction evs as [|e evs IH]; cbn [forallb filter]; [auto|].
  intros H. apply andb_true_iff in H. destruct H as [He H].
  destruct (IH H) as (H1 & H2 & H3).
  destruct e; cbn in He |- *; try discriminate; auto.
  rewrite (scraping_is_not_saving msg He). auto.
Qed.

Section IndeedScrapeFacts.

Variable env : Browser.

Lemma init_driver_in_session (s : Scraper IndeedFields) :
  has_session s = true ->
  IndeedScraper._init_driver env s = (Ok tt, s, []).
Proof.
  unfold has_session, IndeedScraper._init_driver, bind, gets, ret.
  destruct (driver (ext s)); [reflexivity|discriminate].
Qed.

Lemma init_driver_starts (s : Scraper IndeedFields) :
  has_session s = false -> chrome_starts env = true ->
  IndeedScraper._init_driver env s
  = (Ok tt,
     IndeedScraper.set_driver
       (Some {| page_source := IndeedScraper.blank_page |}) s,
     [DriverStart]).
Proof.
  unfold has_session, IndeedScraper._init_driver, bind, gets, emit, modify.
  destruct (driver (ext s)); [discriminate|]. intros _ ->. reflexivity.
Qed.

Lemma has_session_open (s : Scraper IndeedFields) :
  has_session s = true <-> session_open s.
Proof.
  unfold has_session, session_open.
  destruct (driver (ext s)); split; congruence.
Qed.

(** [scrape] when a session can be had: the events are the start of
    Chrome if no session was open, the events of the pages, and the
    end of the session. *)
Lemma indeed_scrape_facts keywords locations max_jobs
      (s : Scraper IndeedFields) :
  has_session s = true \/ chrome_starts env = true ->
  exists s1 evl,
    IndeedScraper.scrape env keywords locations max_jobs s
    = (Ok (Py.slice_to (jobs_scraped s1) max_jobs),
       IndeedScraper.set_driver None s1,
       (if has_session s then [] else [DriverStart]) ++ evl ++ [DriverQuit])
    /\ forallb page_event evl = true
    /\ Forall indeed_listing (jobs_scraped s1)
    /\ ((0 <= max_jobs)%Z ->
        firstn (Z.to_nat max_jobs) (jobs_scraped s1)
        = firstn (Z.to_nat max_jobs) (all_listings env keywords locations)).
Proof.
  intros H.
  assert (Hinit : exists s0,
    IndeedScraper._init_driver env s
    = (Ok tt, s0, if has_session s then [] else [DriverStart])
    /\ session_open s0).
  { destruct (has_session s) eqn:E.
    - exists s. split; [apply init_driver_in_session; exact E|].
      apply has_session_open. exact E.
    - destruct H as [H|H]; [discriminate|].
      eexists. split; [apply init_driver_starts; assumption|].
      unfold session_open. cbn. discriminate. }
  destruct Hinit as (s0 & Hi & Ho0).
  assert (Ho0' : session_open (set_jobs_scraped [] s0)) by exact Ho0.
  destruct (indeed_for_keywords_facts env locations max_jobs keywords _ Ho0')
    as (s1 & evl & Hk & Ho1 & He & Hf & Hn).
  exists s1, evl. split.
  { unfold IndeedScraper.scrape, try_finally, bind.
    rewrite Hi. unfold modify at 1. rewrite Hk. unfold gets.
    rewrite (close_driver_spec s1 Ho1). cbn [app].
    rewrite app_nil_r, app_assoc. reflexivity. }
  split; [exact He|]. split; [apply Hf; constructor|].
  intros H0. exact (Hn H0).
Qed.

End IndeedScrapeFacts.

(** X1: with a session at hand and a limit that is not negative,
    [IndeedScraper.scrape] returns the first [max_jobs] listings of the
    search pages of all pairs, taken keyword by keyword and location by
    location: stopping early at the limit loses nothing that would
    have been returned. *)
Theorem indeed_scrape_is_truncated_traversal
        (env : Browser) (keywords locations : list string) (max_jobs : Z)
        (s : Scraper IndeedFields) :
  has_session s = true \/ chrome_starts env = true ->
  (0 <= max_jobs)%Z ->
  result_of (IndeedScraper.scrape env keywords locations max_jobs s)
  = Ok (firstn (Z.to_nat max_jobs) (all_listings env keywords locations)).
Proof.
  intros H H0.
  destruct (indeed_scrape_facts env keywords locations max_jobs s H)
    as (s1 & evl & E & _ & _ & Hn).
  rewrite E. cbn [result_of fst]. f_equal.
  unfold Py.slice_to. apply Z.leb_le in H0. rewrite H0.
  apply Hn. apply Z.leb_le. exact H0.
Qed.

Lemma indeed_scrape_is_truncated_traversal_witness :
  result_of (IndeedScraper.scrape Scenario.site
               ["graduate engineer"; "junior engineer"] ["London"; "Leeds"] 11
               IndeedScraper.init)
  = Ok (firstn (Z.to_nat 11)
          (all_listings Scenario.site
             ["graduate engineer"; "junior engineer"] ["London"; "Leeds"])).
Proof.
  apply indeed_scrape_is_truncated_traversal.
  - right. reflexivity.
  - lia.
Defined.

(** X2: [IndeedScraper.scrape] leaves no session behind, whatever
    happens: after the call [driver] is [None]; Chrome is started at
    most once, and only when no session was open; and a session that
    was open or was started is ended exactly once. *)
Theorem indeed_scrape_closes_session
        (env : Browser) (keywords locations : list string) (max_jobs : Z)
        (s : Scraper IndeedFields) :
  let out := IndeedScraper.scrape env keywords locations max_jobs s in
  driver (ext (state_of out)) = None
  /\ filter is_start (events_of out)
     = (if has_session s then []
        else if chrome_starts env then [DriverStart] else [])
  /\ filter is_quit (events_of out)
     = (if has_session s || chrome_starts env then [DriverQuit] else []).
Proof.
  cbv zeta.
  destruct (has_session s) eqn:Hs;
    [|destruct (chrome_starts env) eqn:Hc].
  - destruct (indeed_scrape_facts env keywords locations max_jobs s
                (or_introl Hs)) as (s1 & evl & E & He & _).
    rewrite E, Hs. cbn [state_of events_of fst snd app orb].
    destruct (page_events_filtered evl He) as (H1 & H2 & _).
    rewrite !filter_app, H1, H2. auto.
  - destruct (indeed_scrape_facts env keywords locations max_jobs s
                (or_intror Hc)) as (s1 & evl & E & He & _).
    rewrite E, Hs. cbn [state_of events_of fst snd app orb].
    destruct (page_events_filtered evl He) as (H1 & H2 & _).
    cbn [filter is_start is_quit]. rewrite !filter_app, H1, H2. auto.
  - assert (Hd : driver (ext s) = None).
    { unfold has_session in Hs. destruct (driver (ext s)); congruence. }
    rewrite (indeed_scrape_raises env keywords locations max_jobs s Hd Hc).
    cbn. auto.
Qed.

Lemma scraped_listings_are_indeed
      (env : Browser) (keywords locations : list string) (max_jobs : Z)
      (s : Scraper IndeedFields) (jobs : list RawListing) :
  result_of (IndeedScraper.scrape env keywords locations max_jobs s) = Ok jobs ->
  Forall indeed_listing jobs.
Proof.
  intros H.
  destruct (has_session s) eqn:Hs;
    [|destruct (chrome_starts env) eqn:Hc].
  - destruct (indeed_scrape_facts env keywords locations max_jobs s
                (or_introl Hs)) as (s1 & evl & E & _ & Hf & _).
    rewrite E in H. injection H as <-. apply Forall_slice_to. exact Hf.
  - destruct (indeed_scrape_facts env keywords locations max_jobs s
                (or_intror Hc)) as (s1 & evl & E & _ & Hf & _).
    rewrite E in H. injection H as <-. apply Forall_slice_to. exact Hf.
  - assert (Hd : driver (ext s) = None).
    { unfold has_session in Hs. destruct (driver (ext s)); congruence. }
    rewrite (indeed_scrape_raises env keywords locations max_jobs s Hd Hc) in H.
    discriminate.
Qed.

(** The events of [scrape] hold no error line of a refused insert. *)
Lemma scrape_events_no_save_error
      (env : Browser) (keywords locations : list string) (max_jobs : Z)
      (s : Scraper IndeedFields) :
  filter is_save_error
    (events_of (IndeedScraper.scrape env keywords locations max_jobs s)) = [].
Proof.
  destruct (has_session s) eqn:Hs;
    [|destruct (chrome_starts env) eqn:Hc].
  - destruct (indeed_scrape_facts env keywords locations max_jobs s
                (or_introl Hs)) as (s1 & evl & E & He & _).
    rewrite E, Hs. cbn [events_of snd app].
    destruct (page_events_filtered evl He) as (_ & _ & H3).
    rewrite filter_app, H3. reflexivity.
  - destruct (indeed_scrape_facts env keywords locations max_jobs s
                (or_intror Hc)) as (s1 & evl & E & He & _).
    rewrite E, Hs. cbn [events_of snd].
    destruct (page_events_filtered evl He) as (_ & _ & H3).
    rewrite !filter_app, H3. reflexivity.
  - assert (Hd : driver (ext s) = None).
    { unfold has_session in Hs. destruct (driver (ext s)); congruence. }
    rewrite (indeed_scrape_raises env keywords locations max_jobs s Hd Hc).
    reflexivity.
Qed.



(** ** [IndeedScraper.scrape_with_pagination] *)

Lemma filter_lt_seq (m a n : nat) :
  length (filter (fun p => (p <? m)%nat) (seq a n)) <= m - a.
Proof.
  revert a. induction n as [|n IH]; intros a; cbn [seq filter]; [cbn; lia|].
  specialize (IH (S a)).
  destruct (a <? m)%nat eqn:E; cbn [length].
  - apply Nat.ltb_lt in E. lia.
  - lia.
Qed.

(** At most [max_pages - 1] pages of [range(max_pages)] come before
    the last one. *)
Lemma pages_before_last (max_pages : Z) :
  length (filter (fun p => (Z.of_nat p <? max_pages - 1)%Z)
            (Py.range max_pages))
  <= Z.to_nat (max_pages - 1).
Proof.
  unfold Py.range.
  rewrite (filter_ext _ (fun p => (p <? Z.to_nat (max_pages - 1))%nat)).
  - pose proof (filter_lt_seq (Z.to_nat (max_pages - 1)) 0
                  (Z.to_nat max_pages)). lia.
  - intros p.
    destruct (Z.of_nat p <? max_pages - 1)%Z eqn:E1;
      destruct (p <? Z.to_nat (max_pages - 1))%nat eqn:E2; try reflexivity.
    + apply Z.ltb_lt in E1. apply Nat.ltb_ge in E2. lia.
    + apply Z.ltb_ge in E1. apply Nat.ltb_lt in E2. lia.
Qed.

Section Pagination.

Variable env : Browser.

Let St : Type := Scraper IndeedFields.
Let len (s : St) : Z := Z.of_nat (length (jobs_scraped s)).

(** One page in any state: the method returns, asks for at most one
    page and takes no rate-limit pause. *)
Lemma scrape_search_page_any url (s : St) :
  exists jobs s' evs,
    IndeedScraper.scrape_search_page env url s = (Ok jobs, s', evs)
    /\ jobs_scraped s' = jobs_scraped s
    /\ length (requests evs) <= 1
    /\ filter is_delay evs = [].
Proof.
  destruct s as [dm dM js [h [w|]]];
    unfold IndeedScraper.scrape_search_page, try_except, bind,
      IndeedScraper._init_driver, IndeedScraper.driver_get,
      IndeedScraper.wait_until_present, IndeedScraper.soup_of_page,
      gets, emit, modify, ret, raise; cbn;
    destruct (chrome_starts env); cbn;
    destruct (navigate env url) as [doc|e]; cbn;
    try destruct (class_present "job_seen_beacon" doc); cbn;
    do 3 eexists; repeat split; cbn; lia.
Qed.

(** One page without a session on a machine without Chrome. *)
Lemma scrape_search_page_no_chrome url (s : St) :
  driver (ext s) = None -> chrome_starts env = false ->
  exists msg,
    IndeedScraper.scrape_search_page env url s = (Ok [], s, [LogError msg]).
Proof.
  intros Hd Hc. destruct s as [dm dM js [h d]]. cbn in Hd. subst d.
  unfold IndeedScraper.scrape_search_page, try_except, bind,
    IndeedScraper._init_driver, gets, emit, ret, raise. cbn.
  rewrite Hc. eexists. reflexivity.
Qed.

Lemma close_driver_any (s : St) :
  exists s' evs,
    IndeedScraper._close_driver s = (Ok tt, s', evs)
    /\ driver (ext s') = None
    /\ jobs_scraped s' = jobs_scraped s
    /\ requests evs = []
    /\ filter is_delay evs = [].
Proof.
  unfold IndeedScraper._close_driver, bind, gets, emit, modify, ret.
  destruct (driver (ext s)) eqn:E; do 2 eexists; repeat split; auto.
Qed.

Lemma for_pages_full max_pages max_jobs keyword location todo (s : St) :
  (max_jobs <= len s)%Z ->
  IndeedScraper.for_pages env max_pages max_jobs keyword location todo s
  = (Ok tt, s, []).
Proof.
  intros H. destruct todo as [|page rest]; [reflexivity|].
  cbn [IndeedScraper.for_pages].
  unfold bind, BaseScraper.limit_reached, gets.
  apply Z.leb_le in H. unfold len in H. rewrite H. reflexivity.
Qed.

Lemma for_locations_paged_full max_pages max_jobs keyword todo (s : St) :
  (max_jobs <= len s)%Z ->
  IndeedScraper.for_locations_paged env max_pages max_jobs keyword todo s
  = (Ok tt, s, []).
Proof.
  intros H. destruct todo as [|location rest]; [reflexivity|].
  cbn [IndeedScraper.for_locations_paged].
  unfold bind, BaseScraper.limit_reached, gets.
  apply Z.leb_le in H. unfold len in H. rewrite H. reflexivity.
Qed.

Lemma for_keywords_paged_full locations max_pages max_jobs todo (s : St) :
  (max_jobs <= len s)%Z ->
  IndeedScraper.for_keywords_paged env locations max_pages max_jobs todo s
  = (Ok tt, s, []).
Proof.
  intros H. destruct todo as [|keyword rest]; [reflexivity|].
  cbn [IndeedScraper.for_keywords_paged].
  erewrite bind_ok by (apply for_locations_paged_full; exact H).
  unfold bind, BaseScraper.limit_reached, gets.
  apply Z.leb_le in H. unfold len in H. rewrite H. reflexivity.
Qed.

(** The page loop in any state: it returns; it asks for at most one
    page per page number, and pauses at most once per page number that
    is not the last. *)
Lemma for_pages_any max_pages max_jobs keyword location todo :
  forall s : St,
  exists s' evs,
    IndeedScraper.for_pages env max_pages max_jobs keyword location todo s
    = (Ok tt, s', evs)
    /\ length (requests evs) <= length todo
    /\ length (filter is_delay evs)
       <= length (filter (fun p => (Z.of_nat p <? max_pages - 1)%Z) todo).
Proof.
  induction todo as [|page rest IH]; intros s.
  - exists s, []. repeat split; cbn [length requests flat_map filter]; lia.
  - cbn [IndeedScraper.for_pages].
    destruct (max_jobs <=? len s)%Z eqn:E.
    + exists s, []. unfold bind, BaseScraper.limit_reached, gets.
      unfold len in E. rewrite E. repeat split; cbn [length requests flat_map filter]; lia.
    + destruct (scrape_search_page_any
                  (IndeedScraper.page_url keyword location page) s)
        as (jobs & s1 & ev1 & Hp & _ & Hr1 & Hd1).
      destruct jobs as [|j jobs].
      * exists s1, ev1. unfold bind, BaseScraper.limit_reached, gets.
        unfold len in E. rewrite E, Hp. unfold ret.
        cbn [app]. rewrite app_nil_r. repeat split.
        -- cbn [length]. lia.
        -- rewrite Hd1. cbn. lia.
      * set (s2 := set_jobs_scraped (jobs_scraped s1 ++ j :: jobs) s1).
        destruct (IH s2) as (s' & evs & Hl & Hr & Hd).
        cbn [filter].
        destruct (Z.of_nat page <? max_pages - 1)%Z eqn:Ep.
        -- do 2 eexists. split.
           { unfold bind, BaseScraper.limit_reached, gets.
             unfold len in E. rewrite E, Hp.
             unfold BaseScraper.extend, BaseScraper.random_delay, modify, emit.
             fold s2. rewrite Hl. reflexivity. }
           cbn [app]. rewrite !requests_app, !filter_app, !length_app, Hd1.
           change (requests (RandomDelay :: evs)) with (requests evs).
           cbn [filter is_delay length app]. split; lia.
        -- do 2 eexists. split.
           { unfold bind, BaseScraper.limit_reached, gets.
             unfold len in E. rewrite E, Hp.
             unfold BaseScraper.extend, modify, ret.
             fold s2. rewrite Hl. reflexivity. }
           cbn [app]. rewrite !requests_app, !filter_app, !length_app, Hd1.
           cbn [length]. split; lia.
Qed.

Lemma for_locations_paged_any max_pages max_jobs keyword todo :
  forall s : St,
  exists s' evs,
    IndeedScraper.for_locations_paged env max_pages max_jobs keyword todo s
    = (Ok tt, s', evs)
    /\ length (requests evs) <= length todo * Z.to_nat max_pages
    /\ length (filter is_delay evs)
       <= length todo * Z.to_nat (max_pages - 1).
Proof.
  induction todo as [|location rest IH]; intros s.
  - exists s, []. repeat split; cbn [length requests flat_map filter]; apply Nat.le_0_l.
  - cbn [IndeedScraper.for_locations_paged].
    destruct (max_jobs <=? len s)%Z eqn:E.
    + exists s, []. unfold bind, BaseScraper.limit_reached, gets.
      unfold len in E. rewrite E. repeat split; cbn [length requests flat_map filter]; apply Nat.le_0_l.
    + destruct (for_pages_any max_pages max_jobs keyword location
                  (Py.range max_pages) s) as (s1 & ev1 & Hp & Hr1 & Hd1).
      destruct (IH s1) as (s' & evs & Hl & Hr & Hd).
      do 2 eexists. split.
      { unfold bind, BaseScraper.limit_reached, gets.
        unfold len in E. rewrite E, Hp, Hl. reflexivity. }
      pose proof (pages_before_last max_pages) as Hb.
      assert (Hlen : length (Py.range max_pages) = Z.to_nat max_pages)
        by (unfold Py.range; apply length_seq).
      cbn [app]. rewrite !requests_app, !filter_app, !length_app.
      cbn [length]. split; nia.
Qed.

Lemma for_keywords_paged_any locations max_pages max_jobs todo :
  forall s : St,
  exists s' evs,
    IndeedScraper.for_keywords_paged env locations max_pages max_jobs todo s
    = (Ok tt, s', evs)
    /\ length (requests evs)
       <= length todo * (length locations * Z.to_nat max_pages)
    /\ length (filter is_delay evs)
       <= length todo * (length locations * Z.to_nat (max_pages - 1)).
Proof.
  induction todo as [|keyword rest IH]; intros s.
  - exists s, []. repeat split; cbn [length requests flat_map filter]; apply Nat.le_0_l.
  - cbn [IndeedScraper.for_keywords_paged].
    destruct (for_locations_paged_any max_pages max_jobs keyword locations s)
      as (s1 & ev1 & Hl & Hr1 & Hd1).
    destruct (max_jobs <=? len s1)%Z eqn:E.
    + exists s1, ev1. unfold bind. rewrite Hl.
      unfold BaseScraper.limit_reached, gets. unfold len in E. rewrite E.
      repeat split; cbn [length]; try nia.
      cbn. rewrite app_nil_r. reflexivity.
    + destruct (IH s1) as (s' & evs & Hk & Hr & Hd).
      do 2 eexists. split.
      { unfold bind. rewrite Hl. unfold BaseScraper.limit_reached, gets.
        unfold len in E. rewrite E, Hk. reflexivity. }
      cbn [app]. rewrite !requests_app, !filter_app, !length_app.
      cbn [length]. split; nia.
Qed.

(** The whole method in any state. *)
Lemma pagination_any keywords locations max_pages max_jobs (s : St) :
  exists (s1 s' : St) evs,
    IndeedScraper.scrape_with_pagination env keywords locations
      max_pages max_jobs s
    = (Ok (Py.slice_to (jobs_scraped s1) max_jobs), s', evs)
    /\ driver (ext s') = None
    /\ ((max_jobs <= 0)%Z -> jobs_scraped s1 = [])
    /\ length (requests evs)
       <= length keywords * (length locations * Z.to_nat max_pages)
    /\ length (filter is_delay evs)
       <= length keywords * (length locations * Z.to_nat (max_pages - 1)).
Proof.
  destruct (for_keywords_paged_any locations max_pages max_jobs keywords
              (set_jobs_scraped [] s)) as (s1 & evl & Hk & Hr & Hd).
  destruct (close_driver_any s1) as (s' & evc & Hc & Hnone & _ & Hrc & Hdc).
  exists s1, s', (evl ++ evc). split.
  { unfold IndeedScraper.scrape_with_pagination, try_finally, bind.
    unfold modify at 1. rewrite Hk. unfold gets. rewrite Hc.
    cbn [app]. rewrite app_nil_r. reflexivity. }
  split; [exact Hnone|]. split.
  { intros H0.
    rewrite for_keywords_paged_full in Hk by (unfold len; cbn; lia).
    injection Hk as <- _. reflexivity. }
  rewrite requests_app, filter_app, !length_app, Hrc, Hdc. cbn [length].
  split; nia.
Qed.

End Pagination.

(** X4: [scrape_with_pagination] never raises: on every machine and
    site it returns a list of at most [max(max_jobs, 0)] listings, and
    it leaves no session behind. *)
Theorem pagination_never_raises
        (env : Browser) (keywords locations : list string)
        (max_pages max_jobs : Z) (s : Scraper IndeedFields) :
  let out := IndeedScraper.scrape_with_pagination env keywords locations
               max_pages max_jobs s in
  exists jobs,
    result_of out = Ok jobs
    /\ (Z.of_nat (length jobs) <= Z.max max_jobs 0)%Z
    /\ driver (ext (state_of out)) = None.
Proof.
  cbv zeta.
  destruct (pagination_any env keywords locations max_pages max_jobs s)
    as (s1 & s' & evs & E & Hnone & Hz & _).
  rewrite E. eexists. split; [reflexivity|]. split; [|exact Hnone].
  destruct (Z.le_gt_cases 0 max_jobs) as [Hn|Hn].
  - pose proof (slice_to_length (jobs_scraped s1) max_jobs Hn). lia.
  - rewrite Hz by lia. rewrite slice_to_nil. cbn. lia.
Qed.


Section PaginationListings.

Variable env : Browser.
Hypothesis chrome : chrome_starts env = true.

Let St : Type := Scraper IndeedFields.
Let len (s : St) : Z := Z.of_nat (length (jobs_scraped s)).

Lemma for_pages_listings max_pages max_jobs keyword location todo :
  forall s : St,
  exists s' evs,
    IndeedScraper.for_pages env max_pages max_jobs keyword location todo s
    = (Ok tt, s', evs)
    /\ ((0 <= max_jobs)%Z ->
        firstn (Z.to_nat max_jobs) (jobs_scraped s')
        = firstn (Z.to_nat max_jobs)
            (jobs_scraped s ++ paged_listings env keyword location todo)).
Proof.
  induction todo as [|page rest IH]; intros s.
  - exists s, []. split; [reflexivity|]. intros _. cbn.
    rewrite app_nil_r. reflexivity.
  - cbn [IndeedScraper.for_pages paged_listings].
    destruct (max_jobs <=? len s)%Z eqn:E.
    + exists s, []. unfold bind, BaseScraper.limit_reached, gets.
      unfold len in E. rewrite E. split; [reflexivity|].
      intros Hn. symmetry. apply firstn_app_le. apply Z.leb_le in E. lia.
    + destruct (scrape_search_page_spec env
                  (IndeedScraper.page_url keyword location page) s
                  (or_intror chrome))
        as (s1 & ev1 & Hp & Hjs & _).
      destruct (page_listings env
                  (IndeedScraper.page_url keyword location page))
        as [|j jobs] eqn:Epage.
      * exists s1, ev1. unfold bind, BaseScraper.limit_reached, gets.
        unfold len in E. rewrite E, Hp. unfold ret. cbn [app].
        rewrite !app_nil_r. split; [reflexivity|]. intros _.
        rewrite Hjs. reflexivity.
      * set (s2 := set_jobs_scraped (jobs_scraped s1 ++ j :: jobs) s1).
        destruct (IH s2) as (s' & evs & Hl & Hn).
        destruct (Z.of_nat page <? max_pages - 1)%Z eqn:Ep.
        -- do 2 eexists. split.
           { unfold bind, BaseScraper.limit_reached, gets.
             unfold len in E. rewrite E, Hp.
             unfold BaseScraper.extend, BaseScraper.random_delay, modify, emit.
             fold s2. rewrite Hl. reflexivity. }
           intros H0. rewrite (Hn H0). unfold s2.
           cbn [jobs_scraped set_jobs_scraped]. rewrite Hjs, <- app_assoc.
           reflexivity.
        -- do 2 eexists. split.
           { unfold bind, BaseScraper.limit_reached, gets.
             unfold len in E. rewrite E, Hp.
             unfold BaseScraper.extend, modify, ret.
             fold s2. rewrite Hl. reflexivity. }
           intros H0. rewrite (Hn H0). unfold s2.
           cbn [jobs_scraped set_jobs_scraped]. rewrite Hjs, <- app_assoc.
           reflexivity.
Qed.

Lemma for_locations_paged_listings max_pages max_jobs keyword todo :
  forall s : St,
  exists s' evs,
    IndeedScraper.for_locations_paged env max_pages max_jobs keyword todo s
    = (Ok tt, s', evs)
    /\ ((0 <= max_jobs)%Z ->
        firstn (Z.to_nat max_jobs) (jobs_scraped s')
        = firstn (Z.to_nat max_jobs)
            (jobs_scraped s
             ++ flat_map
                  (fun l => paged_listings env keyword l (Py.range max_pages))
                  todo)).
Proof.
  induction todo as [|location rest IH]; intros s.
  - exists s, []. split; [reflexivity|]. intros _. cbn.
    rewrite app_nil_r. reflexivity.
  - cbn [IndeedScraper.for_locations_paged flat_map].
    destruct (max_jobs <=? len s)%Z eqn:E.
    + exists s, []. unfold bind, BaseScraper.limit_reached, gets.
      unfold len in E. rewrite E. split; [reflexivity|].
      intros Hn. symmetry. apply firstn_app_le. apply Z.leb_le in E. lia.
    + destruct (for_pages_listings max_pages max_jobs keyword location
                  (Py.range max_pages) s) as (s1 & ev1 & Hp & Hn1).
      destruct (IH s1) as (s' & evs & Hl & Hn).
      do 2 eexists. split.
      { unfold bind, BaseScraper.limit_reached, gets.
        unfold len in E. rewrite E, Hp, Hl. reflexivity. }
      intros H0. rewrite (Hn H0), app_assoc.
      apply firstn_extend. exact (Hn1 H0).
Qed.

Lemma for_keywords_paged_listings locations max_pages max_jobs todo :
  forall s : St,
  exists s' evs,
    IndeedScraper.for_keywords_paged env locations max_pages max_jobs todo s
    = (Ok tt, s', evs)
    /\ ((0 <= max_jobs)%Z ->
        firstn (Z.to_nat max_jobs) (jobs_scraped s')
        = firstn (Z.to_nat max_jobs)
            (jobs_scraped s
             ++ all_paged_listings env todo locations max_pages)).
Proof.
  induction todo as [|keyword rest IH]; intros s.
  - exists s, []. split; [reflexivity|]. intros _. cbn.
    rewrite app_nil_r. reflexivity.
  - cbn [IndeedScraper.for_keywords_paged].
    destruct (for_locations_paged_listings max_pages max_jobs keyword
                locations s) as (s1 & ev1 & Hl & Hn1).
    unfold all_paged_listings. cbn [flat_map].
    destruct (max_jobs <=? len s1)%Z eqn:E.
    + exists s1, ev1. unfold bind. rewrite Hl.
      unfold BaseScraper.limit_reached, gets. unfold len in E. rewrite E.
      split; [cbn; rewrite app_nil_r; reflexivity|].
      intros H0. apply Z.leb_le in E. rewrite app_assoc.
      rewrite <- (firstn_extend _ _ _ _ (Hn1 H0)).
      symmetry. apply firstn_app_le. lia.
    + destruct (IH s1) as (s' & evs & Hk & Hn).
      do 2 eexists. split.
      { unfold bind. rewrite Hl. unfold BaseScraper.limit_reached, gets.
        unfold len in E. rewrite E, Hk. reflexivity. }
      intros H0. rewrite (Hn H0), app_assoc.
      apply firstn_extend. exact (Hn1 H0).
Qed.

End PaginationListings.

(** X6: where Chrome starts and the limit is not negative,
    [scrape_with_pagination] returns the first [max_jobs] listings of
    the paged traversal: pair by pair, and for each pair page by page
    up to the first page without listings or the page count. *)
Theorem pagination_is_truncated_traversal
        (env : Browser) (keywords locations : list string)
        (max_pages max_jobs : Z) (s : Scraper IndeedFields) :
  chrome_starts env = true ->
  (0 <= max_jobs)%Z ->
  result_of (IndeedScraper.scrape_with_pagination env keywords locations
               max_pages max_jobs s)
  = Ok (firstn (Z.to_nat max_jobs)
          (all_paged_listings env keywords locations max_pages)).
Proof.
  intros Hc H0.
  destruct (for_keywords_paged_listings env Hc locations max_pages max_jobs
              keywords (set_jobs_scraped [] s)) as (s1 & evl & Hk & Hn).
  destruct (close_driver_any s1) as (s' & evc & Hclose & _).
  unfold IndeedScraper.scrape_with_pagination, try_finally, bind.
  unfold modify at 1. rewrite Hk. unfold gets. rewrite Hclose.
  cbn [result_of fst]. f_equal.
  unfold Py.slice_to. apply Z.leb_le in H0. rewrite H0.
  apply Hn. apply Z.leb_le. exact H0.
Qed.

Lemma pagination_is_truncated_traversal_witness :
  result_of (IndeedScraper.scrape_with_pagination Scenario.site
               ["graduate engineer"] ["London"; "Leeds"] 2 20
               IndeedScraper.init)
  = Ok (firstn (Z.to_nat 20)
          (all_paged_listings Scenario.site
             ["graduate engineer"] ["London"; "Leeds"] 2)).
Proof.
  apply pagination_is_truncated_traversal.
  - reflexivity.
  - lia.
Defined.

Section PaginationWithoutChrome.

Variable env : Browser.
Hypothesis no_chrome : chrome_starts env = false.

Let St : Type := Scraper IndeedFields.

Lemma for_pages_no_chrome max_pages max_jobs keyword location todo (s : St) :
  driver (ext s) = None ->
  exists evs,
    IndeedScraper.for_pages env max_pages max_jobs keyword location todo s
    = (Ok tt, s, evs)
    /\ requests evs = [].
Proof.
  intros Hd. destruct todo as [|page rest].
  - exists []. split; reflexivity.
  - cbn [IndeedScraper.for_pages].
    unfold bind at 1. unfold BaseScraper.limit_reached, gets.
    destruct (max_jobs <=? Z.of_nat (length (jobs_scraped s)))%Z.
    + exists []. split; reflexivity.
    + destruct (scrape_search_page_no_chrome env
                  (IndeedScraper.page_url keyword location page) s Hd no_chrome)
        as (msg & Hp).
      unfold bind. rewrite Hp. unfold ret. eexists. split; reflexivity.
Qed.

Lemma for_locations_paged_no_chrome max_pages max_jobs keyword todo (s : St) :
  driver (ext s) = None ->
  exists evs,
    IndeedScraper.for_locations_paged env max_pages max_jobs keyword todo s
    = (Ok tt, s, evs)
    /\ requests evs = [].
Proof.
  intros Hd. induction todo as [|location rest IH].
  - exists []. split; reflexivity.
  - cbn [IndeedScraper.for_locations_paged].
    unfold bind at 1. unfold BaseScraper.limit_reached, gets.
    destruct (max_jobs <=? Z.of_nat (length (jobs_scraped s)))%Z.
    + exists []. split; reflexivity.
    + destruct (for_pages_no_chrome max_pages max_jobs keyword location
                  (Py.range max_pages) s Hd) as (ev1 & Hp & Hr1).
      destruct IH as (evs & Hl & Hr).
      unfold bind. rewrite Hp, Hl. eexists. split; [reflexivity|].
      cbn [app]. rewrite requests_app, Hr1, Hr. reflexivity.
Qed.

Lemma for_keywords_paged_no_chrome locations max_pages max_jobs todo (s : St) :
  driver (ext s) = None ->
  exists evs,
    IndeedScraper.for_keywords_paged env locations max_pages max_jobs todo s
    = (Ok tt, s, evs)
    /\ requests evs = [].
Proof.
  intros Hd. induction todo as [|keyword rest IH].
  - exists []. split; reflexivity.
  - cbn [IndeedScraper.for_keywords_paged].
    destruct (for_locations_paged_no_chrome max_pages max_jobs keyword
                locations s Hd) as (ev1 & Hl & Hr1).
    unfold bind. rewrite Hl. unfold BaseScraper.limit_reached, gets.
    destruct (max_jobs <=? Z.of_nat (length (jobs_scraped s)))%Z.
    + eexists. split; [reflexivity|]. cbn [app].
      rewrite requests_app, Hr1. reflexivity.
    + destruct IH as (evs & Hk & Hr). rewrite Hk.
      eexists. split; [reflexivity|]. cbn [app].
      rewrite requests_app, Hr1, Hr. reflexivity.
Qed.

End PaginationWithoutChrome.

(** X7: on a machine where Chrome cannot be started the two methods
    part ways.  [scrape] raises, and its caller learns of the fault;
    [scrape_with_pagination] returns the empty list without having
    asked for a page, as if the site had no listings. *)
Theorem pagination_hides_missing_chrome
        (env : Browser) (keywords locations : list string)
        (max_pages max_jobs : Z) (s : Scraper IndeedFields) :
  driver (ext s) = None ->
  chrome_starts env = false ->
  result_of (IndeedScraper.scrape env keywords locations max_jobs s)
  = Raise (WebDriverException "unable to start a Chrome session")
  /\ result_of (IndeedScraper.scrape_with_pagination env keywords locations
                  max_pages max_jobs s) = Ok []
  /\ requests
       (events_of (IndeedScraper.scrape_with_pagination env keywords locations
                     max_pages max_jobs s)) = [].
Proof.
  intros Hd Hc. split.
  { rewrite (indeed_scrape_raises env keywords locations max_jobs s Hd Hc).
    reflexivity. }
  assert (Hd0 : driver (ext (set_jobs_scraped [] s)) = None) by exact Hd.
  destruct (for_keywords_paged_no_chrome env Hc locations max_pages max_jobs
              keywords (set_jobs_scraped [] s) Hd0) as (evs & Hk & Hr).
  assert (E : IndeedScraper.scrape_with_pagination env keywords locations
                max_pages max_jobs s
              = (Ok [], set_jobs_scraped [] s, evs)).
  { unfold IndeedScraper.scrape_with_pagination, try_finally, bind.
    unfold modify at 1. rewrite Hk. unfold gets.
    rewrite (close_driver_closed _ Hd0).
    cbn [jobs_scraped set_jobs_scraped app].
    rewrite slice_to_nil, !app_nil_r. reflexivity. }
  rewrite E. split; [reflexivity|exact Hr].
Qed.

Lemma pagination_hides_missing_chrome_witness :
  result_of (IndeedScraper.scrape Samples.no_chrome
               ["graduate engineer"] ["London"] 50 IndeedScraper.init)
  = Raise (WebDriverException "unable to start a Chrome session")
  /\ result_of (IndeedScraper.scrape_with_pagination Samples.no_chrome
                  ["graduate engineer"] ["London"] 3 50 IndeedScraper.init)
     = Ok []
  /\ requests
       (events_of (IndeedScraper.scrape_with_pagination Samples.no_chrome
                     ["graduate engineer"] ["London"] 3 50 IndeedScraper.init))
     = [].
Proof.
  apply pagination_hides_missing_chrome; reflexivity.
Defined.

(** ** The rate limit of the base loop *)

Section BaseDelays.

Context {X : Type} {methods : ScraperMethods X}.
Variable url : string -> string -> string.

Hypothesis build_pure :
  forall k l (s : Scraper X), build_search_url k l s = (Ok (url k l), s, []).
Hypothesis page_returns :
  forall u (s : Scraper X),
  exists jobs s' evs,
    scrape_search_page u s = (Ok jobs, s', evs)
    /\ jobs_scraped s' = jobs_scraped s
    /\ filter is_delay evs = [].

Variables keywords locations : list string.
Variable max_jobs : Z.
Variables k_last l_last : string.
Hypothesis keywords_last : Py.last_item keywords = Some k_last.
Hypothesis locations_last : Py.last_item locations = Some l_last.

Let len (s : Scraper X) : Z := Z.of_nat (length (jobs_scraped s)).

(** The pairs of one keyword after which the guard skips the pause. *)
Let skipped (keyword : string) (todo : list string) : nat :=
  if String.eqb keyword k_last then count_occ string_dec todo l_last else 0.

Lemma rate_limit_eq keyword location (s : Scraper X) :
  BaseScraper.rate_limit keywords locations keyword location s
  = (Ok tt, s,
     if String.eqb keyword k_last && String.eqb location l_last
     then [] else [RandomDelay]).
Proof.
  unfold BaseScraper.rate_limit, BaseScraper.last_of, bind.
  rewrite keywords_last. unfold ret at 1.
  destruct (String.eqb keyword k_last); cbn [negb andb].
  - rewrite locations_last. unfold ret at 1.
    destruct (String.eqb location l_last); reflexivity.
  - reflexivity.
Qed.

Lemma count_occ_cons_eqb (x y : string) (l : list string) :
  count_occ string_dec (x :: l) y
  = (if String.eqb x y then 1 else 0) + count_occ string_dec l y.
Proof.
  cbn [count_occ]. destruct (string_dec x y) as [->|Hne].
  - rewrite String.eqb_refl. reflexivity.
  - apply String.eqb_neq in Hne. rewrite Hne. reflexivity.
Qed.

Lemma base_for_locations_delays keyword todo :
  forall s : Scraper X,
  exists s' evs,
    BaseScraper.for_locations keywords locations max_jobs keyword todo s
    = (Ok tt, s', evs)
    /\ (len s <= len s')%Z
    /\ ((len s' < max_jobs)%Z ->
        length (filter is_delay evs) + skipped keyword todo = length todo).
Proof.
  induction todo as [|location rest IH]; intros s.
  - exists s, []. split; [reflexivity|]. split; [lia|].
    intros _. unfold skipped. destruct (String.eqb keyword k_last); reflexivity.
  - cbn [BaseScraper.for_locations].
    destruct (max_jobs <=? len s)%Z eqn:E.
    + exists s, []. unfold bind, BaseScraper.limit_reached, gets.
      unfold len in E. rewrite E. repeat split; try lia.
      apply Z.leb_le in E. unfold len. lia.
    + destruct (page_returns (url keyword location) s)
        as (jobs & s1 & ev1 & Hp & Hjs & Hd1).
      set (s2 := set_jobs_scraped (jobs_scraped s1 ++ jobs) s1).
      destruct (IH s2) as (s' & evs & Hl & Hle & Hdel).
      do 2 eexists. split.
      { unfold bind, BaseScraper.limit_reached, gets.
        unfold len in E. rewrite E. rewrite build_pure, Hp.
        unfold BaseScraper.extend, modify. fold s2.
        rewrite rate_limit_eq, Hl. reflexivity. }
      assert (Hlen : (len s <= len s2)%Z).
      { unfold len, s2. cbn. rewrite Hjs, length_app. lia. }
      split; [lia|].
      intros Hcap. specialize (Hdel Hcap). cbn [app].
      rewrite !filter_app, !length_app, Hd1. cbn [length].
      unfold skipped in *. rewrite count_occ_cons_eqb.
      destruct (String.eqb keyword k_last); cbn [andb].
      * destruct (String.eqb location l_last); cbn [filter is_delay length];
          lia.
      * cbn [filter is_delay length]. lia.
Qed.

Lemma base_for_keywords_delays todo :
  forall s : Scraper X,
  exists s' evs,
    BaseScraper.for_keywords keywords locations max_jobs todo s
    = (Ok tt, s', evs)
    /\ (len s <= len s')%Z
    /\ ((len s' < max_jobs)%Z ->
        length (filter is_delay evs)
        + count_occ string_dec todo k_last
          * count_occ string_dec locations l_last
        = length todo * length locations).
Proof.
  induction todo as [|keyword rest IH]; intros s.
  - exists s, []. split; [reflexivity|]. split; [lia|]. intros _. reflexivity.
  - cbn [BaseScraper.for_keywords].
    destruct (base_for_locations_delays keyword locations s)
      as (s1 & ev1 & Hl & Hle1 & Hdel1).
    destruct (max_jobs <=? len s1)%Z eqn:E.
    + exists s1, ev1. unfold bind. rewrite Hl.
      unfold BaseScraper.limit_reached, gets. unfold len in E. rewrite E.
      repeat split; auto.
      * cbn. rewrite app_nil_r. reflexivity.
      * apply Z.leb_le in E. unfold len. lia.
    + destruct (IH s1) as (s' & evs & Hk & Hle & Hdel).
      do 2 eexists. split.
      { unfold bind. rewrite Hl. unfold BaseScraper.limit_reached, gets.
        unfold len in E. rewrite E. rewrite Hk. reflexivity. }
      split; [lia|].
      intros Hcap. specialize (Hdel Hcap).
      assert (Hcap1 : (len s1 < max_jobs)%Z) by lia.
      specialize (Hdel1 Hcap1). unfold skipped in Hdel1.
      cbn [app]. rewrite !filter_app, !length_app.
      rewrite count_occ_cons_eqb. cbn [length].
      destruct (String.eqb keyword k_last); nia.
Qed.

Lemma base_scrape_delays (s : Scraper X) :
  let out := BaseScraper.scrape keywords locations max_jobs s in
  (len (state_of out) < max_jobs)%Z ->
  length (filter is_delay (events_of out))
  + count_occ string_dec keywords k_last
    * count_occ string_dec locations l_last
  = length keywords * length locations.
Proof.
  cbv zeta. rewrite base_scrape_eq. cbn [state_of events_of fst snd].
  destruct (base_for_keywords_delays keywords (set_jobs_scraped [] s))
    as (s' & evs & Hk & _ & Hdel).
  rewrite Hk. cbn [state_of events_of result_of fst snd].
  intros Hcap. rewrite app_nil_r. exact (Hdel Hcap).
Qed.

End BaseDelays.

Lemma indeed_page_returns_without_delay (env : Browser) :
  chrome_starts env = true ->
  forall u (s : Scraper IndeedFields),
  exists jobs s' evs,
    scrape_search_page (ScraperMethods := IndeedMethods env) u s
    = (Ok jobs, s', evs)
    /\ jobs_scraped s' = jobs_scraped s
    /\ filter is_delay evs = [].
Proof.
  intros Hc u s.
  destruct (scrape_search_page_spec env u s (or_intror Hc))
    as (s' & evs & Hp & Hjs & _ & _ & Hd).
  exists (page_listings env u), s', evs. auto.
Qed.

(** X8: the rate limit of [BaseScraper.scrape], for a scraper whose
    methods do not fault and a limit that is not reached: the loop
    pauses after every request except those for a pair that equals
    (last keyword, last location).  The pauses and the skipped pairs
    add up to the pairs; a last keyword or location that also occurs
    earlier in its list makes the loop skip pauses in mid-run. *)
Theorem base_scrape_pause_count
        {X : Type} {methods : ScraperMethods X}
        (url : string -> string -> string)
        (keywords locations : list string) (max_jobs : Z)
        (k_last l_last : string) (s : Scraper X) :
  let out := BaseScraper.scrape keywords locations max_jobs s in
  (forall k l (s : Scraper X), build_search_url k l s = (Ok (url k l), s, [])) ->
  (forall u (s : Scraper X),
      exists jobs s' evs,
        scrape_search_page u s = (Ok jobs, s', evs)
        /\ jobs_scraped s' = jobs_scraped s
        /\ filter is_delay evs = []) ->
  Py.last_item keywords = Some k_last ->
  Py.last_item locations = Some l_last ->
  (Z.of_nat (length (jobs_scraped (state_of out))) < max_jobs)%Z ->
  length (filter is_delay (events_of out))
  + count_occ string_dec keywords k_last
    * count_occ string_dec locations l_last
  = length keywords * length locations.
Proof.
  cbv zeta. intros Hb Hp Hk Hl Hcap.
  exact (base_scrape_delays url Hb Hp keywords locations max_jobs
           k_last l_last Hk Hl s Hcap).
Qed.

Lemma base_scrape_pause_count_witness :
  length (filter is_delay
            (events_of (BaseScraper.scrape
                          (methods := IndeedMethods (Samples.site []))
                          ["x"; "y"; "x"] ["l"] 50 IndeedScraper.init)))
  + count_occ string_dec ["x"; "y"; "x"] "x" * count_occ string_dec ["l"] "l"
  = length ["x"; "y"; "x"] * length ["l"].
Proof.
  apply (base_scrape_pause_count (methods := IndeedMethods _)
           IndeedScraper.build_search_url).
  - intros k l s. reflexivity.
  - apply indeed_page_returns_without_delay. reflexivity.
  - reflexivity.
  - reflexivity.
  - vm_compute. reflexivity.
Defined.

(** ** What the service stores *)

Lemma NoDup_snoc {A : Type} (l : list A) (x : A) :
  NoDup l -> ~ In x l -> NoDup (l ++ [x]).
Proof.
  intros Hl Hx. induction Hl as [|a l Ha Hl IH]; cbn.
  - constructor; [intros []|constructor].
  - constructor.
    + intros Hin. apply in_app_or in Hin. destruct Hin as [Hin|[->|[]]].
      * exact (Ha Hin).
      * apply Hx. left. reflexivity.
    + apply IH. intros Hin. apply Hx. right. exact Hin.
Qed.

Section SavedRows.

Import JobScraperService.

Variable insert_fault : RawListing -> bool.

Lemma new_job_row_for (d : Db) (j : RawListing) :
  row_for (now d) j (new_job d j).
Proof. unfold row_for, new_job. cbn. repeat split. Qed.

(** The loop only appends: the rows that were there stay as they
    are, each new row is the pending row of a listing, with an id
    above all ids before it; and every listing is added, counted as a
    duplicate, or dropped with an error line. *)
Lemma save_jobs_rows (l : list RawListing) :
  forall added dup (s : JobScraperService.t),
  exists added' dup' s' evs new_rows,
    save_jobs insert_fault l (added, dup) s = (Ok (added', dup'), s', evs)
    /\ jobs (db s') = jobs (db s) ++ new_rows
    /\ Forall (fun r => exists j, In j l /\ row_for (now (db s)) j r) new_rows
    /\ NoDup (map Job.id new_rows)
    /\ (forall r r0, In r new_rows -> In r0 (jobs (db s)) ->
                     Job.id r0 < Job.id r)
    /\ forallb is_save_error evs = true
    /\ added' + dup' + length evs = added + dup + length l.
Proof.
  induction l as [|j l IH]; intros added dup s.
  - exists added, dup, s, [], []. cbn. rewrite app_nil_r.
    repeat split; auto; try constructor; try lia; try (intros r r0 []).
  - cbn [save_jobs]. unfold bind. rewrite save_job_eq.
    destruct (stored s j) eqn:Est; [|destruct (insert_fault j) eqn:Ef].
    + destruct (IH added (S dup) s)
        as (a' & d' & s' & evs & new & Hrun & Hj & Hf & Hn & Hid & He & Hc).
      rewrite Hrun. exists a', d', s', evs, new.
      split; [reflexivity|]. split; [exact Hj|]. split.
      { eapply Forall_impl; [|exact Hf].
        intros r (j0 & Hin & Hr). exists j0. split; [right; exact Hin|exact Hr]. }
      split; [exact Hn|]. split; [exact Hid|]. split; [exact He|].
      cbn [length]. lia.
    + destruct (IH added dup s)
        as (a' & d' & s' & evs & new & Hrun & Hj & Hf & Hn & Hid & He & Hc).
      rewrite Hrun. do 4 eexists. exists new.
      split; [reflexivity|]. split; [exact Hj|]. split.
      { eapply Forall_impl; [|exact Hf].
        intros r (j0 & Hin & Hr). exists j0. split; [right; exact Hin|exact Hr]. }
      split; [exact Hn|]. split; [exact Hid|]. split.
      { cbn [app forallb]. rewrite He. reflexivity. }
      cbn [app length]. lia.
    + destruct (IH (S added) dup (add_row s j))
        as (a' & d' & s' & evs & new & Hrun & Hj & Hf & Hn & Hid & He & Hc).
      rewrite Hrun. do 4 eexists. exists (new_job (db s) j :: new).
      split; [reflexivity|].
      assert (Hjobs : jobs (db (add_row s j)) = jobs (db s) ++ [new_job (db s) j])
        by reflexivity.
      rewrite Hjobs in Hj, Hid.
      split; [rewrite Hj, <- app_assoc; reflexivity|]. split.
      { constructor.
        - exists j. split; [left; reflexivity|apply new_job_row_for].
        - eapply Forall_impl; [|exact Hf].
          intros r (j0 & Hin & Hr). exists j0.
          split; [right; exact Hin|exact Hr]. }
      split.
      { cbn [map]. constructor; [|exact Hn].
        intros Hin. apply in_map_iff in Hin. destruct Hin as (r & Er & Hr).
        assert (Hlt : Job.id (new_job (db s) j) < Job.id r).
        { apply (Hid r); [exact Hr|]. apply in_or_app. right. left. reflexivity. }
        lia. }
      split.
      { intros r r0 [<-|Hr] Hr0.
        - cbn [Job.id new_job].
          apply next_id_fresh. apply in_map. exact Hr0.
        - apply (Hid r); [exact Hr|]. apply in_or_app. left. exact Hr0. }
      split; [exact He|]. cbn [app length]. lia.
Qed.

End SavedRows.

Section ServiceRows.

Import JobScraperService.

Variable browser : Browser.
Variable insert_fault : RawListing -> bool.
Variable settings : Settings.
Variables (keywords locations : option (list string)) (max_jobs : option Z).

Let K := or_default keywords (scraping_keywords_list settings).
Let L := or_default locations (scraping_locations_list settings).
Let N := or_default max_jobs (MAX_JOBS_PER_SCRAPE settings).

(** What a call leaves in [jobs], and how its counts add up. *)
Lemma service_rows (s : JobScraperService.t) :
  let out := scrape_and_save_indeed browser insert_fault settings
               keywords locations max_jobs s in
  exists summary new_rows,
    result_of out = Ok summary
    /\ jobs (db (state_of out)) = jobs (db s) ++ new_rows
    /\ Forall
         (fun r =>
            exists j, indeed_listing j /\ row_for (now (db s)) j r)
         new_rows
    /\ NoDup (map Job.id new_rows)
    /\ (forall r r0, In r new_rows -> In r0 (jobs (db s)) ->
                     Job.id r0 < Job.id r)
    /\ s_jobs_added summary + s_jobs_duplicate summary
       + length (filter is_save_error (events_of out))
       = s_jobs_found summary.
Proof.
  cbv zeta.
  destruct (IndeedScraper.scrape browser K L N (indeed_scraper s))
    as [[[jobs_scraped|e] sc] ev] eqn:Hs.
  - destruct (service_success browser insert_fault settings keywords
                locations max_jobs s jobs_scraped sc ev Hs)
      as (added & dup & s' & ev' & Hsave & _ & Hrun).
    destruct (save_jobs_rows insert_fault jobs_scraped 0 0
                (with_scraper sc (started K L s)))
      as (a' & d' & s'' & evs & new & Hrun' & Hj & Hf & Hn & Hid & He & Hc).
    fold K L N in Hsave, Hrun. rewrite Hsave in Hrun'.
    injection Hrun' as <- <- <- <-.
    rewrite Hrun. eexists. exists new. split; [reflexivity|].
    cbn [result_of state_of events_of fst snd s_jobs_found s_jobs_added
           s_jobs_duplicate].
    split; [exact Hj|]. split.
    { assert (Hind : Forall indeed_listing jobs_scraped).
      { apply (scraped_listings_are_indeed browser K L N (indeed_scraper s)).
        rewrite Hs. reflexivity. }
      rewrite Forall_forall in Hind.
      eapply Forall_impl; [|exact Hf].
      intros r (j & Hin & Hr). exists j. split; [apply Hind; exact Hin|exact Hr]. }
    split; [exact Hn|]. split; [exact Hid|].
    rewrite filter_app.
    pose proof (scrape_events_no_save_error browser K L N (indeed_scraper s))
      as Hno. rewrite Hs in Hno. cbn [events_of snd] in Hno. rewrite Hno.
    cbn [app].
    assert (Hall : filter is_save_error ev' = ev').
    { apply filter_all. apply forallb_forall. exact He. }
    rewrite Hall. lia.
  - rewrite (service_failure browser insert_fault settings keywords
               locations max_jobs s e sc ev Hs).
    eexists. exists []. split; [reflexivity|].
    cbn [result_of state_of events_of fst snd s_jobs_found s_jobs_added
           s_jobs_duplicate].
    split; [cbn; rewrite app_nil_r; reflexivity|].
    split; [constructor|]. split; [constructor|].
    split; [intros r r0 []|].
    rewrite filter_app.
    pose proof (scrape_events_no_save_error browser K L N (indeed_scraper s))
      as Hno. rewrite Hs in Hno. cbn [events_of snd] in Hno. rewrite Hno.
    reflexivity.
Qed.

End ServiceRows.


(** X10: the counts of a summary add up.  Every scraped listing is
    added, counted as a duplicate, or dropped with an "Error saving
    job" line in the error log: found = added + duplicate + dropped,
    on the failure path too, where all of them are zero. *)
Theorem service_counts_add_up
        (env : Browser) (insert_fault : RawListing -> bool)
        (settings : Settings)
        (keywords locations : option (list string)) (max_jobs : option Z)
        (svc : JobScraperService.t) :
  let out := JobScraperService.scrape_and_save_indeed env insert_fault
               settings keywords locations max_jobs svc in
  exists summary,
    result_of out = Ok summary
    /\ s_jobs_added summary + s_jobs_duplicate summary
       + length (filter is_save_error (events_of out))
       = s_jobs_found summary.
Proof.
  cbv zeta.
  destruct (service_rows env insert_fault settings keywords locations
              max_jobs svc)
    as (summary & new & Hres & _ & _ & _ & _ & Hc).
  exists summary. auto.
Qed.

Lemma indeed_scrape_length
      (env : Browser) (keywords locations : list string) (max_jobs : Z)
      (s : Scraper IndeedFields) (jobs : list RawListing) :
  result_of (IndeedScraper.scrape env keywords locations max_jobs s) = Ok jobs ->
  (Z.of_nat (length jobs) <= Z.max max_jobs 0)%Z.
Proof.
  intros H.
  destruct (has_session s) eqn:Hs;
    [|destruct (chrome_starts env) eqn:Hc].
  - apply has_session_open in Hs.
    destruct (indeed_scrape_spec env keywords locations max_jobs s
                (or_introl Hs)) as (s1 & evs & E & _ & _ & Hz).
    rewrite E in H. injection H as <-.
    destruct (Z.le_gt_cases 0 max_jobs) as [Hn|Hn].
    + pose proof (slice_to_length (jobs_scraped s1) max_jobs Hn). lia.
    + destruct Hz as [Hz _]; [lia|]. rewrite Hz, slice_to_nil. cbn. lia.
  - destruct (indeed_scrape_spec env keywords locations max_jobs s
                (or_intror Hc)) as (s1 & evs & E & _ & _ & Hz).
    rewrite E in H. injection H as <-.
    destruct (Z.le_gt_cases 0 max_jobs) as [Hn|Hn].
    + pose proof (slice_to_length (jobs_scraped s1) max_jobs Hn). lia.
    + destruct Hz as [Hz _]; [lia|]. rewrite Hz, slice_to_nil. cbn. lia.
  - assert (Hd : driver (ext s) = None).
    { unfold has_session in Hs. destruct (driver (ext s)); congruence. }
    rewrite (indeed_scrape_raises env keywords locations max_jobs s Hd Hc) in H.
    discriminate.
Qed.

(** X11: the limit binds the service as well: in every summary
    [jobs_found], and with it the added and the duplicate count, is at
    most [max(max_jobs, 0)], where [max_jobs] is the argument or, when
    it is not given, [MAX_JOBS_PER_SCRAPE]. *)
Theorem service_found_within_limit
        (env : Browser) (insert_fault : RawListing -> bool)
        (settings : Settings)
        (keywords locations : option (list string)) (max_jobs : option Z)
        (svc : JobScraperService.t) :
  exists summary,
    result_of (JobScraperService.scrape_and_save_indeed env insert_fault
                 settings keywords locations max_jobs svc) = Ok summary
    /\ (Z.of_nat (s_jobs_found summary)
        <= Z.max (JobScraperService.or_default max_jobs
                    (MAX_JOBS_PER_SCRAPE settings)) 0)%Z
    /\ s_jobs_added summary + s_jobs_duplicate summary
       <= s_jobs_found summary.
Proof.
  destruct (service_logs env insert_fault settings keywords locations
              max_jobs svc) as (summary & Hres & Hcase).
  exists summary. split; [exact Hres|].
  destruct (result_of (IndeedScraper.scrape _ _ _ _ _)) as [jobs|e] eqn:E.
  - destruct Hcase as (Hf & Hb & _). rewrite Hf.
    split; [|exact Hb]. exact (indeed_scrape_length _ _ _ _ _ _ E).
  - destruct Hcase as (-> & _). cbn. lia.
Qed.

(** ** Closing a job *)

Section MarkClosed.

Import JobsApi.

Lemma update_first_urls job_id (l : list Job.t) :
  map Job.job_board_url (update_first job_id closed l)
  = map Job.job_board_url l.
Proof.
  induction l as [|j l IH]; [reflexivity|]. cbn [update_first].
  destruct (Nat.eqb (Job.id j) job_id); cbn [map]; [reflexivity|].
  rewrite IH. reflexivity.
Qed.

Lemma update_first_ids job_id (l : list Job.t) :
  map Job.id (update_first job_id closed l) = map Job.id l.
Proof.
  induction l as [|j l IH]; [reflexivity|]. cbn [update_first].
  destruct (Nat.eqb (Job.id j) job_id); cbn [map]; [reflexivity|].
  rewrite IH. reflexivity.
Qed.

Lemma update_first_found job_id (l : list Job.t) (j : Job.t) :
  List.find (fun r => Nat.eqb (Job.id r) job_id) l = Some j ->
  Job.id j = job_id
  /\ In (closed j) (update_first job_id closed l)
  /\ List.find (fun r => Nat.eqb (Job.id r) job_id)
       (update_first job_id closed l) = Some (closed j).
Proof.
  induction l as [|r l IH]; [discriminate|]. cbn [List.find update_first].
  destruct (Nat.eqb (Job.id r) job_id) eqn:E.
  - intros H. injection H as <-. apply Nat.eqb_eq in E.
    split; [exact E|]. split; [left; reflexivity|].
    cbn [List.find closed Job.id]. rewrite <- E, Nat.eqb_refl. reflexivity.
  - intros H. destruct (IH H) as (H1 & H2 & H3).
    split; [exact H1|]. split; [right; exact H2|].
    cbn [List.find]. rewrite E. exact H3.
Qed.

Lemma update_first_others job_id (l : list Job.t) (r : Job.t) :
  In r l -> Job.id r <> job_id -> In r (update_first job_id closed l).
Proof.
  induction l as [|j l IH]; [intros []|]. cbn [update_first].
  intros [->|Hin] Hne.
  - apply Nat.eqb_neq in Hne. rewrite Hne. left. reflexivity.
  - destruct (Nat.eqb (Job.id j) job_id); right; auto.
Qed.

Lemma update_first_twice job_id (l : list Job.t) :
  update_first job_id closed (update_first job_id closed l)
  = update_first job_id closed l.
Proof.
  induction l as [|j l IH]; [reflexivity|]. cbn [update_first].
  destruct (Nat.eqb (Job.id j) job_id) eqn:E; cbn [update_first].
  - cbn [closed Job.id]. rewrite E. reflexivity.
  - rewrite E, IH. reflexivity.
Qed.

Lemma find_id_none job_id (l : list Job.t) :
  List.find (fun r => Nat.eqb (Job.id r) job_id) l = None ->
  ~ In job_id (map Job.id l).
Proof.
  induction l as [|j l IH]; [intros _ []|]. cbn [List.find map].
  destruct (Nat.eqb (Job.id j) job_id) eqn:E; [discriminate|].
  intros H [Hj|Hin]; [|exact (IH H Hin)].
  apply Nat.eqb_neq in E. exact (E Hj).
Qed.

(** The database [mark_job_closed] leaves when it finds the job. *)
Lemma mark_job_closed_found job_id (d : Db) (j : Job.t) (d' : Db) :
  mark_job_closed job_id d = (Returns j, d') ->
  stored_urls d' = stored_urls d
  /\ In j (jobs d')
  /\ Job.status j = "closed"
  /\ Job.id j = job_id.
Proof.
  unfold mark_job_closed, query_job_by_id.
  destruct (List.find _ (jobs d)) as [db_job|] eqn:F; [|discriminate].
  intros H. injection H as <- <-.
  destruct (update_first_found job_id (jobs d) db_job F) as (H1 & H2 & _).
  unfold stored_urls. cbn [jobs]. rewrite update_first_urls.
  repeat split; auto.
Qed.

End MarkClosed.

(** X12: [mark_job_closed] answers 404 exactly when no job has the id,
    and then changes nothing.  Otherwise it returns the job with the
    status "closed" and stores it; no URL and no id changes, the jobs
    with other ids and the scraper log are as they were; and closing
    the job a second time changes nothing more. *)
Theorem mark_job_closed_effect (job_id : nat) (d : Db) :
  let resp := fst (JobsApi.mark_job_closed job_id d) in
  let d' := snd (JobsApi.mark_job_closed job_id d) in
  stored_urls d' = stored_urls d
  /\ map Job.id (jobs d') = map Job.id (jobs d)
  /\ scraper_logs d' = scraper_logs d
  /\ snd (JobsApi.mark_job_closed job_id d') = d'
  /\ match resp with
     | JobsApi.HTTPException code _ =>
         code = 404 /\ ~ In job_id (map Job.id (jobs d)) /\ d' = d
     | JobsApi.Returns j =>
         Job.id j = job_id
         /\ Job.status j = "closed"
         /\ In j (jobs d')
         /\ JobsApi.query_job_by_id job_id d' = Some j
         /\ (forall r, In r (jobs d) -> Job.id r <> job_id -> In r (jobs d'))
     end.
Proof.
  cbv zeta. unfold JobsApi.mark_job_closed, JobsApi.query_job_by_id.
  destruct (List.find _ (jobs d)) as [db_job|] eqn:F; cbn [fst snd].
  - destruct (update_first_found job_id (jobs d) db_job F) as (H1 & H2 & H3).
    unfold stored_urls. cbn [jobs scraper_logs now].
    rewrite update_first_urls, update_first_ids, H3, update_first_twice.
    repeat split; auto.
    intros r Hr Hne. apply update_first_others; assumption.
  - rewrite F. repeat split; auto.
    apply find_id_none. exact F.
Qed.

(** X13: the service does not reopen a closed job.  After
    [mark_job_closed] has closed a job, any later run of the service,
    whether it scrapes the job's URL again or not, leaves the closed
    row as it is, and the URL is still stored exactly once. *)
Theorem closed_job_stays_closed
        (job_id : nat) (d d' : Db) (j : Job.t)
        (env : Browser) (insert_fault : RawListing -> bool)
        (settings : Settings)
        (keywords locations : option (list string)) (max_jobs : option Z)
        (svc : JobScraperService.t) :
  let out := JobScraperService.scrape_and_save_indeed env insert_fault
               settings keywords locations max_jobs svc in
  unique_urls d ->
  JobsApi.mark_job_closed job_id d = (JobsApi.Returns j, d') ->
  JobScraperService.db svc = d' ->
  In j (jobs (JobScraperService.db (state_of out)))
  /\ Job.status j = "closed"
  /\ count_url (Job.job_board_url j) (JobScraperService.db (state_of out)) = 1.
Proof.
  cbv zeta. intros Hu Hm Hdb.
  destruct (mark_job_closed_found job_id d j d' Hm) as (Hurls & Hin & Hst & _).
  destruct (service_rows env insert_fault settings keywords locations
              max_jobs svc) as (summary & new & _ & Hj & _).
  assert (Hin' : In j (jobs (JobScraperService.db
                   (state_of (JobScraperService.scrape_and_save_indeed env
                      insert_fault settings keywords locations max_jobs svc))))).
  { rewrite Hj, Hdb. apply in_or_app. left. exact Hin. }
  split; [exact Hin'|]. split; [exact Hst|].
  assert (Hu' : unique_urls (JobScraperService.db svc)).
  { unfold unique_urls. rewrite Hdb, Hurls. exact Hu. }
  pose proof (service_keeps_unique env insert_fault settings keywords
                locations max_jobs svc Hu') as Hu''.
  unfold count_url. apply NoDup_count_occ'; [exact Hu''|].
  unfold stored_urls. apply in_map. exact Hin'.
Qed.

Lemma closed_job_stays_closed_witness :
  let d := JobScraperService.db (state_of Scenario.first_run) in
  let d' := snd (JobsApi.mark_job_closed 2 d) in
  exists j,
    JobsApi.mark_job_closed 2 d = (JobsApi.Returns j, d')
    /\ In j (jobs (JobScraperService.db (state_of (Scenario.run d'))))
    /\ Job.status j = "closed"
    /\ count_url (Job.job_board_url j)
         (JobScraperService.db (state_of (Scenario.run d'))) = 1.
Proof.
  cbv zeta. eexists. split; [vm_compute; reflexivity|].
  eapply (closed_job_stays_closed 2
            (JobScraperService.db (state_of Scenario.first_run))).
  - unfold unique_urls. vm_compute.
    repeat (constructor; [cbn; intuition discriminate|]). constructor.
  - vm_compute. reflexivity.
  - reflexivity.
Defined.

(** ** The search URL *)

Lemma list_ascii_app (a b : string) :
  list_ascii_of_string (a ++ b)
  = list_ascii_of_string a ++ list_ascii_of_string b.
Proof.
  induction a as [|c a IH]; [reflexivity|]. cbn. rewrite IH. reflexivity.
Qed.

Lemma count_char_app (c : ascii) (a b : string) :
  count_char c (a ++ b) = count_char c a + count_char c b.
Proof.
  unfold count_char. rewrite list_ascii_app. apply count_occ_app.
Qed.

Lemma quote_byte_safe (c : ascii) :
  forallb safe_char (list_ascii_of_string (Py.quote_byte c)) = true.
Proof.
  destruct c as [[] [] [] [] [] [] [] []]; vm_compute; reflexivity.
Qed.

Lemma quote_plus_safe (s : string) :
  forallb safe_char (list_ascii_of_string (Py.quote_plus s)) = true.
Proof.
  induction s as [|c s IH]; [reflexivity|].
  cbn [Py.quote_plus]. rewrite list_ascii_app, forallb_app, IH.
  rewrite quote_byte_safe. reflexivity.
Qed.

Lemma unsafe_char_absent (c : ascii) (l : list ascii) :
  forallb safe_char l = true -> safe_char c = false ->
  count_occ ascii_dec l c = 0.
Proof.
  intros Hl Hc. apply count_occ_not_In. intros Hin.
  rewrite forallb_forall in Hl. specialize (Hl c Hin). congruence.
Qed.

Lemma quoted_has_no (c : ascii) (s : string) :
  safe_char c = false -> count_char c (Py.quote_plus s) = 0.
Proof.
  intros Hc. unfold count_char.
  apply unsafe_char_absent; [apply quote_plus_safe|exact Hc].
Qed.

(** X14: whatever the keyword and the location contain, the search
    URL has exactly one [?] and one [&], the two [=] of its two
    parameters, and neither a space nor a [#]: a keyword cannot add a
    parameter to the query or cut it short. *)
Theorem search_url_has_two_parameters (keywords location : string) :
  let url := IndeedScraper.build_search_url keywords location in
  count_char "?" url = 1
  /\ count_char "&" url = 1
  /\ count_char "=" url = 2
  /\ count_char " " url = 0
  /\ count_char "#" url = 0.
Proof.
  cbv zeta. unfold IndeedScraper.build_search_url.
  rewrite !count_char_app.
  rewrite !(quoted_has_no "?"), !(quoted_has_no "&"), !(quoted_has_no "="),
    !(quoted_has_no " "), !(quoted_has_no "#") by reflexivity.
  repeat split; vm_compute; reflexivity.
Qed.

Lemma unquote_quote_byte (c : ascii) (rest : string) :
  unquote_plus (Py.quote_byte c ++ rest) = String c (unquote_plus rest).
Proof.
  destruct c as [[] [] [] [] [] [] [] []]; reflexivity.
Qed.

Lemma unquote_quote (s : string) : unquote_plus (Py.quote_plus s) = s.
Proof.
  induction s as [|c s IH]; [reflexivity|].
  cbn [Py.quote_plus]. rewrite unquote_quote_byte, IH. reflexivity.
Qed.

Lemma quote_plus_injective (a b : string) :
  Py.quote_plus a = Py.quote_plus b -> a = b.
Proof.
  intros H. apply (f_equal unquote_plus) in H.
  rewrite !unquote_quote in H. exact H.
Qed.

Lemma append_inj_l (p x y : string) : (p ++ x = p ++ y)%string -> x = y.
Proof.
  induction p as [|c p IH]; cbn; [auto|].
  intros H. injection H as H. auto.
Qed.

(** Two strings that are cut at a character which the parts before it
    do not contain are cut at the same place. *)
Lemma split_at_unique (c : ascii) (a a' b b' : string) :
  count_char c a = 0 -> count_char c a' = 0 ->
  (a ++ String c b = a' ++ String c b')%string ->
  a = a' /\ b = b'.
Proof.
  unfold count_char. revert a'.
  induction a as [|x a IH]; intros [|x' a'] Ha Ha'; cbn in *.
  - intros H. injection H as H. auto.
  - intros H. injection H as Hx _. subst x'.
    destruct (ascii_dec c c); [discriminate|congruence].
  - intros H. injection H as Hx _. subst x.
    destruct (ascii_dec c c); [discriminate|congruence].
  - intros H. injection H as Hx H. subst x'.
    destruct (ascii_dec x c); [discriminate|].
    destruct (IH a' Ha Ha' H) as [-> ->]. auto.
Qed.

(** X15: the search URL determines the pair it was built for: two
    (keyword, location) pairs with the same URL are the same pair.
    [quote_plus] loses nothing, and the [&] between the two parameters
    cannot come from a keyword. *)
Theorem search_url_is_injective (k l k' l' : string) :
  IndeedScraper.build_search_url k l = IndeedScraper.build_search_url k' l' ->
  k = k' /\ l = l'.
Proof.
  unfold IndeedScraper.build_search_url. intros H.
  apply append_inj_l in H. apply append_inj_l in H.
  apply (split_at_unique "&") in H.
  - destruct H as [Hk Hl]. injection Hl as Hl.
    split; apply quote_plus_injective; assumption.
  - apply quoted_has_no. reflexivity.
  - apply quoted_has_no. reflexivity.
Qed.

Lemma search_url_is_injective_witness :
  "C++ developer" = "C++ developer" /\ "Stoke-on-Trent" = "Stoke-on-Trent".
Proof.
  apply search_url_is_injective. reflexivity.
Defined.

(** ** The comma-separated settings *)

Lemma lstrip_idempotent (l : list ascii) :
  Py.lstrip_chars (Py.lstrip_chars l) = Py.lstrip_chars l.
Proof.
  induction l as [|c l IH]; [reflexivity|].
  cbn [Py.lstrip_chars]. destruct (Py.is_space c) eqn:E; [exact IH|].
  cbn [Py.lstrip_chars]. rewrite E. reflexivity.
Qed.

Lemma lstrip_snoc (l : list ascii) (c : ascii) :
  Py.is_space c = false ->
  Py.lstrip_chars (l ++ [c]) = Py.lstrip_chars l ++ [c].
Proof.
  intros Hc. induction l as [|x l IH]; cbn [Py.lstrip_chars app].
  - rewrite Hc. reflexivity.
  - destruct (Py.is_space x); [exact IH|reflexivity].
Qed.

Lemma lstrip_In (c : ascii) (l : list ascii) :
  In c (Py.lstrip_chars l) -> In c l.
Proof.
  induction l as [|x l IH]; cbn [Py.lstrip_chars]; [auto|].
  destruct (Py.is_space x); [right; auto|auto].
Qed.

(** The characters that [strip] keeps, as a list. *)
Lemma strip_chars (s : string) :
  list_ascii_of_string (Py.strip s)
  = rev (Py.lstrip_chars (rev (Py.lstrip_chars (list_ascii_of_string s)))).
Proof.
  unfold Py.strip. apply list_ascii_of_string_of_list_ascii.
Qed.

Lemma strip_idempotent (s : string) : Py.strip (Py.strip s) = Py.strip s.
Proof.
  unfold Py.strip at 1. rewrite strip_chars.
  set (l1 := Py.lstrip_chars (list_ascii_of_string s)).
  assert (H1 : Py.lstrip_chars (rev (Py.lstrip_chars (rev l1)))
               = rev (Py.lstrip_chars (rev l1))).
  { assert (Hl : l1 = [] \/ exists c r, l1 = c :: r /\ Py.is_space c = false).
    { unfold l1. induction (list_ascii_of_string s) as [|c r IH];
        [left; reflexivity|].
      cbn [Py.lstrip_chars]. destruct (Py.is_space c) eqn:E; [exact IH|].
      right. exists c, r. auto. }
    destruct Hl as [->|(c & r & -> & Hc)]; [reflexivity|].
    cbn [rev]. rewrite (lstrip_snoc _ _ Hc), rev_app_distr.
    cbn [rev app Py.lstrip_chars]. rewrite Hc. reflexivity. }
  rewrite H1, rev_involutive, lstrip_idempotent. reflexivity.
Qed.

Lemma strip_keeps_absent (c : ascii) (s : string) :
  count_char c s = 0 -> count_char c (Py.strip s) = 0.
Proof.
  unfold count_char. rewrite strip_chars. intros H.
  apply count_occ_not_In. intros Hin.
  apply (count_occ_not_In ascii_dec) in H. apply H.
  apply in_rev in Hin. apply lstrip_In in Hin.
  apply in_rev in Hin. apply lstrip_In in Hin. exact Hin.
Qed.

Lemma split_chars_length (sep : ascii) (l cur : list ascii) :
  length (Py.split_chars sep l cur) = S (count_occ ascii_dec l sep).
Proof.
  revert cur. induction l as [|c l IH]; intros cur; [reflexivity|].
  cbn [Py.split_chars count_occ].
  destruct (Ascii.eqb_spec c sep) as [->|Hne].
  - destruct (ascii_dec sep sep); [|congruence].
    cbn [length]. rewrite IH. reflexivity.
  - destruct (ascii_dec c sep); [congruence|]. apply IH.
Qed.

Lemma split_chars_pieces (sep : ascii) (l cur : list ascii) :
  ~ In sep cur ->
  Forall (fun p => count_char sep p = 0) (Py.split_chars sep l cur).
Proof.
  assert (Hpiece : forall cur, ~ In sep cur ->
            count_char sep (string_of_list_ascii (rev cur)) = 0).
  { intros cur0 H. unfold count_char.
    rewrite list_ascii_of_string_of_list_ascii.
    apply count_occ_not_In. intros Hin. apply H, in_rev, Hin. }
  revert cur. induction l as [|c l IH]; intros cur Hcur;
    cbn [Py.split_chars].
  - constructor; [apply Hpiece, Hcur|constructor].
  - destruct (Ascii.eqb_spec c sep) as [->|Hne].
    + constructor; [apply Hpiece, Hcur|]. apply IH. intros [].
    + apply IH. intros [E|Hin]; [congruence|auto].
Qed.



Lemma parsed_list_shape (raw : string) :
  let l := map Py.strip (Py.split ","%char raw) in
  length l = S (count_char "," raw)
  /\ Forall (fun k => Py.strip k = k /\ count_char "," k = 0) l.
Proof.
  cbv zeta. split.
  - rewrite length_map. apply split_chars_length.
  - rewrite Forall_map.
    eapply Forall_impl; [|apply split_chars_pieces; intros []].
    cbv beta. intros p Hp. split;
      [apply strip_idempotent|apply strip_keeps_absent, Hp].
Qed.


(** X16: whatever the two settings hold, the keyword list and the
    location list have one entry more than the setting has commas, so
    neither is ever empty, and every entry is stripped of surrounding
    white space and contains no comma.  An empty setting gives one
    empty keyword, not an empty list. *)
Theorem settings_lists_shape (s : Settings) :
  (length (scraping_keywords_list s) = S (count_char "," (SCRAPING_KEYWORDS s))
   /\ Forall (fun k => Py.strip k = k /\ count_char "," k = 0)
        (scraping_keywords_list s))
  /\ (length (scraping_locations_list s)
      = S (count_char "," (SCRAPING_LOCATIONS s))
      /\ Forall (fun l => Py.strip l = l /\ count_char "," l = 0)
           (scraping_locations_list s)).
Proof.
  split; apply parsed_list_shape.
Qed.


